(** * Ez_Yawmya: the running-balance ledger of [Ez_yawmya.py]

    A shallow embedding of the ledger logic of [RestaurantFinanceApp]
    ([load_data], [calculate_totals], [save_data], [show_first_day_dialog],
    [save_daily_data] and the expense list operations) and theorems about it.

    Modelling conventions.
    - The spreadsheet is a [list Row]; the file is an [option], [None] when
      it does not exist.
    - Amounts are exact numbers ([Z]) in the model of the application: its
      sums and differences are those of the source as long as no binary64
      addition of the source rounds.  Module [Binary64] has the functions of
      the store on binary64 numbers; what depends on the rounding is settled
      there.
    - Dates are the strings that the source stores, sorts and searches:
      ['yyyy-MM-dd'] texts produced by [QDate.toString].  [pd.Timestamp] and
      [QDate] are calendar days.
    - [float(text)] and the formatting of numbers are the fields of the class
      [Builtins]; [float] returns [None] where Python raises [ValueError].
    - The methods are computations on the state of the application (the file
      and the attributes of the form) that may raise. *)

From Stdlib Require Import ZArith Lia Bool Ascii String OrderedTypeEx DecimalString.
From Stdlib Require Floats.PrimFloat.
From stdpp Require Import base option list strings.

Local Open Scope Z_scope.

(** ** Date strings *)

Module Dates.

(** [Series.str.contains(pat)] on one cell: does [pat] occur somewhere in [s]?
    (The pattern is a regular expression in pandas; date texts consist of
    digits and hyphens, which match literally.) *)
Fixpoint contains (pat s : string) : bool :=
  String.prefix pat s ||
  match s with
  | EmptyString => false
  | String _ s' => contains pat s'
  end.

(** The decimal value of a digit character. *)
Definition digit (c : ascii) : option Z :=
  let n := Z.of_N (N_of_ascii c) in
  if (48 <=? n) && (n <=? 57) then Some (n - 48) else None.

Definition is_hyphen (c : ascii) : bool := (N_of_ascii c =? 45)%N.

Record Timestamp_t := mkTs { year : Z; month : Z; day : Z }.

Definition leap_year (y : Z) : bool :=
  ((y mod 4 =? 0) && negb (y mod 100 =? 0)) || (y mod 400 =? 0).

Definition days_in_month (y m : Z) : Z :=
  if m =? 2 then (if leap_year y then 29 else 28)
  else if (m =? 4) || (m =? 6) || (m =? 9) || (m =? 11) then 30
  else 31.

(** [t1 < t2] and [t1 <= t2] on timestamps of whole days. *)
Definition ts_ltb (t1 t2 : Timestamp_t) : bool :=
  (year t1 <? year t2) ||
  ((year t1 =? year t2) &&
   ((month t1 <? month t2) ||
    ((month t1 =? month t2) && (day t1 <? day t2)))).

Definition ts_leb (t1 t2 : Timestamp_t) : bool := negb (ts_ltb t2 t1).

(** The first and the last whole day that a [pd.Timestamp] can hold
    ([Timestamp.min] is 1677-09-21 00:12:43, [Timestamp.max] is
    2262-04-11 23:47:16). *)
Definition Timestamp_min : Timestamp_t := mkTs 1677 9 22.

Definition Timestamp_max : Timestamp_t := mkTs 2262 4 11.

(** [pd.Timestamp(text)] for a ['yyyy-MM-dd'] text; [None] when the text is
    not such a calendar date or the date is out of bounds (both raise a
    [ValueError] in pandas). *)
Definition Timestamp (s : string) : option Timestamp_t :=
  match list_ascii_of_string s with
  | [y1; y2; y3; y4; h1; m1; m2; h2; d1; d2] =>
      match digit y1, digit y2, digit y3, digit y4,
            digit m1, digit m2, digit d1, digit d2 with
      | Some a, Some b, Some c, Some d, Some e, Some f, Some g, Some h =>
          let y := 1000 * a + 100 * b + 10 * c + d in
          let m := 10 * e + f in
          let dd := 10 * g + h in
          if is_hyphen h1 && is_hyphen h2 &&
             (1 <=? m) && (m <=? 12) && (1 <=? dd) && (dd <=? days_in_month y m) &&
             ts_leb Timestamp_min (mkTs y m dd) &&
             ts_leb (mkTs y m dd) Timestamp_max
          then Some (mkTs y m dd) else None
      | _, _, _, _, _, _, _, _ => None
      end
  | _ => None
  end.

(** A well-formed date text: a ['yyyy-MM-dd'] text, as [QDate.toString]
    produces it, of a day that [pd.Timestamp] accepts. *)
Definition wf_date (s : string) : Prop := is_Some (Timestamp s).

End Dates.

Export Dates.

(** ** The spreadsheet *)

Module Ledger.

(** The [Expenses] cell: the literal marker text or the list of
    [(name, amount)] pairs.  [calculate_totals] writes the marker exactly when
    the list is empty. *)
Inductive ExpensesCell :=
| NoExpenses
| ExpenseList (l : list (string * Z)).

(** One row of the sheet, with the columns of the source.  The amounts are
    exact numbers here: the sums and differences of this module are those of
    the source as long as none of its binary64 additions rounds, on whole
    amounts for one.  Module [Binary64] below has the store on binary64
    numbers, for the runs in which the rounding shows. *)
Record Row := mkRow {
  Date : string;
  Cash : Z;
  Credit : Z;
  Credit_Withdraw : Z;
  Total_Sellings : Z;
  Total_Credit : Z;
  Total_Cash : Z;
  Total_Expenses : Z;
  Expenses : ExpensesCell
}.

Abbreviation DataFrame := (list Row).

(** Python exceptions that the modelled code can raise. *)
Inductive exn :=
| ValueError
| TypeError
| IndexError
| KeyError
| FileNotFoundError.

Inductive result (A : Type) :=
| Ok (a : A)
| Raise (e : exn).

Arguments Ok {A} a.
Arguments Raise {A} e.

Definition rbind {A B} (m : result A) (k : A -> result B) : result B :=
  match m with
  | Ok a => k a
  | Raise e => Raise e
  end.

Notation "'let!' x ':=' m 'in' k" := (rbind m (fun x => k))
  (at level 10, x name, m at level 100, k at level 200).

Definition from_option {A} (e : exn) (o : option A) : result A :=
  match o with
  | Some a => Ok a
  | None => Raise e
  end.

(** [pd.read_excel(self.excel_file)] *)
Definition read_excel (excel_file : option DataFrame) : result DataFrame :=
  from_option FileNotFoundError excel_file.

(** [df['Date'].astype(str).str.contains(date).any()] *)
Definition date_exists (df : DataFrame) (date : string) : bool :=
  existsb (fun r => contains date (Date r)) df.

(** [df.index[df['Date'].astype(str) == date].tolist()[0]] *)
Definition index_of (date : string) (df : DataFrame) : result nat :=
  from_option IndexError (fst <$> list_find (fun r => Date r = date) df).

(** One step of [sort_values('Date')]: strings compare lexicographically. *)
Fixpoint insert_sorted (r : Row) (df : DataFrame) : DataFrame :=
  match df with
  | [] => [r]
  | x :: df' =>
      if String.leb (Date r) (Date x) then r :: df
      else x :: insert_sorted r df'
  end.

(** [df.sort_values('Date')], as a stable insertion sort (for distinct
    dates the result does not depend on the sorting algorithm). *)
Definition sort_values (df : DataFrame) : DataFrame :=
  foldr insert_sorted [] df.

Definition add_totals (credit_difference cash_difference : Z) (r : Row) : Row :=
  mkRow (Date r) (Cash r) (Credit r) (Credit_Withdraw r) (Total_Sellings r)
        (Total_Credit r + credit_difference) (Total_Cash r + cash_difference)
        (Total_Expenses r) (Expenses r).

(** [df.iloc[idx:, 'Total Credit'] += credit_difference] and the same for
    ['Total Cash']; an [idx] past the end selects no row. *)
Definition add_totals_from (idx : nat) (credit_difference cash_difference : Z)
    (df : DataFrame) : DataFrame :=
  take idx df ++ (add_totals credit_difference cash_difference <$> drop idx df).

(** The record's own contribution to the running totals. *)
Definition credit_flow (data : Row) : Z := Credit data - Credit_Withdraw data.

Definition cash_flow (data : Row) : Z :=
  Cash data + Credit_Withdraw data - Total_Expenses data.

(** The branch of [save_data] for a date that is not in the sheet. *)
Definition save_new (data : Row) (df : DataFrame) : result DataFrame :=
  let df := sort_values (df ++ [data]) in
  let! idx := index_of (Date data) df in
  let! df := (if Nat.eqb idx 0 then
            let! row1 := from_option KeyError (df !! 1%nat) in
            let current_credit := Total_Credit row1 in
            let current_cash := Total_Cash row1 in
            let credit_difference := Total_Credit data - current_credit in
            let cash_difference := Total_Cash data - current_cash in
            Ok (add_totals_from 1 credit_difference cash_difference df)
          else Ok df) in
  let idx := S idx in
  let credit_difference := credit_flow data in
  let cash_difference := cash_flow data in
  let df := add_totals_from idx credit_difference cash_difference df in
  Ok (sort_values df).

(** The differences that the branch for an existing date computes. *)
Definition edit_credit_difference (data current : Row) : Z :=
  Total_Credit data - Total_Credit current.

Definition edit_cash_difference (data current : Row) : Z :=
  Total_Cash data - Total_Cash current.

(** The branch of [save_data] for a date that is in the sheet.  The final
    loop assigns every column of [data], so the row becomes [data]. *)
Definition save_existing (data : Row) (df : DataFrame) : result DataFrame :=
  let! idx := index_of (Date data) df in
  let! current := from_option KeyError (df !! idx) in
  let credit_difference := edit_credit_difference data current in
  let cash_difference := edit_cash_difference data current in
  let df := add_totals_from idx credit_difference cash_difference df in
  let df := <[idx := data]> df in
  Ok (sort_values df).

(** [save_data] on the frame read from the file. *)
Definition save_frame (data : Row) (df : DataFrame) : result DataFrame :=
  let date_exists := date_exists df (Date data) in
  match df with
  | [] => Ok (df ++ [data])
  | _ :: _ =>
      if negb date_exists then save_new data df
      else save_existing data df
  end.

(** [RestaurantFinanceApp.save_data]: the new content of the file. *)
Definition save_data (data : Row) (excel_file : option DataFrame)
    : result DataFrame :=
  let! df := read_excel excel_file in
  save_frame data df.

End Ledger.

Export Ledger.

(** ** The date picker *)

Module Qt.

(** A [QDate]: a calendar day. *)
Abbreviation QDate := Timestamp_t.

(** The default [minimumDate] of a [QDateEdit]. *)
Definition minimumDate : QDate := mkTs 1752 9 14.

(** A date that the picker can hold and that [pd.Timestamp] accepts.  (The
    picker goes on beyond [Timestamp_max]; for such a date [load_data] is
    left by the exception that [pd.Timestamp] raises.) *)
Definition valid_qdate (q : QDate) : bool :=
  (1 <=? month q) && (month q <=? 12) &&
  (1 <=? day q) && (day q <=? days_in_month (year q) (month q)) &&
  ts_leb minimumDate q && ts_leb q Timestamp_max.

Definition digit_char (v : Z) : ascii := ascii_of_N (Z.to_N (48 + v)).

Definition two_digits (v : Z) : list ascii :=
  [digit_char (v / 10 mod 10); digit_char (v mod 10)].

Definition four_digits (v : Z) : list ascii :=
  [digit_char (v / 1000 mod 10); digit_char (v / 100 mod 10);
   digit_char (v / 10 mod 10); digit_char (v mod 10)].

Definition hyphen : ascii := ascii_of_N 45.

(** [QDate.toString('yyyy-MM-dd')] *)
Definition toString (q : QDate) : string :=
  string_of_list_ascii
    (four_digits (year q) ++ hyphen :: two_digits (month q) ++
     hyphen :: two_digits (day q)).

(** [QDate.addDays(-1)] *)
Definition addDays_minus1 (q : QDate) : QDate :=
  if 1 <? day q then mkTs (year q) (month q) (day q - 1)
  else if 1 <? month q then
    mkTs (year q) (month q - 1) (days_in_month (year q) (month q - 1))
  else mkTs (year q - 1) 12 31.

End Qt.

Export Qt.

(** ** The application *)

Module App.

(** The built-in conversions between texts and numbers: [float(text)]
    ([None] stands for [ValueError]) and the formatting of a number, on the
    exact amounts of [Row]. *)
Class Builtins := {
  float : string -> option Z;
  fmt : Z -> string
}.

(** The message boxes of the source. *)
Inductive MessageBox :=
| critical_invalid_income
| critical_invalid_amount
| critical_invalid_expense
| critical_select_expense
| critical_all_data
| warning_no_initial_data
| information_saved.

(** What the user did with [FirstDayDataDialog]: pressed the button with the
    two texts in the entries, or closed the dialog. *)
Inductive DialogAnswer :=
| Accepted (credit_entry cash_entry : string)
| Rejected.

(** The attributes and widgets of [RestaurantFinanceApp] that the ledger
    logic reads or writes; [messages] records the message boxes shown, the
    latest first. *)
Record Session := mkSession {
  expenses : list (string * Z);
  last_day_credit : Z;
  last_day_cash : Z;
  date_picker : QDate;
  cash_entry : string;
  credit_entry : string;
  credit_withdraw_entry : string;
  expense_name_entry : string;
  expense_amount_entry : string;
  total_expenses_result : string;
  total_sellings_result : string;
  total_credit_result : string;
  total_cash_result : string;
  messages : list MessageBox
}.

Record State := mkState {
  excel_file : option DataFrame;
  ui : Session
}.

(** The result of [load_data], as the branch it took. *)
Inductive ResolvedContext :=
| NeedsBootstrap
| Exact (today_data last_day_data : Row)
| Interpolated (last_day_data : Row).

(** [dialog_shown]: [show_first_day_dialog] ran during the call. *)
Record Resolution := mkResolution {
  dialog_shown : bool;
  context : ResolvedContext
}.

(** Computations on the state that may raise. *)
Definition M (A : Type) : Type := State -> result A * State.

Definition ret {A} (a : A) : M A := fun st => (Ok a, st).

Definition bind {A B} (m : M A) (k : A -> M B) : M B :=
  fun st =>
    match m st with
    | (Ok a, st') => k a st'
    | (Raise e, st') => (Raise e, st')
    end.

Definition lift {A} (r : result A) : M A := fun st => (r, st).

Definition get_ui : M Session := fun st => (Ok (ui st), st).

Definition get_file : M (option DataFrame) := fun st => (Ok (excel_file st), st).

Definition to_excel (df : DataFrame) : M unit :=
  fun st => (Ok tt, mkState (Some df) (ui st)).

(** [try: body except ValueError: handler] *)
Definition try_except_ValueError (body handler : M unit) : M unit :=
  fun st =>
    match body st with
    | (Raise ValueError, st') => handler st'
    | other => other
    end.

Notation "'do!' x ':=' m 'in' k" := (bind m (fun x => k))
  (at level 10, x name, m at level 100, k at level 200).

Notation "m ';;' k" := (bind m (fun _ => k))
  (at level 100, k at level 200, right associativity).

(** The form after a message box was shown. *)
Definition notify (m : MessageBox) (s : Session) : Session :=
  mkSession (expenses s) (last_day_credit s) (last_day_cash s)
    (date_picker s) (cash_entry s) (credit_entry s)
    (credit_withdraw_entry s) (expense_name_entry s)
    (expense_amount_entry s) (total_expenses_result s)
    (total_sellings_result s) (total_credit_result s)
    (total_cash_result s) (m :: messages s).

Definition show_message (m : MessageBox) : M unit :=
  fun st => (Ok tt, mkState (excel_file st) (notify m (ui st))).

Definition set_expenses (l : list (string * Z)) (s : Session) : Session :=
  mkSession l (last_day_credit s) (last_day_cash s) (date_picker s)
    (cash_entry s) (credit_entry s) (credit_withdraw_entry s)
    (expense_name_entry s) (expense_amount_entry s) (total_expenses_result s)
    (total_sellings_result s) (total_credit_result s) (total_cash_result s)
    (messages s).

Definition set_last_day (credit cash : Z) (s : Session) : Session :=
  mkSession (expenses s) credit cash (date_picker s)
    (cash_entry s) (credit_entry s) (credit_withdraw_entry s)
    (expense_name_entry s) (expense_amount_entry s) (total_expenses_result s)
    (total_sellings_result s) (total_credit_result s) (total_cash_result s)
    (messages s).

Definition set_date_picker (q : QDate) (s : Session) : Session :=
  mkSession (expenses s) (last_day_credit s) (last_day_cash s) q
    (cash_entry s) (credit_entry s) (credit_withdraw_entry s)
    (expense_name_entry s) (expense_amount_entry s) (total_expenses_result s)
    (total_sellings_result s) (total_credit_result s) (total_cash_result s)
    (messages s).

Definition set_entries (cash credit credit_withdraw : string) (s : Session)
    : Session :=
  mkSession (expenses s) (last_day_credit s) (last_day_cash s) (date_picker s)
    cash credit credit_withdraw
    (expense_name_entry s) (expense_amount_entry s) (total_expenses_result s)
    (total_sellings_result s) (total_credit_result s) (total_cash_result s)
    (messages s).

Definition set_expense_entries (name amount : string) (s : Session) : Session :=
  mkSession (expenses s) (last_day_credit s) (last_day_cash s) (date_picker s)
    (cash_entry s) (credit_entry s) (credit_withdraw_entry s)
    name amount (total_expenses_result s)
    (total_sellings_result s) (total_credit_result s) (total_cash_result s)
    (messages s).

Definition set_results (total_expenses total_sellings total_credit total_cash
    : string) (s : Session) : Session :=
  mkSession (expenses s) (last_day_credit s) (last_day_cash s) (date_picker s)
    (cash_entry s) (credit_entry s) (credit_withdraw_entry s)
    (expense_name_entry s) (expense_amount_entry s) total_expenses
    total_sellings total_credit total_cash (messages s).

Definition modify_ui (f : Session -> Session) : M unit :=
  fun st => (Ok tt, mkState (excel_file st) (f (ui st))).

Section Operations.

Context `{Builtins}.

(** [FirstDayDataDialog.get_data] on the texts of the two entries. *)
Definition get_data (credit_entry cash_entry : string) : Z * Z :=
  match float credit_entry, float cash_entry with
  | Some credit, Some cash => (credit, cash)
  | _, _ => (0, 0)
  end.

(** [float(entry.text()) if entry.text() else 0] *)
Definition float_or_zero (text : string) : option Z :=
  if String.eqb text EmptyString then Some 0 else float text.

(** [sum(amount for _, amount in self.expenses)] *)
Definition sum_amounts (l : list (string * Z)) : Z :=
  foldr (fun e acc => snd e + acc) 0 l.

(** [self.expenses if self.expenses else <marker>] *)
Definition cell_of_expenses (l : list (string * Z)) : ExpensesCell :=
  match l with
  | [] => NoExpenses
  | _ :: _ => ExpenseList l
  end.

(** The list that [load_data] reads back from the cell. *)
Definition expenses_of_cell (c : ExpensesCell) : list (string * Z) :=
  match c with
  | NoExpenses => []
  | ExpenseList l => l
  end.

(** [calculate_totals]: the dictionary it returns, [None] after the
    [ValueError] handler ran. *)
Definition calculate_totals : M (option Row) :=
  do! s := get_ui in
  match float_or_zero (cash_entry s), float_or_zero (credit_entry s),
        float_or_zero (credit_withdraw_entry s) with
  | Some cash, Some credit, Some credit_withdraw =>
      let total_expenses := sum_amounts (expenses s) in
      let total_sellings := cash + credit in
      let total_credit := last_day_credit s + credit - credit_withdraw in
      let total_cash :=
        last_day_cash s + cash + credit_withdraw - total_expenses in
      modify_ui (set_results (fmt total_expenses) (fmt total_sellings)
                   (fmt total_credit) (fmt total_cash)) ;;
      ret (Some (mkRow (toString (date_picker s)) cash credit credit_withdraw
                   total_sellings total_credit total_cash total_expenses
                   (cell_of_expenses (expenses s))))
  | _, _, _ =>
      show_message critical_invalid_income ;;
      ret None
  end.

(** [self.save_data(data)] on the file of the state.  (For a new date the
    source also writes the sorted frame once before it adjusts the totals;
    that branch does not raise, so the file ends as computed here.) *)
Definition save_data_m (data : Row) : M unit :=
  do! file := get_file in
  do! df := lift (save_data data file) in
  to_excel df.

(** The row that [show_first_day_dialog] saves. *)
Definition initial_row (first_date : string) (credit cash : Z) : Row :=
  mkRow first_date 0 0 0 0 credit cash 0 NoExpenses.

(** [show_first_day_dialog], given what the user does with the dialog. *)
Definition show_first_day_dialog (dlg : DialogAnswer) : M unit :=
  match dlg with
  | Accepted credit_text cash_text =>
      let '(credit, cash) := get_data credit_text cash_text in
      modify_ui (set_last_day credit cash)
  | Rejected =>
      modify_ui (set_last_day 0 0) ;;
      show_message warning_no_initial_data
  end ;;
  do! s := get_ui in
  let first_date := toString (addDays_minus1 (date_picker s)) in
  save_data_m (initial_row first_date (last_day_credit s) (last_day_cash s)) ;;
  do! _ := calculate_totals in
  ret tt.

(** [clear_data] *)
Definition clear_data : M unit :=
  modify_ui (fun s =>
    set_last_day 0 0
      (set_entries "0.00" "0.00" "0.00"
         (set_results "0.00" "0.00" "0.00" "0.00" (set_expenses [] s)))).

(** The backward loop of [load_data] over [reverse df]: the first row whose
    date is earlier than the selected one, [default] when there is none. *)
Fixpoint scan_back (selected : Timestamp_t) (rev_df : DataFrame) (default : Row)
    : result Row :=
  match rev_df with
  | [] => Ok default
  | r :: rest =>
      let! t := from_option ValueError (Timestamp (Date r)) in
      if ts_ltb t selected then Ok r else scan_back selected rest default
  end.

(** What [load_data] puts on the form for a stored day: the balances of the
    day before, the stored figures and the stored expenses. *)
Definition show_exact (today_data last_day_data : Row) (s : Session) : Session :=
  set_expenses (expenses_of_cell (Expenses today_data))
    (set_results (total_expenses_result s)
       (fmt (Total_Sellings today_data))
       (fmt (Total_Credit today_data))
       (fmt (Total_Cash today_data))
       (set_entries (fmt (Cash today_data)) (fmt (Credit today_data))
          (fmt (Credit_Withdraw today_data))
          (set_last_day (Total_Credit last_day_data)
             (Total_Cash last_day_data) s))).

(** What [load_data] puts on the form for a day without a row: the balances
    of the nearest earlier day and blank entries. *)
Definition show_interpolated (last_day_data : Row) (s : Session) : Session :=
  set_results "0.00" EmptyString (fmt (Total_Credit last_day_data))
    (fmt (Total_Cash last_day_data))
    (set_entries EmptyString EmptyString EmptyString
       (set_last_day (Total_Credit last_day_data)
          (Total_Cash last_day_data) s)).

(** The part of [load_data] after the frame [df] was read; [shown] tells
    whether the first day dialog ran already, [dlg] is what the user does
    with the dialog when it is shown. *)
Definition load_frame (selected_date : string) (dlg : DialogAnswer)
    (shown : bool) (df : DataFrame) : M Resolution :=
  match df with
  | [] =>
      show_first_day_dialog dlg ;;
      ret (mkResolution true NeedsBootstrap)
  | row0 :: _ =>
      if date_exists df selected_date then
        do! idx := lift (index_of selected_date df) in
        if Nat.eqb idx 0 then
          show_first_day_dialog dlg ;;
          ret (mkResolution true NeedsBootstrap)
        else
          do! today_data := lift (from_option IndexError (df !! idx)) in
          do! last_day_data :=
            lift (from_option IndexError (df !! (idx - 1)%nat)) in
          modify_ui (show_exact today_data last_day_data) ;;
          ret (mkResolution shown (Exact today_data last_day_data))
      else
        do! selected_timestamp :=
          lift (from_option ValueError (Timestamp selected_date)) in
        do! first_timestamp :=
          lift (from_option ValueError (Timestamp (Date row0))) in
        if ts_ltb selected_timestamp first_timestamp then
          show_first_day_dialog dlg ;;
          ret (mkResolution true NeedsBootstrap)
        else
          do! last_day_data :=
            lift (scan_back selected_timestamp (reverse df) row0) in
          modify_ui (show_interpolated last_day_data) ;;
          ret (mkResolution shown (Interpolated last_day_data))
  end.

(** [load_data(selected_date)] *)
Definition load_data (selected_date : string) (dlg : DialogAnswer)
    : M Resolution :=
  clear_data ;;
  do! file := get_file in
  do! shown :=
    match file with
    | Some _ => ret false
    | None =>
        to_excel [] ;;
        show_first_day_dialog dlg ;;
        ret true
    end in
  do! file := get_file in
  do! df := lift (read_excel file) in
  load_frame selected_date dlg shown df.

(** [on_date_changed], after the picker took the date [q]. *)
Definition on_date_changed (q : QDate) (dlg : DialogAnswer) : M Resolution :=
  modify_ui (set_date_picker q) ;;
  load_data (toString q) dlg.

(** [save_daily_data].  When [calculate_totals] returned [None],
    [save_data(None)] reads the file and then fails on [data['Date']] with a
    [TypeError], which the handler does not catch. *)
Definition save_daily_data : M unit :=
  try_except_ValueError
    (do! data := calculate_totals in
     match data with
     | Some data => save_data_m data
     | None =>
         do! file := get_file in
         do! _ := lift (read_excel file) in
         lift (Raise TypeError)
     end ;;
     show_message information_saved)
    (show_message critical_all_data).

(** The search loop of [edit_expense] over the rest of the list: the first
    pair with the selected name and amount is replaced.  The selected amount
    text is converted only when a name matches. *)
Fixpoint edit_loop (selected_expense : string * string) (new : string * Z)
    (l : list (string * Z)) : result (list (string * Z)) :=
  match l with
  | [] => Ok []
  | (name, amount) :: rest =>
      if String.eqb name (fst selected_expense) then
        let! selected_amount :=
          from_option ValueError (float (snd selected_expense)) in
        if amount =? selected_amount then Ok (new :: rest)
        else let! rest' := edit_loop selected_expense new rest in
             Ok ((name, amount) :: rest')
      else
        let! rest' := edit_loop selected_expense new rest in
        Ok ((name, amount) :: rest')
  end.

(** The search loop of [delete_expense]. *)
Fixpoint delete_loop (selected_expense : string * string)
    (l : list (string * Z)) : result (list (string * Z)) :=
  match l with
  | [] => Ok []
  | (name, amount) :: rest =>
      if String.eqb name (fst selected_expense) then
        let! selected_amount :=
          from_option ValueError (float (snd selected_expense)) in
        if amount =? selected_amount then Ok rest
        else let! rest' := delete_loop selected_expense rest in
             Ok ((name, amount) :: rest')
      else
        let! rest' := delete_loop selected_expense rest in
        Ok ((name, amount) :: rest')
  end.

(** [add_expense] *)
Definition add_expense : M unit :=
  try_except_ValueError
    (do! s := get_ui in
     let expense_name := expense_name_entry s in
     do! expense_amount :=
       lift (from_option ValueError (float (expense_amount_entry s))) in
     modify_ui (set_expenses (expenses s ++ [(expense_name, expense_amount)])) ;;
     modify_ui (set_expense_entries EmptyString EmptyString) ;;
     do! _ := calculate_totals in
     ret tt)
    (show_message critical_invalid_amount).

(** [edit_expense]; [current_item] is the selected item of the list widget,
    as the two pieces of its text around the colon. *)
Definition edit_expense (current_item : option (string * string)) : M unit :=
  try_except_ValueError
    (match current_item with
     | Some selected_expense =>
         do! s := get_ui in
         let expense_name := expense_name_entry s in
         do! expense_amount :=
           lift (from_option ValueError (float (expense_amount_entry s))) in
         do! l := lift (edit_loop selected_expense
                          (expense_name, expense_amount) (expenses s)) in
         modify_ui (set_expenses l) ;;
         do! _ := calculate_totals in
         ret tt
     | None => show_message critical_select_expense
     end)
    (show_message critical_invalid_amount).

(** [delete_expense] *)
Definition delete_expense (current_item : option (string * string)) : M unit :=
  try_except_ValueError
    (match current_item with
     | Some selected_expense =>
         do! s := get_ui in
         do! l := lift (delete_loop selected_expense (expenses s)) in
         modify_ui (set_expenses l) ;;
         do! _ := calculate_totals in
         ret tt
     | None => show_message critical_select_expense
     end)
    (show_message critical_invalid_expense).

(** What the user can do with the window. *)
Inductive Event :=
| DateChanged (q : QDate) (dlg : DialogAnswer)
| TypeEntries (cash credit credit_withdraw : string)
| TypeExpense (name amount : string)
| AddExpense
| EditExpense (current_item : option (string * string))
| DeleteExpense (current_item : option (string * string))
| Calculate
| SaveDailyData.

(** The handler of an event. *)
Definition handler (e : Event) : M unit :=
  match e with
  | DateChanged q dlg => do! _ := on_date_changed q dlg in ret tt
  | TypeEntries cash credit credit_withdraw =>
      modify_ui (set_entries cash credit credit_withdraw)
  | TypeExpense name amount => modify_ui (set_expense_entries name amount)
  | AddExpense => add_expense
  | EditExpense current_item => edit_expense current_item
  | DeleteExpense current_item => delete_expense current_item
  | Calculate => do! _ := calculate_totals in ret tt
  | SaveDailyData => save_daily_data
  end.

(** The state after the handler ran; after an exception that escapes the
    handler it is the state at the point where it was raised. *)
Definition run_event (e : Event) (st : State) : State := snd (handler e st).

(** The picker only produces dates of its range; the dates beyond the bounds
    of [pd.Timestamp] are left out (see [valid_qdate]). *)
Definition event_ok (e : Event) : bool :=
  match e with
  | DateChanged q _ => valid_qdate q
  | _ => true
  end.

(** The attributes after [__init__] and [initUI], before the first load. *)
Definition initial_session (today : QDate) : Session :=
  mkSession [] 0 0 today EmptyString EmptyString EmptyString EmptyString
    EmptyString "0.00" EmptyString EmptyString EmptyString [].

(** The state after [__init__] on a given file. *)
Definition startup (today : QDate) (dlg : DialogAnswer)
    (file : option DataFrame) : State :=
  snd (load_data (toString today) dlg (mkState file (initial_session today))).

(** The states of the application: a first run without a file, later runs on
    the file that an earlier run left, and the events of a run. *)
Inductive reachable : State -> Prop :=
| reachable_first_run today dlg :
    valid_qdate today = true ->
    reachable (startup today dlg None)
| reachable_restart st today dlg :
    reachable st ->
    valid_qdate today = true ->
    reachable (startup today dlg (excel_file st))
| reachable_event st e :
    reachable st ->
    event_ok e = true ->
    reachable (run_event e st).

End Operations.

(** The running totals of [cur] derive from those of [prev]. *)
Definition consistent_pair (prev cur : Row) : Prop :=
  Total_Credit cur = Total_Credit prev + Credit cur - Credit_Withdraw cur /\
  Total_Cash cur =
    Total_Cash prev + Cash cur + Credit_Withdraw cur - Total_Expenses cur.

(** Every adjacent pair of the sheet is consistent. *)
Definition forward_consistent (df : DataFrame) : Prop :=
  forall i prev cur,
    df !! i = Some prev -> df !! S i = Some cur -> consistent_pair prev cur.

(** The dates of the sheet increase strictly, as strings. *)
Definition date_ltb (a b : Row) : bool := String.ltb (Date a) (Date b).

Fixpoint sortedb (df : DataFrame) : bool :=
  match df with
  | [] => true
  | r :: df' => forallb (date_ltb r) df' && sortedb df'
  end.

Definition date_ordered (df : DataFrame) : Prop := sortedb df = true.

Definition wf_dates (df : DataFrame) : Prop := Forall (fun r => wf_date (Date r)) df.

End App.

Export App.

(** ** Invariants of the sheet and of the form *)

Module Invariants.

(** The shape of a text that [Timestamp] accepts, with the calendar day that
    its digits denote. *)
Inductive date_text : string -> Timestamp_t -> Prop :=
| date_text_intro y1 y2 y3 y4 h1 m1 m2 h2 d1 d2 a b c d e f g h :
    digit y1 = Some a -> digit y2 = Some b -> digit y3 = Some c ->
    digit y4 = Some d -> digit m1 = Some e -> digit m2 = Some f ->
    digit d1 = Some g -> digit d2 = Some h ->
    is_hyphen h1 = true -> is_hyphen h2 = true ->
    date_text
      (String y1 (String y2 (String y3 (String y4 (String h1
         (String m1 (String m2 (String h2 (String d1 (String d2
            EmptyString))))))))))
      (mkTs (1000 * a + 100 * b + 10 * c + d) (10 * e + f) (10 * g + h)).

(** Calendar days that [toString] renders with four year digits and that
    [Timestamp] reads back. *)
Definition printable (q : QDate) : Prop :=
  0 <= year q <= 9999 /\ 1 <= month q <= 12 /\
  1 <= day q <= days_in_month (year q) (month q) /\
  ts_leb Timestamp_min q = true /\ ts_leb q Timestamp_max = true.

(** The row is dated strictly before (after, not before) the date [d]. *)
Definition before (d : string) (r : Row) : Prop := String.ltb (Date r) d = true.

Definition after (d : string) (r : Row) : Prop := String.ltb d (Date r) = true.

Definition not_before (d : string) (r : Row) : Prop :=
  String.ltb (Date r) d = false.

(** [chain prev l]: every row of [l] is consistent with the row before it,
    the first one with [prev]. *)
Fixpoint chain (prev : Row) (l : DataFrame) : Prop :=
  match l with
  | [] => True
  | r :: l' => consistent_pair prev r /\ chain r l'
  end.

Definition chain_all (l : DataFrame) : Prop :=
  match l with
  | [] => True
  | r :: l' => chain r l'
  end.

(** The sheet as the application keeps it: ordered dates, consistent running
    totals, and a first row without flows. *)
Record store_ok (df : DataFrame) : Prop := {
  store_sorted : sortedb df = true;
  store_wf : wf_dates df;
  store_chain : chain_all df;
  store_head : exists row0 rest,
    df = row0 :: rest /\ credit_flow row0 = 0 /\ cash_flow row0 = 0
}.

(** The balances cached on the form are those of the last row before the
    selected date. *)
Definition session_ok (df : DataFrame) (d : string) (credit cash : Z) : Prop :=
  exists pre prior post,
    df = pre ++ prior :: post /\ before d prior /\
    Forall (not_before d) post /\
    credit = Total_Credit prior /\ cash = Total_Cash prior.

(** What the ledger logic depends on: the file and the cached attributes. *)
Definition view (st : State) : option DataFrame * QDate * Z * Z :=
  (excel_file st, date_picker (ui st), last_day_credit (ui st),
   last_day_cash (ui st)).

(** The invariant of the running application. *)
Definition Inv (st : State) : Prop :=
  exists df,
    excel_file st = Some df /\ store_ok df /\
    valid_qdate (date_picker (ui st)) = true /\
    session_ok df (toString (date_picker (ui st)))
      (last_day_credit (ui st)) (last_day_cash (ui st)).

Section WithBuiltins.

Context `{Builtins}.

(** The balances that [show_first_day_dialog] takes from the dialog. *)
Definition dialog_balances (dlg : DialogAnswer) : Z * Z :=
  match dlg with
  | Accepted credit_text cash_text => get_data credit_text cash_text
  | Rejected => (0, 0)
  end.

(** What [load_frame] does on an ordered sheet, by the branch it takes: the
    first day dialog, the stored row of the date with the row before it, or
    the nearest earlier row. *)
Inductive load_outcome (d : string) (dlg : DialogAnswer) (shown : bool)
    (df : DataFrame) (st : State) : Resolution -> State -> Prop :=
| outcome_bootstrap st' :
    Forall (not_before d) df ->
    show_first_day_dialog dlg st = (Ok tt, st') ->
    load_outcome d dlg shown df st (mkResolution true NeedsBootstrap) st'
| outcome_exact pre prior cur post :
    df = pre ++ prior :: cur :: post ->
    before d prior -> Date cur = d ->
    load_outcome d dlg shown df st
      (mkResolution shown (Exact cur prior))
      (mkState (excel_file st) (show_exact cur prior (ui st)))
| outcome_interpolated pre prior post :
    df = pre ++ prior :: post ->
    before d prior -> Forall (after d) post ->
    load_outcome d dlg shown df st
      (mkResolution shown (Interpolated prior))
      (mkState (excel_file st) (show_interpolated prior (ui st))).

(** The selected list item stands for this pair of the expenses list. *)
Definition matches (selected_expense : string * string) (e : string * Z)
    : Prop :=
  fst e = fst selected_expense /\ float (snd selected_expense) = Some (snd e).

End WithBuiltins.

End Invariants.

Export Invariants.

(** ** Concrete data for the examples *)

Module Examples.

(** The text before the first dot, and the text after it when there is one. *)
Fixpoint split_dot (s : string) : string * option string :=
  match s with
  | EmptyString => (EmptyString, None)
  | String c s' =>
      if Ascii.eqb c "." then (EmptyString, Some s')
      else let '(i, f) := split_dot s' in (String c i, f)
  end.

Fixpoint all_zeros (s : string) : bool :=
  match s with
  | EmptyString => true
  | String c s' => Ascii.eqb c "0" && all_zeros s'
  end.

(** A conversion for the examples: decimal integers, with an optional
    fraction of zeros. *)
Definition example_float (s : string) : option Z :=
  match split_dot s with
  | (i, None) => Z.of_int <$> NilZero.int_of_string i
  | (i, Some f) =>
      if all_zeros f then Z.of_int <$> NilZero.int_of_string i else None
  end.

Definition example_fmt (z : Z) : string := NilZero.string_of_int (Z.to_int z).

Definition example_builtins : Builtins :=
  {| float := example_float; fmt := example_fmt |}.

Definition march (d : Z) : QDate := mkTs 2024 3 d.

(** A first run on 10 March 2024 with opening balances 100 and 50. *)
Definition first_run : State :=
  @startup example_builtins (march 10) (Accepted "100" "50") None.

(** The first trading day: income 10 cash and 20 credit, 5 withdrawn, one
    expense of 3. *)
Definition first_day : State :=
  @run_event example_builtins SaveDailyData
    (@run_event example_builtins AddExpense
       (@run_event example_builtins (TypeExpense "ice" "3")
          (@run_event example_builtins (TypeEntries "10" "20" "5") first_run))).

(** Two days later another day is entered. *)
Definition two_days : State :=
  @run_event example_builtins SaveDailyData
    (@run_event example_builtins (TypeEntries "1" "2" "0")
       (@run_event example_builtins (DateChanged (march 12) Rejected)
          first_day)).

(** Then the day in between. *)
Definition three_days : State :=
  @run_event example_builtins SaveDailyData
    (@run_event example_builtins (TypeEntries "7" "0" "0")
       (@run_event example_builtins (DateChanged (march 11) Rejected)
          two_days)).

Definition first_day_df : DataFrame :=
  Eval vm_compute in default [] (excel_file first_day).

Definition two_days_df : DataFrame :=
  Eval vm_compute in default [] (excel_file two_days).

Definition three_days_df : DataFrame :=
  Eval vm_compute in default [] (excel_file three_days).

(** A sheet whose date cell carries a time of day. *)
Definition timed_row : Row :=
  mkRow "2024-01-15 00:00:00" 0 0 0 0 100 50 0 NoExpenses.

(** The record of 11 March as the form computes it. *)
Definition march_11 : Row :=
  mkRow "2024-03-11" 7 0 0 7 115 69 0 NoExpenses.

(** A record with flows, dated before the first run's opening row. *)
Definition early_day : Row :=
  mkRow "2024-03-01" 4 3 0 7 5 6 0 NoExpenses.

(** An opening row with other balances, dated before the stored rows. *)
Definition early_boot : Row := initial_row "2024-03-01" 5 6.

(** The form of the first day with a text that is no number in the expense
    amount entry, and with one in the cash entry. *)
Definition bad_amount : State :=
  @run_event example_builtins (TypeExpense "tea" "x") first_day.

Definition bad_income : State :=
  @run_event example_builtins (TypeEntries "abc" "1" "1") first_day.

(** A fresh form on an empty sheet. *)
Definition empty_sheet : State :=
  mkState (Some []) (initial_session (march 10)).

(** A form on the sheet of two days with 11 March selected, and a form
    without a file. *)
Definition gap_selected : State :=
  mkState (Some two_days_df) (initial_session (march 11)).

Definition no_file : State := mkState None (initial_session (march 10)).

(** A form whose expenses list holds the same pair twice, with a new name
    and amount typed in. *)
Definition duplicates : State :=
  mkState (Some first_day_df)
    (set_expense_entries "milk" "4"
       (set_expenses [("ice", 3); ("tea", 3); ("ice", 3); ("tea", 3)]
          (initial_session (march 10)))).

End Examples.

Export Examples.

(** ** Rows that the application writes *)

Module Written.

(** The row of [show_first_day_dialog]: no flows and no expenses. *)
Definition opening_row (r : Row) : Prop :=
  Cash r = 0 /\ Credit r = 0 /\ Credit_Withdraw r = 0 /\
  Total_Sellings r = 0 /\ Total_Expenses r = 0 /\ Expenses r = NoExpenses.

(** The derived columns of a row agree with its own entries: the sellings
    are the two incomes, the expenses total is the sum of the listed amounts,
    and a list of expenses in the cell is not empty. *)
Definition row_ok (r : Row) : Prop :=
  Total_Sellings r = Cash r + Credit r /\
  Total_Expenses r = sum_amounts (expenses_of_cell (Expenses r)) /\
  Expenses r <> ExpenseList [].

(** [placed data df df']: the sheet [df'] is [df] with the record [data] at
    the place of its date: the rows before the date as they were, the row of
    the date, if there was one, replaced by the record, and the rows after
    the date with some amounts added to their running totals. *)
Definition placed (data : Row) (df df' : DataFrame) : Prop :=
  exists pre mid post c k,
    df = pre ++ mid ++ post /\
    (mid = [] \/ exists cur, mid = [cur] /\ Date cur = Date data) /\
    Forall (before (Date data)) pre /\ Forall (after (Date data)) post /\
    df' = pre ++ data :: (add_totals c k <$> post).

(** One write of the file by the application: nothing, or [save_data] of a
    well-formed row that is an opening row or is dated after a stored row. *)
Definition file_step (df df' : DataFrame) : Prop :=
  df' = df \/
  exists data,
    wf_date (Date data) /\ row_ok data /\
    (opening_row data \/ exists r, r ∈ df /\ before (Date data) r) /\
    save_frame data df = Ok df'.

End Written.

Export Written.

(** ** The items of the expenses list widget *)

Module ExpenseItems.

(** [s.split(sep)] for a separator that is not empty, scanning from the
    left; [skip] counts the characters of a separator just found that are
    still to be passed over. *)
Fixpoint split_from (sep : string) (skip : nat) (s : string) : list string :=
  match s with
  | EmptyString => [EmptyString]
  | String c s' =>
      match skip with
      | S k => split_from sep k s'
      | O =>
          if String.prefix sep s then
            EmptyString :: split_from sep (String.length sep - 1) s'
          else
            match split_from sep 0 s' with
            | piece :: pieces => String c piece :: pieces
            | [] => [String c EmptyString]
            end
      end
  end.

(** [s.split(sep)]; an empty separator is a [ValueError]. *)
Definition split (sep s : string) : result (list string) :=
  match sep with
  | EmptyString => Raise ValueError
  | String _ _ => Ok (split_from sep 0 s)
  end.

(** The text of a list item, [f"{name}: {amount:.2f}"], from the name and
    the text of the amount. *)
Definition item_text (name amount_text : string) : string :=
  name +:+ ": " +:+ amount_text.

(** [on_expense_selected(item)] on the text of the clicked item. *)
Definition on_expense_selected (text : string) : M unit :=
  do! selected_expense := lift (split ": " text) in
  do! name := lift (from_option IndexError (selected_expense !! 0%nat)) in
  modify_ui (fun s => set_expense_entries name (expense_amount_entry s) s) ;;
  do! amount := lift (from_option IndexError (selected_expense !! 1%nat)) in
  modify_ui (fun s => set_expense_entries (expense_name_entry s) amount s).

(** [current_item.text().split(': ')] as [edit_expense] and [delete_expense]
    read it: the pieces at index 0 and 1. *)
Definition selected_pieces (text : string) : result (string * string) :=
  let! selected_expense := split ": " text in
  let! name := from_option IndexError (selected_expense !! 0%nat) in
  let! amount := from_option IndexError (selected_expense !! 1%nat) in
  Ok (name, amount).

End ExpenseItems.

Export ExpenseItems.

(** ** The store on binary64 amounts *)

Module Binary64.

(** The amounts of the source are Python floats: [float] of the text of an
    entry, and the sums and differences of such numbers.  The modules above
    compute with exact amounts, which is what the source computes as long as
    no addition rounds (on whole amounts, for one).  This module has the
    functions of the store once more, on binary64 numbers with the rounding
    of the source, for the runs in which the rounding shows.  A decimal
    numeral stands for the nearest binary64 number, as in [float('0.1')]. *)

Import PrimFloat.

Local Open Scope float_scope.
Local Set Warnings "-inexact-float".

Inductive ExpensesCell :=
| NoExpenses
| ExpenseList (l : list (string * float)).

Record Row := mkRow {
  Date : string;
  Cash : float;
  Credit : float;
  Credit_Withdraw : float;
  Total_Sellings : float;
  Total_Credit : float;
  Total_Cash : float;
  Total_Expenses : float;
  Expenses : ExpensesCell
}.

Abbreviation DataFrame := (list Row).

(** [pd.read_excel(self.excel_file)] *)
Definition read_excel (excel_file : option DataFrame) : result DataFrame :=
  from_option FileNotFoundError excel_file.

(** [df['Date'].astype(str).str.contains(date).any()] *)
Definition date_exists (df : DataFrame) (date : string) : bool :=
  existsb (fun r => contains date (Date r)) df.

(** [df.index[df['Date'].astype(str) == date].tolist()[0]] *)
Definition index_of (date : string) (df : DataFrame) : result nat :=
  from_option IndexError (fst <$> list_find (fun r => Date r = date) df).

Fixpoint insert_sorted (r : Row) (df : DataFrame) : DataFrame :=
  match df with
  | [] => [r]
  | x :: df' =>
      if String.leb (Date r) (Date x) then r :: df
      else x :: insert_sorted r df'
  end.

(** [df.sort_values('Date')] *)
Definition sort_values (df : DataFrame) : DataFrame :=
  foldr insert_sorted [] df.

(** One row of [df.iloc[idx:, 'Total Credit'] += credit_difference] and of
    the same for ['Total Cash']: one binary64 addition each. *)
Definition add_totals (credit_difference cash_difference : float) (r : Row)
    : Row :=
  mkRow (Date r) (Cash r) (Credit r) (Credit_Withdraw r) (Total_Sellings r)
        (Total_Credit r + credit_difference) (Total_Cash r + cash_difference)
        (Total_Expenses r) (Expenses r).

Definition add_totals_from (idx : nat) (credit_difference cash_difference : float)
    (df : DataFrame) : DataFrame :=
  take idx df ++ (add_totals credit_difference cash_difference <$> drop idx df).

(** [data['Credit'] - data['Credit Withdraw']] and
    [data['Cash'] + data['Credit Withdraw'] - data['Total Expenses']] *)
Definition credit_flow (data : Row) : float := Credit data - Credit_Withdraw data.

Definition cash_flow (data : Row) : float :=
  Cash data + Credit_Withdraw data - Total_Expenses data.

(** The branch of [save_data] for a date that is not in the sheet. *)
Definition save_new (data : Row) (df : DataFrame) : result DataFrame :=
  let df := sort_values (df ++ [data]) in
  let! idx := index_of (Date data) df in
  let! df := (if Nat.eqb idx 0 then
            let! row1 := from_option KeyError (df !! 1%nat) in
            let current_credit := Total_Credit row1 in
            let current_cash := Total_Cash row1 in
            let credit_difference := Total_Credit data - current_credit in
            let cash_difference := Total_Cash data - current_cash in
            Ok (add_totals_from 1 credit_difference cash_difference df)
          else Ok df) in
  let idx := S idx in
  let credit_difference := credit_flow data in
  let cash_difference := cash_flow data in
  let df := add_totals_from idx credit_difference cash_difference df in
  Ok (sort_values df).

(** The branch of [save_data] for a date that is in the sheet. *)
Definition save_existing (data : Row) (df : DataFrame) : result DataFrame :=
  let! idx := index_of (Date data) df in
  let! current := from_option KeyError (df !! idx) in
  let credit_difference := Total_Credit data - Total_Credit current in
  let cash_difference := Total_Cash data - Total_Cash current in
  let df := add_totals_from idx credit_difference cash_difference df in
  let df := <[idx := data]> df in
  Ok (sort_values df).

Definition save_frame (data : Row) (df : DataFrame) : result DataFrame :=
  let date_exists := date_exists df (Date data) in
  match df with
  | [] => Ok (df ++ [data])
  | _ :: _ =>
      if negb date_exists then save_new data df
      else save_existing data df
  end.

(** [RestaurantFinanceApp.save_data]: the new content of the file. *)
Definition save_data (data : Row) (excel_file : option DataFrame)
    : result DataFrame :=
  let! df := read_excel excel_file in
  save_frame data df.

(** The row that [show_first_day_dialog] saves. *)
Definition initial_row (first_date : string) (credit cash : float) : Row :=
  mkRow first_date 0 0 0 0 credit cash 0 NoExpenses.

(** The dictionary of [calculate_totals], from the numbers of the three
    entries, the cached balances and the expenses list.  [sum] adds the
    amounts from the left, starting at 0; the other sums are evaluated from
    the left as well. *)
Definition calculate_totals (date : string)
    (last_day_credit last_day_cash cash credit credit_withdraw : float)
    (expenses : list (string * float)) : Row :=
  let total_expenses := foldl (fun acc e => acc + snd e) 0 expenses in
  let total_sellings := cash + credit in
  let total_credit := last_day_credit + credit - credit_withdraw in
  let total_cash :=
    last_day_cash + cash + credit_withdraw - total_expenses in
  mkRow date cash credit credit_withdraw total_sellings total_credit
    total_cash total_expenses
    (match expenses with
     | [] => NoExpenses
     | _ :: _ => ExpenseList expenses
     end).

(** The backward loop of [load_data]. *)
Fixpoint scan_back (selected : Timestamp_t) (rev_df : DataFrame) (default : Row)
    : result Row :=
  match rev_df with
  | [] => Ok default
  | r :: rest =>
      let! t := from_option ValueError (Timestamp (Date r)) in
      if ts_ltb t selected then Ok r else scan_back selected rest default
  end.

(** [last_day_data] of [load_data] for a date that has no row and is not
    before the date of the first row: the first row, replaced by the last
    row dated before the selected date. *)
Definition last_day_data (selected_date : string) (df : DataFrame)
    : result Row :=
  let! row0 := from_option IndexError (df !! 0%nat) in
  let! selected_timestamp := from_option ValueError (Timestamp selected_date) in
  scan_back selected_timestamp (reverse df) row0.

(** The two equations of a row and the row before it, with the equality of
    binary64 numbers ([==]). *)
Definition consistent_pair (prev cur : Row) : bool :=
  PrimFloat.eqb (Total_Credit cur)
    (Total_Credit prev + Credit cur - Credit_Withdraw cur) &&
  PrimFloat.eqb (Total_Cash cur)
    (Total_Cash prev + Cash cur + Credit_Withdraw cur - Total_Expenses cur).

Fixpoint chain (prev : Row) (l : DataFrame) : bool :=
  match l with
  | [] => true
  | r :: l' => consistent_pair prev r && chain r l'
  end.

(** Every adjacent pair of the sheet satisfies the two equations. *)
Definition forward_consistent (df : DataFrame) : bool :=
  match df with
  | [] => true
  | r :: l => chain r l
  end.

(** A first run on 10 March 2024 with an opening credit balance of 0.1;
    then 12 March with a credit income of 0.4, and after it 11 March with a
    credit income of 0.1.  Each record is computed from the balances of the
    opening row, the last row before its date when it is entered. *)
Definition opening : Row := initial_row "2024-03-09" 0.1 0.

Definition sheet_1 : DataFrame :=
  Eval vm_compute in
    match save_data opening (Some []) with Ok df => df | Raise _ => [] end.





(** The same first run, then 10 March with a credit income of 0.2, and then
    9 March selected, the first stored date, with 0.2 typed into the first
    day dialog as the credit balance. *)
Definition record_10 : Row :=
  calculate_totals "2024-03-10" (Total_Credit opening) (Total_Cash opening)
    0 0.2 0 [].

Definition sheet_10 : DataFrame :=
  Eval vm_compute in
    match save_data record_10 (Some sheet_1) with Ok df => df | Raise _ => [] end.

Definition earlier_opening : Row := initial_row "2024-03-08" 0.2 0.

Definition sheet_rebased : DataFrame :=
  Eval vm_compute in
    match save_data earlier_opening (Some sheet_10) with
    | Ok df => df
    | Raise _ => []
    end.

End Binary64.

Module DateFacts.

Lemma prefix_length a b : String.prefix a b = true -> (String.length a <= String.length b)%nat.
Proof.
  revert a. induction b as [|c b IH]; intros [|c' a]; simpl; try lia; try discriminate.
  destruct (ascii_dec c' c); [|discriminate]. intros Hp. apply IH in Hp. lia.
Qed.

Lemma prefix_same_length a b :
  String.length a = String.length b -> String.prefix a b = true -> a = b.
Proof.
  revert a. induction b as [|c b IH]; intros [|c' a]; simpl; try discriminate; auto.
  intros Hl. destruct (ascii_dec c' c) as [->|]; [|discriminate].
  intros Hp. f_equal. apply IH; [lia | assumption].
Qed.

Lemma prefix_refl a : String.prefix a a = true.
Proof.
  induction a as [|c a IH]; simpl; auto.
  destruct (ascii_dec c c); [assumption | congruence].
Qed.

Lemma contains_refl s : contains s s = true.
Proof. destruct s; cbn [contains]; rewrite prefix_refl; reflexivity. Qed.

Lemma contains_short pat s :
  (String.length s < String.length pat)%nat -> contains pat s = false.
Proof.
  induction s as [|c s IH]; intros Hl.
  - destruct pat; simpl in *; [lia | reflexivity].
  - cbn [contains]. rewrite IH by (simpl in Hl; lia).
    destruct (String.prefix pat (String c s)) eqn:Hp; [|reflexivity].
    apply prefix_length in Hp. lia.
Qed.

Lemma contains_same_length pat s :
  String.length pat = String.length s -> contains pat s = true <-> pat = s.
Proof.
  intros Hl. split; [|intros ->; apply contains_refl].
  destruct s as [|c s].
  - destruct pat; [reflexivity | discriminate].
  - cbn [contains]. rewrite (contains_short pat s) by (simpl in Hl; lia).
    rewrite orb_false_r. apply prefix_same_length; assumption.
Qed.

End DateFacts.

Module TimestampFacts.
Import DateFacts.

Lemma digit_Some c v :
  digit c = Some v -> Z.of_N (N_of_ascii c) = 48 + v /\ 0 <= v <= 9.
Proof.
  unfold digit. intros Hd.
  destruct (Z.leb_spec 48 (Z.of_N (N_of_ascii c)));
    destruct (Z.leb_spec (Z.of_N (N_of_ascii c)) 57); simpl in Hd;
    inversion Hd; lia.
Qed.

Lemma ascii_compare_Z c c' :
  Ascii.compare c c' = (Z.of_N (N_of_ascii c) ?= Z.of_N (N_of_ascii c')).
Proof. unfold Ascii.compare. symmetry. apply N2Z.inj_compare. Qed.

Lemma is_hyphen_code c : is_hyphen c = true -> Z.of_N (N_of_ascii c) = 45.
Proof. unfold is_hyphen. intros Hh. apply N.eqb_eq in Hh. rewrite Hh. reflexivity. Qed.

Lemma Timestamp_date_text s t : Timestamp s = Some t -> date_text s t.
Proof.
  unfold Timestamp. intros Ht.
  rewrite <- (string_of_list_ascii_of_string s).
  destruct (list_ascii_of_string s)
    as [|y1 [|y2 [|y3 [|y4 [|h1 [|m1 [|m2 [|h2 [|d1 [|d2 [|x l]]]]]]]]]]];
    try discriminate.
  destruct (digit y1) eqn:?, (digit y2) eqn:?, (digit y3) eqn:?,
    (digit y4) eqn:?, (digit m1) eqn:?, (digit m2) eqn:?,
    (digit d1) eqn:?, (digit d2) eqn:?; try discriminate.
  destruct (is_hyphen h1) eqn:?; [|discriminate].
  destruct (is_hyphen h2) eqn:?; [|discriminate].
  simpl in Ht.
  match type of Ht with (if ?c then _ else _) = _ => destruct c end;
    [|discriminate].
  injection Ht as <-. simpl. constructor; assumption.
Qed.

Lemma wf_date_length s : wf_date s -> String.length s = 10%nat.
Proof. intros [t Ht]. apply Timestamp_date_text in Ht. destruct Ht. reflexivity. Qed.

Ltac bool_to_Z :=
  repeat match goal with
    | |- context [?a <? ?b] => destruct (Z.ltb_spec a b)
    | |- context [?a =? ?b] => destruct (Z.eqb_spec a b)
    end; simpl; try reflexivity; try lia.

Lemma date_text_ltb a ta b tb :
  date_text a ta -> date_text b tb -> ts_ltb ta tb = String.ltb a b.
Proof.
  intros Ha Hb. destruct Ha, Hb.
  repeat match goal with
    | Hd : digit _ = Some _ |- _ => apply digit_Some in Hd; destruct Hd
    | Hh : is_hyphen _ = true |- _ => apply is_hyphen_code in Hh
    end.
  unfold String.ltb, ts_ltb. cbn [String.compare year month day].
  rewrite !ascii_compare_Z.
  repeat match goal with Hc : Z.of_N _ = _ |- _ => rewrite Hc; clear Hc end.
  repeat match goal with
    | |- context [(48 + ?x ?= 48 + ?y)] =>
        destruct (Z.compare_spec (48 + x) (48 + y));
        [assert (x = y) by lia; subst | bool_to_Z | bool_to_Z]
    end.
  change (45 ?= 45) with Eq. cbn iota.
  repeat match goal with
    | |- context [(48 + ?x ?= 48 + ?y)] =>
        destruct (Z.compare_spec (48 + x) (48 + y));
        [assert (x = y) by lia; subst | bool_to_Z | bool_to_Z]
    end.
  all: try (change (45 ?= 45) with Eq; cbn iota).
  all: repeat match goal with
    | |- context [(48 + ?x ?= 48 + ?y)] =>
        destruct (Z.compare_spec (48 + x) (48 + y));
        [assert (x = y) by lia; subst | bool_to_Z | bool_to_Z]
    end.
  all: bool_to_Z.
Qed.

Lemma Timestamp_ltb a ta b tb :
  Timestamp a = Some ta -> Timestamp b = Some tb ->
  ts_ltb ta tb = String.ltb a b.
Proof. intros Ha Hb. eapply date_text_ltb; apply Timestamp_date_text; eassumption. Qed.

End TimestampFacts.

Module QtFacts.
Import DateFacts TimestampFacts.

Lemma digit_digit_char v : 0 <= v <= 9 -> digit (digit_char v) = Some v.
Proof.
  intros Hv. unfold digit, digit_char.
  rewrite N_ascii_embedding by lia.
  rewrite Z2N.id by lia.
  destruct (Z.leb_spec 48 (48 + v)); [|lia].
  destruct (Z.leb_spec (48 + v) 57); [|lia].
  simpl. f_equal. lia.
Qed.

Lemma days_in_month_bounds y m : 28 <= days_in_month y m <= 31.
Proof.
  unfold days_in_month.
  destruct (m =? 2); [destruct (leap_year y); lia|].
  destruct ((m =? 4) || (m =? 6) || (m =? 9) || (m =? 11)); lia.
Qed.

Lemma ts_ltb_true t1 t2 :
  ts_ltb t1 t2 = true <->
  year t1 < year t2 \/
  (year t1 = year t2 /\
   (month t1 < month t2 \/ (month t1 = month t2 /\ day t1 < day t2))).
Proof.
  unfold ts_ltb.
  rewrite !orb_true_iff, !andb_true_iff, !orb_true_iff, !andb_true_iff,
    !Z.ltb_lt, !Z.eqb_eq. reflexivity.
Qed.

Lemma ts_leb_true t1 t2 :
  ts_leb t1 t2 = true <->
  ~ (year t2 < year t1 \/
     (year t2 = year t1 /\
      (month t2 < month t1 \/ (month t2 = month t1 /\ day t2 < day t1)))).
Proof.
  unfold ts_leb. rewrite negb_true_iff, <- ts_ltb_true.
  destruct (ts_ltb t2 t1); split; congruence.
Qed.

Lemma valid_qdate_spec q :
  valid_qdate q = true <->
  1 <= month q <= 12 /\ 1 <= day q <= days_in_month (year q) (month q) /\
  ts_leb minimumDate q = true /\ ts_leb q Timestamp_max = true.
Proof.
  unfold valid_qdate. rewrite !andb_true_iff, !Z.leb_le. tauto.
Qed.

Lemma Timestamp_toString q : printable q -> Timestamp (toString q) = Some q.
Proof.
  intros (Hy & Hm & Hd & Hmin & Hmax).
  pose proof (days_in_month_bounds (year q) (month q)).
  unfold Timestamp, toString.
  rewrite list_ascii_of_string_of_list_ascii.
  unfold four_digits, two_digits. cbn [app].
  rewrite !digit_digit_char
    by (match goal with |- _ <= ?a mod 10 <= _ =>
          pose proof (Z.mod_pos_bound a 10) end; lia).
  change (is_hyphen hyphen) with true. cbn [andb].
  destruct q as [y m d]; cbn [year month day] in Hy, Hm, Hd, H |- *.
  assert (Ey : 1000 * (y / 1000 mod 10) + 100 * (y / 100 mod 10) +
               10 * (y / 10 mod 10) + y mod 10 = y)
    by (Z.to_euclidean_division_equations; lia).
  assert (Em : 10 * (m / 10 mod 10) + m mod 10 = m)
    by (Z.to_euclidean_division_equations; lia).
  assert (Ed : 10 * (d / 10 mod 10) + d mod 10 = d)
    by (Z.to_euclidean_division_equations; lia).
  rewrite Ey, Em, Ed, Hmin, Hmax.
  destruct (Z.leb_spec 1 m); [|lia]. destruct (Z.leb_spec m 12); [|lia].
  destruct (Z.leb_spec 1 d); [|lia].
  destruct (Z.leb_spec d (days_in_month y m)); [|lia].
  reflexivity.
Qed.

Lemma valid_printable q : valid_qdate q = true -> printable q.
Proof.
  rewrite valid_qdate_spec. unfold printable. intros (Hm & Hd & Hmin & Hmax).
  pose proof Hmin as Hmin'. pose proof Hmax as Hmax'.
  rewrite ts_leb_true in Hmin, Hmax |- *.
  cbn [year month day minimumDate Timestamp_min Timestamp_max] in *.
  repeat split; try lia. exact Hmax'.
Qed.

Lemma addDays_minus1_printable q :
  valid_qdate q = true -> printable (addDays_minus1 q).
Proof.
  rewrite valid_qdate_spec. intros (Hm & Hd & Hmin & Hmax).
  unfold printable. rewrite !ts_leb_true in *.
  cbn [year month day minimumDate Timestamp_min Timestamp_max] in *.
  pose proof (days_in_month_bounds (year q) (month q)).
  unfold addDays_minus1.
  destruct (Z.ltb_spec 1 (day q)); cbn [year month day]; [lia|].
  destruct (Z.ltb_spec 1 (month q)); cbn [year month day].
  - pose proof (days_in_month_bounds (year q) (month q - 1)). lia.
  - change (days_in_month (year q - 1) 12) with 31. lia.
Qed.

Lemma addDays_minus1_lt q :
  valid_qdate q = true -> ts_ltb (addDays_minus1 q) q = true.
Proof.
  rewrite valid_qdate_spec. intros (Hm & Hd & _).
  unfold addDays_minus1, ts_ltb.
  destruct (Z.ltb_spec 1 (day q)); cbn [year month day]; [bool_to_Z|].
  destruct (Z.ltb_spec 1 (month q)); cbn [year month day]; bool_to_Z.
Qed.

Lemma wf_date_toString q : valid_qdate q = true -> wf_date (toString q).
Proof. intros Hq. exists q. apply Timestamp_toString, valid_printable, Hq. Qed.

Lemma wf_date_first_date q :
  valid_qdate q = true -> wf_date (toString (addDays_minus1 q)).
Proof.
  intros Hq. eexists. apply Timestamp_toString, addDays_minus1_printable, Hq.
Qed.

Lemma first_date_ltb q :
  valid_qdate q = true ->
  String.ltb (toString (addDays_minus1 q)) (toString q) = true.
Proof.
  intros Hq.
  rewrite <- (Timestamp_ltb _ (addDays_minus1 q) _ q).
  - apply addDays_minus1_lt, Hq.
  - apply Timestamp_toString, addDays_minus1_printable, Hq.
  - apply Timestamp_toString, valid_printable, Hq.
Qed.

End QtFacts.

Module StringOrder.

Lemma ltb_lt a b : String.ltb a b = true <-> String_as_OT.lt a b.
Proof.
  unfold String.ltb. rewrite <- String_as_OT.cmp_lt. unfold String_as_OT.cmp.
  destruct (String.compare a b); split; congruence.
Qed.

Lemma ltb_trans a b c :
  String.ltb a b = true -> String.ltb b c = true -> String.ltb a c = true.
Proof. rewrite !ltb_lt. apply String_as_OT.lt_trans. Qed.

Lemma ltb_irrefl a : String.ltb a a = false.
Proof.
  destruct (String.ltb a a) eqn:E; [|reflexivity].
  apply ltb_lt in E. apply String_as_OT.lt_not_eq in E. exfalso. apply E. reflexivity.
Qed.

Lemma leb_ltb a b : String.leb a b = negb (String.ltb b a).
Proof.
  unfold String.leb, String.ltb. rewrite (String.compare_antisym b a).
  destruct (String.compare a b); reflexivity.
Qed.

Lemma ltb_neq a b : String.ltb a b = true -> a <> b.
Proof. intros Hlt ->. rewrite ltb_irrefl in Hlt. discriminate. Qed.

Lemma ltb_asym a b : String.ltb a b = true -> String.ltb b a = false.
Proof.
  intros Hab. destruct (String.ltb b a) eqn:Hba; [|reflexivity].
  pose proof (ltb_trans _ _ _ Hab Hba) as Haa. rewrite ltb_irrefl in Haa. discriminate.
Qed.

Lemma ltb_total a b : String.ltb a b = false -> String.ltb b a = false -> a = b.
Proof.
  unfold String.ltb. rewrite (String.compare_antisym b a).
  destruct (String.compare a b) eqn:E; simpl; try discriminate.
  intros _ _. apply String.compare_eq_iff. assumption.
Qed.

End StringOrder.

Module SortFacts.
Import StringOrder.

Lemma sortedb_cons r l :
  sortedb (r :: l) = true <-> Forall (after (Date r)) l /\ sortedb l = true.
Proof.
  cbn [sortedb]. rewrite andb_true_iff, forallb_forall, Forall_forall.
  unfold after, date_ltb. split; intros [H1 H2]; split; auto.
  - intros x Hx. apply H1. apply list_elem_of_In, Hx.
  - intros x Hx. apply H1. apply list_elem_of_In, Hx.
Qed.

Lemma sortedb_app l1 l2 :
  sortedb (l1 ++ l2) = true <->
  sortedb l1 = true /\ sortedb l2 = true /\
  Forall (fun x => Forall (after (Date x)) l2) l1.
Proof.
  induction l1 as [|x l1 IH]; cbn [app].
  - split; [intros ?; repeat split; auto | intros (_ & ? & _); auto].
  - rewrite !sortedb_cons, IH, Forall_app, Forall_cons. tauto.
Qed.

Lemma sortedb_same_dates (l l' : DataFrame) :
  Date <$> l = Date <$> l' -> sortedb l = sortedb l'.
Proof.
  revert l'. induction l as [|x l IH]; intros [|x' l'] Hd; try discriminate; auto.
  cbn in Hd. injection Hd as Hx Hl. cbn [sortedb]. rewrite (IH l' Hl). f_equal.
  clear IH. unfold date_ltb. rewrite Hx. clear Hx.
  revert l' Hl. induction l as [|y l IH]; intros [|y' l'] Hl; try discriminate; auto.
  cbn in Hl. injection Hl as Hy Hl. cbn [forallb]. rewrite Hy, (IH l' Hl). reflexivity.
Qed.

Lemma Date_add_totals c k r : Date (add_totals c k r) = Date r.
Proof. reflexivity. Qed.

Lemma Date_fmap_add_totals c k (l : DataFrame) :
  Date <$> (add_totals c k <$> l) = Date <$> l.
Proof. rewrite <- list_fmap_compose. apply list_fmap_ext. intros; reflexivity. Qed.

Lemma insert_sorted_first data l :
  Forall (after (Date data)) l -> insert_sorted data l = data :: l.
Proof.
  destruct l as [|x l]; [reflexivity|]. intros Hl. apply Forall_cons in Hl as [Hx _].
  cbn [insert_sorted]. rewrite leb_ltb, (ltb_asym _ _ Hx). reflexivity.
Qed.

Lemma insert_sorted_middle data pre post :
  Forall (before (Date data)) pre -> Forall (after (Date data)) post ->
  insert_sorted data (pre ++ post) = pre ++ data :: post.
Proof.
  intros Hpre Hpost. induction Hpre as [|x pre Hx Hpre IH]; cbn [app].
  - apply insert_sorted_first, Hpost.
  - cbn [insert_sorted]. rewrite leb_ltb. unfold before in Hx. rewrite Hx. cbn [negb].
    rewrite IH. reflexivity.
Qed.

Lemma sort_values_sorted df : sortedb df = true -> sort_values df = df.
Proof.
  induction df as [|x df IH]; [reflexivity|]. intros Hs.
  apply sortedb_cons in Hs as [Hx Hs]. unfold sort_values in *. cbn [foldr].
  rewrite (IH Hs). apply insert_sorted_first, Hx.
Qed.

Lemma sort_values_snoc data pre post :
  sortedb (pre ++ post) = true ->
  Forall (before (Date data)) pre -> Forall (after (Date data)) post ->
  sort_values ((pre ++ post) ++ [data]) = pre ++ data :: post.
Proof.
  intros Hs Hpre Hpost. unfold sort_values. rewrite foldr_app. cbn [foldr insert_sorted].
  revert Hs. induction Hpre as [|x pre Hx Hpre IH]; cbn [app] in *; intros Hs.
  - revert Hs. induction Hpost as [|y post Hy Hpost IH]; intros Hs; [reflexivity|].
    apply sortedb_cons in Hs as [Hyp Hs]. cbn [foldr]. rewrite (IH Hs).
    cbn [insert_sorted]. rewrite leb_ltb. unfold after in Hy. rewrite Hy. cbn [negb].
    f_equal. apply insert_sorted_first, Hyp.
  - apply sortedb_cons in Hs as [Hxp Hs]. cbn [foldr]. rewrite (IH Hs).
    apply insert_sorted_first. apply Forall_app in Hxp as [Hx1 Hx2].
    apply Forall_app. split; [assumption|]. apply Forall_cons. split; [exact Hx | assumption].
Qed.

End SortFacts.

Module SaveFacts.
Import DateFacts TimestampFacts StringOrder SortFacts.

Lemma date_exists_true df date :
  (exists r, r ∈ df /\ Date r = date) -> date_exists df date = true.
Proof.
  intros (r & Hr & <-). unfold date_exists. apply existsb_exists.
  exists r. split; [apply list_elem_of_In, Hr | apply contains_refl].
Qed.

Lemma date_exists_wf df date :
  wf_date date -> wf_dates df ->
  date_exists df date = true <-> exists r, r ∈ df /\ Date r = date.
Proof.
  intros Hd Hdf. split; [|apply date_exists_true].
  unfold date_exists. rewrite existsb_exists. intros (r & Hr & Hc).
  apply list_elem_of_In in Hr. exists r. split; [assumption|].
  unfold wf_dates in Hdf. rewrite Forall_forall in Hdf.
  symmetry. apply contains_same_length; [|assumption].
  rewrite !wf_date_length; auto.
Qed.

Lemma date_exists_false df date :
  wf_date date -> wf_dates df ->
  Forall (fun r => Date r <> date) df -> date_exists df date = false.
Proof.
  intros Hd Hdf Hne. destruct (date_exists df date) eqn:E; [|reflexivity].
  apply date_exists_wf in E as (r & Hr & He); [|assumption..].
  rewrite Forall_forall in Hne. destruct (Hne r Hr He).
Qed.

Lemma index_of_middle date pre cur post :
  Forall (fun r => Date r <> date) pre -> Date cur = date ->
  index_of date (pre ++ cur :: post) = Ok (length pre).
Proof.
  intros Hpre Hcur. unfold index_of.
  assert (list_find (fun r => Date r = date) (pre ++ cur :: post)
          = Some (length pre, cur)) as ->; [|reflexivity].
  apply list_find_Some. split; [|split; [assumption|]].
  - rewrite lookup_app_r, Nat.sub_diag by lia. reflexivity.
  - intros j y Hj Hlt. rewrite lookup_app_l in Hj by assumption.
    rewrite Forall_forall in Hpre. apply Hpre. eapply list_elem_of_lookup_2, Hj.
Qed.

Lemma before_neq d r : before d r -> Date r <> d.
Proof. apply ltb_neq. Qed.

Lemma after_neq d r : after d r -> Date r <> d.
Proof. intros Ha He. apply ltb_neq in Ha. congruence. Qed.

Lemma add_totals_from_app c k (pre post : DataFrame) :
  add_totals_from (length pre) c k (pre ++ post) = pre ++ (add_totals c k <$> post).
Proof.
  unfold add_totals_from. rewrite take_app_length, drop_app_length. reflexivity.
Qed.

Lemma add_totals_from_app_S c k (pre : DataFrame) x post :
  add_totals_from (S (length pre)) c k (pre ++ x :: post)
  = pre ++ x :: (add_totals c k <$> post).
Proof.
  replace (pre ++ x :: post) with ((pre ++ [x]) ++ post) by (rewrite <- app_assoc; reflexivity).
  replace (S (length pre)) with (length (pre ++ [x])) by (rewrite length_app; simpl; lia).
  rewrite add_totals_from_app, <- app_assoc. reflexivity.
Qed.

Lemma add_totals_add_totals c1 k1 c2 k2 r :
  add_totals c1 k1 (add_totals c2 k2 r) = add_totals (c2 + c1) (k2 + k1) r.
Proof. unfold add_totals; cbn. f_equal; lia. Qed.

Lemma add_totals_zero r : add_totals 0 0 r = r.
Proof. destruct r. unfold add_totals; cbn. f_equal; lia. Qed.

Lemma save_frame_nonempty data df :
  df <> [] ->
  save_frame data df
  = if negb (date_exists df (Date data)) then save_new data df
    else save_existing data df.
Proof. destruct df; [congruence | reflexivity]. Qed.

Lemma sortedb_insert data pre post :
  sortedb (pre ++ post) = true ->
  Forall (before (Date data)) pre -> Forall (after (Date data)) post ->
  sortedb (pre ++ data :: post) = true.
Proof.
  intros Hs Hpre Hpost. apply sortedb_app in Hs as (Hs1 & Hs2 & H12).
  apply sortedb_app. split; [assumption|]. split.
  - apply sortedb_cons. split; assumption.
  - rewrite Forall_forall in *. intros x Hx. apply Forall_cons. split.
    + apply Hpre, Hx.
    + apply H12, Hx.
Qed.

Lemma sortedb_replace data cur pre post :
  Date data = Date cur ->
  sortedb (pre ++ cur :: post) = sortedb (pre ++ data :: post).
Proof.
  intros Hd. apply sortedb_same_dates. rewrite !fmap_app, !fmap_cons, Hd. reflexivity.
Qed.

Lemma sortedb_shift_post c k pre x post :
  sortedb (pre ++ x :: (add_totals c k <$> post)) = sortedb (pre ++ x :: post).
Proof.
  apply sortedb_same_dates.
  rewrite !fmap_app, !fmap_cons, Date_fmap_add_totals. reflexivity.
Qed.

Lemma insert_sorted_length r (l : DataFrame) :
  length (insert_sorted r l) = S (length l).
Proof.
  induction l as [|x l IH]; [reflexivity|]. cbn [insert_sorted].
  destruct (String.leb (Date r) (Date x)); cbn [length]; [reflexivity|].
  rewrite IH. reflexivity.
Qed.

Lemma insert_sorted_elem r x (l : DataFrame) :
  x ∈ insert_sorted r l <-> x = r \/ x ∈ l.
Proof.
  induction l as [|y l IH]; cbn [insert_sorted].
  - rewrite list_elem_of_singleton, elem_of_nil. tauto.
  - destruct (String.leb (Date r) (Date y)).
    + rewrite elem_of_cons. reflexivity.
    + rewrite !elem_of_cons, IH. tauto.
Qed.

Lemma sort_values_length (l : DataFrame) : length (sort_values l) = length l.
Proof.
  unfold sort_values. induction l as [|x l IH]; [reflexivity|].
  cbn [foldr length]. rewrite insert_sorted_length, IH. reflexivity.
Qed.

Lemma sort_values_elem x (l : DataFrame) : x ∈ sort_values l <-> x ∈ l.
Proof.
  unfold sort_values. induction l as [|y l IH]; [reflexivity|].
  cbn [foldr]. rewrite insert_sorted_elem, elem_of_cons, IH. reflexivity.
Qed.

(** The branch for a new date never raises: the record that was appended is
    found again, and the frame has a second row when it is found first.  So
    nothing interrupts the method between its two writes of the file. *)
Lemma save_new_returns data df :
  df <> [] -> exists df', save_new data df = Ok df'.
Proof.
  intros Hne. unfold save_new, index_of.
  destruct (list_find (fun r => Date r = Date data) (sort_values (df ++ [data])))
    as [[idx r]|] eqn:Hfind.
  - cbn [fmap option_fmap option_map fst from_option rbind].
    destruct idx as [|idx]; cbn [Nat.eqb]; [|eexists; reflexivity].
    destruct (sort_values (df ++ [data]) !! 1%nat) as [row1|] eqn:H1.
    + cbn [from_option rbind]. eexists. reflexivity.
    + apply lookup_ge_None in H1.
      rewrite sort_values_length, length_app in H1. cbn [length] in H1.
      destruct df; [congruence | cbn [length] in H1; lia].
  - exfalso. apply list_find_None in Hfind. rewrite Forall_forall in Hfind.
    apply (Hfind data); [|reflexivity].
    apply sort_values_elem, elem_of_app. right. left.
Qed.

(** A new date that falls after some stored date. *)
Lemma save_frame_new_middle data pre post :
  pre <> [] ->
  sortedb (pre ++ post) = true ->
  Forall (before (Date data)) pre -> Forall (after (Date data)) post ->
  date_exists (pre ++ post) (Date data) = false ->
  save_frame data (pre ++ post)
  = Ok (pre ++ data :: (add_totals (credit_flow data) (cash_flow data) <$> post)).
Proof.
  intros Hne Hs Hpre Hpost Hex.
  rewrite save_frame_nonempty by (destruct pre; [congruence | discriminate]).
  rewrite Hex. cbn [negb]. unfold save_new.
  rewrite (sort_values_snoc data pre post Hs Hpre Hpost).
  rewrite index_of_middle; [|eapply Forall_impl; [exact Hpre | apply before_neq] | reflexivity].
  cbn [rbind]. destruct (length pre) eqn:Hlen; [destruct pre; [congruence | discriminate]|].
  cbn [Nat.eqb rbind]. rewrite <- Hlen. rewrite add_totals_from_app_S.
  f_equal. apply sort_values_sorted.
  rewrite sortedb_shift_post. apply sortedb_insert; assumption.
Qed.

(** A new date that predates every stored date. *)
Lemma save_frame_new_first data row0 rest :
  sortedb (row0 :: rest) = true ->
  Forall (after (Date data)) (row0 :: rest) ->
  date_exists (row0 :: rest) (Date data) = false ->
  save_frame data (row0 :: rest)
  = Ok (data ::
        (add_totals (credit_flow data) (cash_flow data) <$>
           (add_totals (Total_Credit data - Total_Credit row0)
                       (Total_Cash data - Total_Cash row0) <$> row0 :: rest))).
Proof.
  intros Hs Hpost Hex. cbn [save_frame]. rewrite Hex. cbn [negb]. unfold save_new.
  pose proof (sort_values_snoc data [] (row0 :: rest) Hs (Forall_nil_2 _) Hpost)
    as Hsort.
  change ([] ++ row0 :: rest) with (row0 :: rest) in Hsort.
  change ([] ++ data :: row0 :: rest) with (data :: row0 :: rest) in Hsort.
  rewrite Hsort.
  pose proof (index_of_middle (Date data) [] data (row0 :: rest)
                (Forall_nil_2 _) eq_refl) as Hidx. cbn [app length] in Hidx.
  rewrite Hidx. cbn [rbind Nat.eqb lookup list_lookup from_option].
  pose proof (fun c k post => add_totals_from_app_S c k [] data post) as Hadd.
  cbn [app length] in Hadd. rewrite !Hadd.
  f_equal. apply sort_values_sorted.
  pose proof (fun c k post => sortedb_shift_post c k [] data post) as Hsh.
  cbn [app] in Hsh. rewrite !Hsh.
  apply (sortedb_insert data [] (row0 :: rest)); auto.
Qed.

(** A date that is already stored. *)
Lemma save_frame_existing data pre cur post :
  sortedb (pre ++ cur :: post) = true ->
  Date cur = Date data ->
  save_frame data (pre ++ cur :: post)
  = Ok (pre ++ data ::
        (add_totals (edit_credit_difference data cur)
                    (edit_cash_difference data cur) <$> post)).
Proof.
  intros Hs Hd.
  rewrite save_frame_nonempty by (destruct pre; discriminate).
  rewrite date_exists_true
    by (exists cur; split; [apply elem_of_app; right; left | assumption]).
  cbn [negb]. unfold save_existing.
  assert (Hpre : Forall (fun r => Date r <> Date data) pre).
  { apply sortedb_app in Hs as (_ & _ & H12). rewrite Forall_forall in *.
    intros x Hx. specialize (H12 x Hx). apply Forall_cons in H12 as [H1 _].
    unfold after in H1. rewrite Hd in H1. apply ltb_neq, H1. }
  rewrite index_of_middle by assumption. cbn [rbind].
  rewrite lookup_app_r, Nat.sub_diag by lia. cbn [lookup list_lookup from_option rbind].
  rewrite add_totals_from_app. cbn [fmap list_fmap].
  rewrite insert_app_r_alt, Nat.sub_diag by lia. cbn [insert list_insert].
  f_equal. apply sort_values_sorted.
  rewrite sortedb_shift_post, <- (sortedb_replace data cur) by (symmetry; assumption).
  assumption.
Qed.

End SaveFacts.

Module ChainFacts.
Import StringOrder SortFacts.

Lemma chain_all_forward df : chain_all df <-> forward_consistent df.
Proof.
  unfold forward_consistent. destruct df as [|r df]; cbn [chain_all].
  { split; [intros _ i ? ? Hi; destruct i; discriminate | auto]. }
  revert r. induction df as [|x df IH]; intros r; cbn [chain].
  - split; [|auto]. intros _ [|i] prev cur H1 H2; discriminate.
  - rewrite IH. split.
    + intros [Hc Hrest] [|i] prev cur H1 H2.
      * cbn in H1, H2. congruence.
      * apply (Hrest i); assumption.
    + intros Hall. split.
      * apply (Hall 0%nat); reflexivity.
      * intros i prev cur H1 H2. apply (Hall (S i)); assumption.
Qed.

Lemma chain_app prev l1 x l2 :
  chain prev (l1 ++ x :: l2) <-> chain prev (l1 ++ [x]) /\ chain x l2.
Proof.
  revert prev. induction l1 as [|y l1 IH]; intros prev.
  - change (chain prev (x :: l2) <-> chain prev [x] /\ chain x l2).
    cbn [chain]. tauto.
  - change (consistent_pair prev y /\ chain y (l1 ++ x :: l2) <->
            (consistent_pair prev y /\ chain y (l1 ++ [x])) /\ chain x l2).
    rewrite IH. tauto.
Qed.

Lemma chain_all_app l1 x l2 :
  chain_all (l1 ++ x :: l2) <-> chain_all (l1 ++ [x]) /\ chain x l2.
Proof.
  destruct l1 as [|y l1].
  - change (chain x l2 <-> True /\ chain x l2). tauto.
  - apply (chain_app y l1 x l2).
Qed.

Lemma chain_shift prev prev' c k l :
  Total_Credit prev' = Total_Credit prev + c ->
  Total_Cash prev' = Total_Cash prev + k ->
  chain prev l -> chain prev' (add_totals c k <$> l).
Proof.
  revert prev prev'. induction l as [|r l IH]; intros prev prev' Hc Hk; cbn [chain fmap list_fmap].
  - auto.
  - intros [[H1 H2] Hl]. split.
    + unfold consistent_pair, add_totals; cbn. lia.
    + apply (IH r); [reflexivity | reflexivity | assumption].
Qed.

Lemma chain_all_shift c k l : chain_all l -> chain_all (add_totals c k <$> l).
Proof.
  destruct l as [|r l]; cbn [chain_all fmap list_fmap]; [auto|].
  apply chain_shift; reflexivity.
Qed.

Lemma wf_dates_shift c k l : wf_dates l -> wf_dates (add_totals c k <$> l).
Proof.
  unfold wf_dates. rewrite Forall_fmap. intros Hl.
  eapply Forall_impl; [exact Hl | auto].
Qed.

Lemma Forall_dates_shift (P : string -> Prop) c k (l : DataFrame) :
  Forall (fun r => P (Date r)) l ->
  Forall (fun r => P (Date r)) (add_totals c k <$> l).
Proof. rewrite Forall_fmap. intros Hl. eapply Forall_impl; [exact Hl | auto]. Qed.

End ChainFacts.

Module StepFacts.
Import DateFacts TimestampFacts StringOrder SortFacts SaveFacts ChainFacts.

Lemma not_before_cases d r : not_before d r -> Date r = d \/ after d r.
Proof.
  unfold not_before, after. intros Hnb.
  destruct (String.ltb d (Date r)) eqn:E; [right; reflexivity|].
  left. apply ltb_total; assumption.
Qed.

Lemma after_not_before d r : after d r -> not_before d r.
Proof. apply ltb_asym. Qed.

Lemma after_trans d r r' : after d r -> after (Date r) r' -> after d r'.
Proof. unfold after. apply ltb_trans. Qed.

Lemma before_after_trans d r r' : before d r -> after d r' -> after (Date r) r'.
Proof. unfold before, after. apply ltb_trans. Qed.

Lemma sorted_tail_after d cur post :
  sortedb (cur :: post) = true -> after d cur -> Forall (after d) (cur :: post).
Proof.
  intros Hs Hc. apply sortedb_cons in Hs as [Hp _]. constructor; [assumption|].
  eapply Forall_impl; [exact Hp|]. intros r. apply after_trans, Hc.
Qed.

Lemma sorted_pre_before d pre prior :
  sortedb (pre ++ [prior]) = true -> before d prior ->
  Forall (before d) (pre ++ [prior]).
Proof.
  intros Hs Hb. apply sortedb_app in Hs as (_ & _ & H12).
  apply Forall_app. split; [|constructor; [assumption | constructor]].
  eapply Forall_impl; [exact H12|]. intros r Hr. apply Forall_cons in Hr as [Hr _].
  unfold before, after in *. eapply ltb_trans; eassumption.
Qed.

(** The rows before a date form a prefix of an ordered sheet. *)
Lemma split_at_date d df :
  sortedb df = true ->
  exists pre post,
    df = pre ++ post /\ Forall (before d) pre /\ Forall (not_before d) post.
Proof.
  induction df as [|x df IH]; intros Hs.
  - exists [], []. repeat split; constructor.
  - apply sortedb_cons in Hs as [Hx Hs].
    destruct (String.ltb (Date x) d) eqn:E.
    + destruct (IH Hs) as (pre & post & -> & Hpre & Hpost).
      exists (x :: pre), post. repeat split; [constructor; assumption | assumption].
    + exists [], (x :: df). repeat split; [constructor|].
      constructor; [exact E|]. eapply Forall_impl; [exact Hx|].
      intros r Hr. unfold not_before, after in *.
      destruct (String.ltb (Date r) d) eqn:E'; [|reflexivity].
      rewrite (ltb_trans _ _ _ Hr E') in E. discriminate.
Qed.

Lemma store_ok_head_unchanged pre prior (post post' : DataFrame) :
  (exists row0 rest, (pre ++ [prior]) ++ post = row0 :: rest /\
     credit_flow row0 = 0 /\ cash_flow row0 = 0) ->
  exists row0 rest, (pre ++ [prior]) ++ post' = row0 :: rest /\
     credit_flow row0 = 0 /\ cash_flow row0 = 0.
Proof.
  intros (row0 & rest & He & Hf). destruct pre as [|p pre]; cbn in *.
  - injection He as <- _. eauto.
  - injection He as <- _. eauto.
Qed.

(** Saving the day of the form keeps the sheet and the form consistent. *)
Lemma save_step df d credit cash data :
  store_ok df -> session_ok df d credit cash -> wf_date d ->
  Date data = d ->
  Total_Credit data = credit + Credit data - Credit_Withdraw data ->
  Total_Cash data = cash + Cash data + Credit_Withdraw data - Total_Expenses data ->
  exists df', save_frame data df = Ok df' /\
    store_ok df' /\ session_ok df' d credit cash.
Proof.
  intros [Hs Hwf Hch Hhd] (pre & prior & post & -> & Hb & Hpost & -> & ->) Hd <- HTC HTK.
  replace (pre ++ prior :: post) with ((pre ++ [prior]) ++ post) in *
    by (rewrite <- app_assoc; reflexivity).
  assert (Hcp : consistent_pair prior data) by (split; lia).
  pose proof Hs as Hs'. apply sortedb_app in Hs' as (Hs1 & Hs2 & _).
  pose proof (sorted_pre_before _ _ _ Hs1 Hb) as Hpre.
  assert (Hwf1 : wf_dates (pre ++ [prior])) by (apply Forall_app in Hwf; tauto).
  assert (Hwf2 : wf_dates post) by (apply Forall_app in Hwf; tauto).
  assert (Hch' : chain_all (pre ++ [prior]) /\ chain prior post).
  { rewrite <- app_assoc in Hch. cbn [app] in Hch. apply chain_all_app in Hch. exact Hch. }
  destruct Hch' as [Hch1 Hch2].
  assert (Hcase : (exists cur post', post = cur :: post' /\ Date cur = Date data)
                  \/ Forall (after (Date data)) post).
  { destruct post as [|cur post']; [right; constructor|].
    apply Forall_cons in Hpost as [Hc _].
    destruct (not_before_cases _ _ Hc) as [He | Ha]; [left; eauto|].
    right. apply sorted_tail_after; assumption. }
  destruct Hcase as [(cur & post' & -> & Hcur) | Hafter].
  - eexists. split; [apply save_frame_existing; assumption|].
    cbn [chain] in Hch2. destruct Hch2 as [Hpc Hch2].
    assert (Hsorted : sortedb ((pre ++ [prior]) ++ data ::
              (add_totals (edit_credit_difference data cur)
                 (edit_cash_difference data cur) <$> post')) = true).
    { rewrite sortedb_shift_post, <- (sortedb_replace data cur) by (symmetry; assumption).
      assumption. }
    split; [split|].
    + assumption.
    + apply Forall_app. split; [assumption|]. apply Forall_cons in Hwf2 as [Hw1 Hw2].
      constructor; [rewrite <- Hcur; assumption | apply wf_dates_shift; assumption].
    + rewrite <- app_assoc. cbn [app]. apply chain_all_app. split; [assumption|].
      cbn [chain]. split; [assumption|].
      apply (chain_shift cur); [unfold edit_credit_difference; lia
                               | unfold edit_cash_difference; lia | assumption].
    + eapply store_ok_head_unchanged, Hhd.
    + exists pre, prior, (data :: (add_totals (edit_credit_difference data cur)
                 (edit_cash_difference data cur) <$> post')).
      rewrite <- app_assoc. cbn [app]. split; [reflexivity|]. split; [assumption|].
      split; [|split; reflexivity]. constructor; [apply ltb_irrefl|].
      apply Forall_cons in Hpost as [_ Hpost].
      apply (Forall_dates_shift (fun s => String.ltb s (Date data) = false)), Hpost.
  - assert (Hex : date_exists ((pre ++ [prior]) ++ post) (Date data) = false).
    { apply date_exists_false; [assumption | assumption |].
      apply Forall_app. split.
      - eapply Forall_impl; [exact Hpre | apply before_neq].
      - eapply Forall_impl; [exact Hafter | apply after_neq]. }
    eexists. split.
    { apply save_frame_new_middle; try assumption. destruct pre; discriminate. }
    split; [split|].
    + rewrite sortedb_shift_post. apply sortedb_insert; assumption.
    + apply Forall_app. split; [assumption|].
      constructor; [assumption | apply wf_dates_shift; assumption].
    + rewrite <- app_assoc. cbn [app]. apply chain_all_app. split; [assumption|].
      cbn [chain]. split; [assumption|].
      destruct Hcp as [Hc1 Hc2].
      apply (chain_shift prior); [unfold credit_flow; lia | unfold cash_flow; lia | assumption].
    + eapply store_ok_head_unchanged, Hhd.
    + exists pre, prior, (data :: (add_totals (credit_flow data) (cash_flow data) <$> post)).
      rewrite <- app_assoc. cbn [app]. split; [reflexivity|]. split; [assumption|].
      split; [|split; reflexivity]. constructor; [apply ltb_irrefl|].
      apply (Forall_dates_shift (fun s => String.ltb s (Date data) = false)), Hpost.
Qed.

(** The first day dialog on an empty sheet. *)
Lemma bootstrap_empty b credit cash :
  wf_date b ->
  save_frame (initial_row b credit cash) [] = Ok [initial_row b credit cash] /\
  store_ok [initial_row b credit cash].
Proof.
  intros Hb. split; [reflexivity|]. split.
  - reflexivity.
  - constructor; [exact Hb | constructor].
  - exact I.
  - eexists _, _. repeat split.
Qed.

(** The first day dialog for a date before every stored date. *)
Lemma bootstrap_first b credit cash df :
  store_ok df -> wf_date b -> Forall (after b) df ->
  exists df',
    save_frame (initial_row b credit cash) df
    = Ok (initial_row b credit cash :: df') /\
    store_ok (initial_row b credit cash :: df') /\
    Date <$> df' = Date <$> df.
Proof.
  intros [Hs Hwf Hch (row0 & rest & -> & Hf1 & Hf2)] Hb Hafter.
  set (boot := initial_row b credit cash).
  assert (Hex : date_exists (row0 :: rest) (Date boot) = false).
  { apply date_exists_false; [assumption | assumption |].
    eapply Forall_impl; [exact Hafter | apply after_neq]. }
  eexists. split; [apply save_frame_new_first; assumption|].
  split; [split|].
  - pose proof (fun c k post => sortedb_shift_post c k [] boot post) as Hsh.
    cbn [app] in Hsh. rewrite !Hsh.
    apply (sortedb_insert boot [] (row0 :: rest)); auto.
  - constructor; [exact Hb|]. apply wf_dates_shift, wf_dates_shift, Hwf.
  - cbn [chain_all fmap list_fmap chain]. split.
    + unfold consistent_pair, add_totals, credit_flow, cash_flow in *; cbn. lia.
    + apply (chain_shift (add_totals (Total_Credit boot - Total_Credit row0)
                            (Total_Cash boot - Total_Cash row0) row0));
        [reflexivity | reflexivity |].
      apply (chain_shift row0); [reflexivity | reflexivity | exact Hch].
  - eexists _, _. repeat split.
  - rewrite !Date_fmap_add_totals. reflexivity.
Qed.

(** The backward scan stops at the last row before the selected date. *)
Lemma scan_back_prior q d pre prior post default :
  Timestamp d = Some q ->
  wf_dates (pre ++ prior :: post) ->
  before d prior -> Forall (not_before d) post ->
  scan_back q (reverse (pre ++ prior :: post)) default = Ok prior.
Proof.
  intros Hq Hwf Hb Hpost. rewrite reverse_app, reverse_cons, <- app_assoc. cbn [app].
  apply Forall_app in Hwf as [_ Hwf]. apply Forall_cons in Hwf as [Hwp Hwf].
  assert (Hr : Forall (fun r => wf_date (Date r) /\ not_before d r) (reverse post)).
  { apply Forall_reverse. rewrite Forall_forall in *. intros x Hx. split; auto. }
  clear Hwf Hpost. induction Hr as [|x l [[t Ht] Hx] Hr IH]; cbn [app scan_back].
  - destruct Hwp as [t Ht]. rewrite Ht. cbn [from_option rbind].
    rewrite (Timestamp_ltb _ _ _ _ Ht Hq). unfold before in Hb. rewrite Hb. reflexivity.
  - rewrite Ht. cbn [from_option rbind].
    rewrite (Timestamp_ltb _ _ _ _ Ht Hq). unfold not_before in Hx. rewrite Hx. exact IH.
Qed.

End StepFacts.

Module RunFacts.
Import DateFacts TimestampFacts QtFacts StringOrder SortFacts SaveFacts ChainFacts StepFacts.

Ltac proj :=
  cbn [fst snd excel_file ui expenses last_day_credit last_day_cash date_picker
       cash_entry credit_entry credit_withdraw_entry expense_name_entry
       expense_amount_entry total_expenses_result total_sellings_result
       total_credit_result total_cash_result messages
       set_expenses set_last_day set_date_picker set_entries
       set_expense_entries set_results notify
       read_excel from_option rbind] in *.

Ltac run := unfold bind, ret, lift, get_ui, get_file, to_excel, modify_ui,
  show_message in *; proj.

Section Run.
Context `{Builtins}.

Lemma Inv_view st st' : view st = view st' -> Inv st -> Inv st'.
Proof.
  unfold view, Inv. intros Hv (df & Hf & Hs & Hq & Hse).
  injection Hv as <- <- <- <-. eauto.
Qed.

Lemma calculate_totals_run st :
  exists r s',
    calculate_totals st = (Ok r, mkState (excel_file st) s') /\
    date_picker s' = date_picker (ui st) /\
    last_day_credit s' = last_day_credit (ui st) /\
    last_day_cash s' = last_day_cash (ui st) /\
    expenses s' = expenses (ui st) /\
    (forall data, r = Some data ->
       Date data = toString (date_picker (ui st)) /\
       Total_Credit data
       = last_day_credit (ui st) + Credit data - Credit_Withdraw data /\
       Total_Cash data
       = last_day_cash (ui st) + Cash data + Credit_Withdraw data
         - Total_Expenses data).
Proof.
  unfold calculate_totals. run.
  destruct (float_or_zero (cash_entry (ui st))) as [cash|];
    [destruct (float_or_zero (credit_entry (ui st))) as [credit|];
     [destruct (float_or_zero (credit_withdraw_entry (ui st))) as [cw|]|]|];
    cbn; eexists _, _; (split; [reflexivity|]); cbn;
    (repeat split; try discriminate);
    match goal with Hd : Some _ = Some _ |- _ => injection Hd as <- end;
    reflexivity.
Qed.

Lemma show_first_day_dialog_run dlg st df df' :
  excel_file st = Some df ->
  save_frame
    (initial_row (toString (addDays_minus1 (date_picker (ui st))))
       (fst (dialog_balances dlg)) (snd (dialog_balances dlg))) df = Ok df' ->
  exists s',
    show_first_day_dialog dlg st = (Ok tt, mkState (Some df') s') /\
    date_picker s' = date_picker (ui st) /\
    last_day_credit s' = fst (dialog_balances dlg) /\
    last_day_cash s' = snd (dialog_balances dlg).
Proof.
  intros Hf Hsave. unfold show_first_day_dialog, save_data_m, save_data.
  destruct dlg as [ctext ktext|]; cbn [dialog_balances] in *.
  - destruct (get_data ctext ktext) as [credit cash]. cbn [fst snd] in *. run.
    rewrite Hf. proj. rewrite Hsave.
    match goal with |- context [calculate_totals ?s] =>
      destruct (calculate_totals_run s) as (r & s' & -> & Hq & Hc & Hk & _) end.
    proj. eauto.
  - run. rewrite Hf. proj. rewrite Hsave.
    match goal with |- context [calculate_totals ?s] =>
      destruct (calculate_totals_run s) as (r & s' & -> & Hq & Hc & Hk & _) end.
    proj. eauto.
Qed.

Lemma Forall_same_dates (P : string -> Prop) (l l' : DataFrame) :
  Date <$> l = Date <$> l' ->
  Forall (fun r => P (Date r)) l -> Forall (fun r => P (Date r)) l'.
Proof.
  intros Hd Hl. apply (Forall_fmap Date P) in Hl. rewrite Hd in Hl.
  apply (Forall_fmap Date P). exact Hl.
Qed.

Lemma dialog_before_all dlg st df :
  excel_file st = Some df -> store_ok df ->
  valid_qdate (date_picker (ui st)) = true ->
  Forall (not_before (toString (date_picker (ui st)))) df ->
  exists s' df',
    show_first_day_dialog dlg st = (Ok tt, mkState (Some df') s') /\
    Inv (mkState (Some df') s').
Proof.
  intros Hf Hok Hq Hnb.
  set (q := date_picker (ui st)) in *.
  set (b := toString (addDays_minus1 q)).
  assert (Hafter : Forall (after b) df).
  { eapply Forall_impl; [exact Hnb|]. intros r Hr. unfold not_before, after in *.
    destruct (not_before_cases _ _ Hr) as [-> | Ha].
    - apply first_date_ltb, Hq.
    - eapply ltb_trans; [apply first_date_ltb, Hq | exact Ha]. }
  destruct (bootstrap_first b (fst (dialog_balances dlg)) (snd (dialog_balances dlg))
              df Hok (wf_date_first_date q Hq) Hafter)
    as (df' & Hsave & Hok' & Hdates).
  destruct (show_first_day_dialog_run dlg st df _ Hf Hsave)
    as (s' & Hrun & Hq' & Hc & Hk).
  exists s', (initial_row b (fst (dialog_balances dlg)) (snd (dialog_balances dlg)) :: df').
  split; [exact Hrun|].
  eexists. split; [reflexivity|]. split; [exact Hok'|]. proj. rewrite Hq'.
  split; [exact Hq|].
  exists [], (initial_row b (fst (dialog_balances dlg)) (snd (dialog_balances dlg))), df'.
  split; [reflexivity|]. split; [apply first_date_ltb, Hq|].
  split; [|split; [rewrite Hc | rewrite Hk]; reflexivity].
  apply (Forall_same_dates (fun s => String.ltb s (toString q) = false) df df');
    [symmetry; exact Hdates | exact Hnb].
Qed.

Lemma dialog_empty dlg st :
  excel_file st = Some [] ->
  valid_qdate (date_picker (ui st)) = true ->
  exists s' df',
    show_first_day_dialog dlg st = (Ok tt, mkState (Some df') s') /\
    df' = [initial_row (toString (addDays_minus1 (date_picker (ui st))))
             (fst (dialog_balances dlg)) (snd (dialog_balances dlg))] /\
    date_picker s' = date_picker (ui st) /\
    Inv (mkState (Some df') s').
Proof.
  intros Hf Hq.
  set (q := date_picker (ui st)) in *.
  set (b := toString (addDays_minus1 q)).
  destruct (bootstrap_empty b (fst (dialog_balances dlg)) (snd (dialog_balances dlg))
              (wf_date_first_date q Hq)) as [Hsave Hok].
  destruct (show_first_day_dialog_run dlg st [] _ Hf Hsave)
    as (s' & Hrun & Hq' & Hc & Hk).
  eexists s', _. split; [exact Hrun|]. split; [reflexivity|]. split; [exact Hq'|].
  eexists. split; [reflexivity|]. split; [exact Hok|]. proj. rewrite Hq'.
  split; [exact Hq|].
  eexists [], _, []. split; [reflexivity|]. split; [apply first_date_ltb, Hq|].
  split; [constructor|]. split; [rewrite Hc | rewrite Hk]; reflexivity.
Qed.

Lemma lookup_snoc_middle (pre : DataFrame) prior cur post :
  ((pre ++ [prior]) ++ cur :: post) !! length (pre ++ [prior]) = Some cur /\
  ((pre ++ [prior]) ++ cur :: post) !! (length (pre ++ [prior]) - 1)%nat
  = Some prior.
Proof.
  split.
  - rewrite lookup_app_r, Nat.sub_diag by lia. reflexivity.
  - rewrite lookup_app_l by (rewrite length_app; cbn; lia).
    rewrite length_app. cbn [length].
    rewrite lookup_app_r by lia.
    replace (length pre + 1 - 1 - length pre)%nat with 0%nat by lia. reflexivity.
Qed.

Lemma dialog_run_ok dlg st df :
  excel_file st = Some df -> sortedb df = true -> wf_dates df ->
  valid_qdate (date_picker (ui st)) = true ->
  Forall (not_before (toString (date_picker (ui st)))) df ->
  exists st', show_first_day_dialog dlg st = (Ok tt, st').
Proof.
  intros Hf Hs Hwf Hq Hnb.
  set (q := date_picker (ui st)) in *.
  set (b := toString (addDays_minus1 q)).
  set (boot := initial_row b (fst (dialog_balances dlg)) (snd (dialog_balances dlg))).
  assert (Hsave : exists df', save_frame boot df = Ok df').
  { destruct df as [|row0 rest]; [eexists; reflexivity|].
    assert (Hafter : Forall (after b) (row0 :: rest)).
    { eapply Forall_impl; [exact Hnb|]. intros r Hr. unfold after.
      destruct (not_before_cases _ _ Hr) as [-> | Ha].
      - apply first_date_ltb, Hq.
      - eapply ltb_trans; [apply first_date_ltb, Hq | exact Ha]. }
    eexists. apply save_frame_new_first; [assumption | assumption |].
    apply date_exists_false; [apply wf_date_first_date, Hq | assumption |].
    eapply Forall_impl; [exact Hafter | apply after_neq]. }
  destruct Hsave as (df' & Hsave).
  destruct (show_first_day_dialog_run dlg st df df' Hf Hsave) as (s' & Hrun & _).
  eauto.
Qed.

Lemma load_frame_spec dlg shown st df :
  excel_file st = Some df -> sortedb df = true -> wf_dates df ->
  valid_qdate (date_picker (ui st)) = true ->
  exists res st',
    load_frame (toString (date_picker (ui st))) dlg shown df st = (Ok res, st') /\
    load_outcome (toString (date_picker (ui st))) dlg shown df st res st'.
Proof.
  intros Hf Hs Hwf Hq.
  set (q := date_picker (ui st)) in *. set (d := toString q).
  pose proof (wf_date_toString q Hq) as Hwd.
  pose proof (Timestamp_toString q (valid_printable q Hq)) as Hts.
  fold d in Hts, Hwd.
  destruct (split_at_date d df Hs) as (pre & post & Hsplit & Hpre & Hpost).
  unfold load_frame. destruct df as [|row0 rest] eqn:Hdf.
  { destruct (dialog_run_ok dlg st [] Hf Hs Hwf Hq (Forall_nil_2 _)) as (st' & Hrun).
    run. rewrite Hrun. eexists _, _. split; [reflexivity|].
    apply outcome_bootstrap; [constructor | exact Hrun]. }
  rewrite <- Hdf in *.
  destruct (date_exists df d) eqn:Hex.
  - apply date_exists_wf in Hex as (r & Hr & Hrd); [|assumption..].
    assert (Hcur : exists cur post', post = cur :: post' /\ Date cur = d).
    { rewrite Hsplit in Hr. apply elem_of_app in Hr as [Hr | Hr].
      - rewrite Forall_forall in Hpre. apply Hpre, before_neq in Hr. congruence.
      - destruct post as [|cur post']; [inversion Hr|].
        exists cur, post'. split; [reflexivity|].
        pose proof Hpost as Hpost'. apply Forall_cons in Hpost' as [Hc _].
        destruct (not_before_cases _ _ Hc) as [He | Ha]; [exact He|].
        rewrite Hsplit in Hs. apply sortedb_app in Hs as (_ & Hs2 & _).
        pose proof (sorted_tail_after _ _ _ Hs2 Ha) as Hall.
        rewrite Forall_forall in Hall. apply Hall, after_neq in Hr. congruence. }
    destruct Hcur as (cur & post' & -> & Hcur).
    assert (Hidx : index_of d df = Ok (length pre)).
    { rewrite Hsplit. apply index_of_middle; [|exact Hcur].
      eapply Forall_impl; [exact Hpre | apply before_neq]. }
    run. rewrite Hidx. proj.
    destruct pre as [|p pre0].
    + cbn [length Nat.eqb].
      destruct (dialog_run_ok dlg st df Hf Hs Hwf Hq) as (st' & Hrun).
      { rewrite Hsplit. exact Hpost. }
      rewrite Hrun. eexists _, _. split; [reflexivity|].
      apply outcome_bootstrap; [rewrite Hsplit; exact Hpost | exact Hrun].
    + assert (Hne : p :: pre0 <> []) by discriminate.
      destruct (exists_last Hne) as (pre' & prior & Hlast). rewrite Hlast in *.
      clear Hne Hlast p pre0.
      destruct (length (pre' ++ [prior])) eqn:Hlen;
        [rewrite length_app in Hlen; cbn in Hlen; lia|].
      cbn [Nat.eqb]. rewrite <- Hlen.
      destruct (lookup_snoc_middle pre' prior cur post') as [H1 H2].
      rewrite Hsplit, H1, H2. proj.
      eexists _, _. split; [reflexivity|].
      apply (outcome_exact _ _ _ _ _ pre' prior cur post').
      * rewrite <- app_assoc. reflexivity.
      * apply Forall_app in Hpre as [_ Hp]. apply Forall_cons in Hp as [Hp _]. exact Hp.
      * exact Hcur.
  - assert (Hne : Forall (fun r => Date r <> d) df).
    { apply Forall_forall. intros r Hr He.
      rewrite date_exists_true in Hex by eauto. discriminate. }
    assert (Hw0 : wf_date (Date row0)).
    { rewrite Hdf in Hwf. apply Forall_cons in Hwf as [Hw _]. exact Hw. }
    destruct Hw0 as [t0 Ht0].
    run. fold d. rewrite Hts, Ht0. proj.
    rewrite (Timestamp_ltb _ _ _ _ Hts Ht0).
    destruct (String.ltb d (Date row0)) eqn:Hlt.
    + assert (Hall : Forall (not_before d) df).
      { eapply Forall_impl; [|apply after_not_before].
        rewrite Hdf. rewrite Hdf in Hs. apply sorted_tail_after; assumption. }
      destruct (dialog_run_ok dlg st df Hf Hs Hwf Hq Hall) as (st' & Hrun).
      rewrite Hrun. eexists _, _. split; [reflexivity|].
      apply outcome_bootstrap; assumption.
    + assert (Hb0 : before d row0).
      { unfold before. destruct (String.ltb (Date row0) d) eqn:E; [reflexivity|].
        rewrite Hdf in Hne. apply Forall_cons in Hne as [Hn _].
        destruct Hn. apply ltb_total; assumption. }
      assert (Hpne : pre <> []).
      { intros ->. cbn [app] in Hsplit. rewrite Hsplit in Hdf. rewrite Hdf in Hpost.
        apply Forall_cons in Hpost as [Hp _]. unfold not_before, before in *. congruence. }
      destruct (exists_last Hpne) as (pre' & prior & ->).
      assert (Hprior : before d prior).
      { apply Forall_app in Hpre as [_ Hp]. apply Forall_cons in Hp as [Hp _]. exact Hp. }
      assert (Hafter : Forall (after d) post).
      { rewrite Forall_forall in *. intros r Hr.
        destruct (not_before_cases _ _ (Hpost r Hr)) as [He | Ha]; [|exact Ha].
        destruct (Hne r); [|exact He]. rewrite Hsplit. apply elem_of_app. right. exact Hr. }
      replace (reverse df) with (reverse (pre' ++ prior :: post))
        by (rewrite Hsplit, <- app_assoc; reflexivity).
      rewrite (scan_back_prior q d pre' prior post);
        [| exact Hts | rewrite Hsplit, <- app_assoc in Hwf; exact Hwf
         | exact Hprior | exact Hpost].
      proj. eexists _, _. split; [reflexivity|].
      apply (outcome_interpolated _ _ _ _ _ pre' prior post);
        [rewrite Hsplit, <- app_assoc; reflexivity | exact Hprior | exact Hafter].
Qed.

Lemma load_frame_Inv dlg shown st df :
  excel_file st = Some df -> store_ok df ->
  valid_qdate (date_picker (ui st)) = true ->
  exists res st',
    load_frame (toString (date_picker (ui st))) dlg shown df st = (Ok res, st') /\
    Inv st'.
Proof.
  intros Hf Hok Hq. pose proof Hok as [Hs Hwf _ _].
  destruct (load_frame_spec dlg shown st df Hf Hs Hwf Hq) as (res & st' & Hrun & Hout).
  exists res, st'. split; [exact Hrun|].
  destruct Hout as [st' Hnb Hdlg | pre prior cur post Hdf Hb Hcur
                   | pre prior post Hdf Hb Hafter].
  - destruct (dialog_before_all dlg st df Hf Hok Hq Hnb) as (s' & df' & Hrun' & HInv).
    rewrite Hrun' in Hdlg. injection Hdlg as <-. exact HInv.
  - exists df. proj. split; [exact Hf|]. split; [exact Hok|]. split; [exact Hq|].
    exists pre, prior, (cur :: post). split; [exact Hdf|]. split; [exact Hb|].
    split; [|split; reflexivity].
    rewrite Hdf in Hs. apply sortedb_app in Hs as (_ & Hs2 & _).
    apply sortedb_cons in Hs2 as [_ Hs2].
    constructor; [unfold not_before; rewrite Hcur; apply ltb_irrefl|].
    apply sortedb_cons in Hs2 as [Hs2 _].
    eapply Forall_impl; [exact Hs2|]. intros r Hr. apply after_not_before.
    rewrite Hcur in Hr. exact Hr.
  - exists df. proj. split; [exact Hf|]. split; [exact Hok|]. split; [exact Hq|].
    exists pre, prior, post. split; [exact Hdf|]. split; [exact Hb|].
    split; [|split; reflexivity].
    eapply Forall_impl; [exact Hafter | apply after_not_before].
Qed.

Lemma load_data_Inv dlg st :
  valid_qdate (date_picker (ui st)) = true ->
  (excel_file st = None \/ exists df, excel_file st = Some df /\ store_ok df) ->
  exists res st',
    load_data (toString (date_picker (ui st))) dlg st = (Ok res, st') /\ Inv st'.
Proof.
  intros Hq Hfile. unfold load_data, clear_data. run.
  destruct Hfile as [Hf | (df & Hf & Hok)]; rewrite Hf.
  - match goal with |- context [show_first_day_dialog dlg ?s] =>
      destruct (dialog_empty dlg s eq_refl Hq) as (s' & df' & -> & -> & Hq' & HInv)
    end.
    proj.
    match goal with |- context [load_frame _ dlg true ?l ?s] =>
      destruct (load_frame_Inv dlg true s l eq_refl) as (res & st' & Hrun & HInv')
    end.
    + destruct HInv as (df & Hdf & Hok & _). proj. injection Hdf as <-. exact Hok.
    + proj. rewrite Hq'. exact Hq.
    + proj. proj. rewrite Hq' in Hrun. proj. rewrite Hrun. eauto.
  - proj.
    match goal with |- context [load_frame _ dlg false df ?s] =>
      destruct (load_frame_Inv dlg false s df eq_refl Hok Hq) as (res & st' & Hrun & HInv')
    end.
    proj. rewrite Hrun. eauto.
Qed.

Lemma startup_Inv today dlg file :
  valid_qdate today = true ->
  (file = None \/ exists df, file = Some df /\ store_ok df) ->
  Inv (startup today dlg file).
Proof.
  intros Hq Hfile. unfold startup.
  destruct (load_data_Inv dlg (mkState file (initial_session today)) Hq Hfile)
    as (res & st' & Hrun & HInv).
  cbn [ui initial_session date_picker] in Hrun. rewrite Hrun. exact HInv.
Qed.

Lemma on_date_changed_Inv q dlg st :
  valid_qdate q = true -> Inv st ->
  exists res st', on_date_changed q dlg st = (Ok res, st') /\ Inv st'.
Proof.
  intros Hq (df & Hf & Hok & _). unfold on_date_changed. run.
  match goal with |- context [load_data _ dlg ?s] =>
    destruct (load_data_Inv dlg s Hq (or_intror (ex_intro _ df (conj Hf Hok))))
      as (res & st' & Hrun & HInv)
  end.
  proj. rewrite Hrun. eauto.
Qed.

Ltac run_calculate :=
  match goal with |- context [calculate_totals ?s] =>
    let r := fresh "r" in let s' := fresh "s'" in
    let Hq := fresh "Hq" in let Hc := fresh "Hc" in let Hk := fresh "Hk" in
    let He := fresh "He" in let Hd := fresh "Hd" in
    destruct (calculate_totals_run s) as (r & s' & -> & Hq & Hc & Hk & He & Hd);
    proj
  end.

Lemma view_eq file s s' :
  date_picker s' = date_picker s -> last_day_credit s' = last_day_credit s ->
  last_day_cash s' = last_day_cash s ->
  view (mkState file s') = view (mkState file s).
Proof. unfold view. cbn [excel_file ui]. intros -> -> ->. reflexivity. Qed.

Lemma add_expense_view st : view (snd (add_expense st)) = view st.
Proof.
  unfold add_expense, try_except_ValueError. run.
  destruct (float (expense_amount_entry (ui st))) as [amount|]; proj.
  - run_calculate. destruct st. apply view_eq; assumption.
  - destruct st. reflexivity.
Qed.

Lemma edit_expense_view current_item st :
  view (snd (edit_expense current_item st)) = view st.
Proof.
  unfold edit_expense, try_except_ValueError. run.
  destruct current_item as [selected|]; [|destruct st; reflexivity].
  destruct (float (expense_amount_entry (ui st))) as [amount|]; proj;
    [|destruct st; reflexivity].
  destruct (edit_loop selected (expense_name_entry (ui st), amount)
              (expenses (ui st))) as [l|[]]; proj; try (destruct st; reflexivity).
  run_calculate. destruct st. apply view_eq; assumption.
Qed.

Lemma delete_expense_view current_item st :
  view (snd (delete_expense current_item st)) = view st.
Proof.
  unfold delete_expense, try_except_ValueError. run.
  destruct current_item as [selected|]; [|destruct st; reflexivity].
  destruct (delete_loop selected (expenses (ui st))) as [l|[]]; proj;
    try (destruct st; reflexivity).
  run_calculate. destruct st. apply view_eq; assumption.
Qed.

Lemma calculate_view st : view (snd (calculate_totals st)) = view st.
Proof. run_calculate. destruct st. apply view_eq; assumption. Qed.

Lemma save_daily_data_Inv st : Inv st -> Inv (snd (save_daily_data st)).
Proof.
  intros (df & Hf & Hok & Hq & Hse).
  unfold save_daily_data, try_except_ValueError, save_data_m, save_data. run.
  run_calculate. rewrite Hf. proj.
  destruct r as [data|]; proj.
  - destruct (Hd data eq_refl) as (Hdate & HTC & HTK).
    destruct (save_step df _ _ _ data Hok Hse (wf_date_toString _ Hq) Hdate HTC HTK)
      as (df' & -> & Hok' & Hse').
    proj. exists df'. proj. rewrite Hq0, Hc, Hk. auto.
  - exists df. proj. rewrite Hq0, Hc, Hk. auto.
Qed.

Lemma run_event_Inv e st : event_ok e = true -> Inv st -> Inv (run_event e st).
Proof.
  intros He HInv. unfold run_event. destruct e; cbn [handler event_ok] in *.
  - destruct (on_date_changed_Inv q dlg st He HInv) as (res & st' & Hrun & HInv').
    unfold bind. rewrite Hrun. exact HInv'.
  - eapply Inv_view; [|exact HInv]. destruct st. reflexivity.
  - eapply Inv_view; [|exact HInv]. destruct st. reflexivity.
  - eapply Inv_view; [|exact HInv]. symmetry. apply add_expense_view.
  - eapply Inv_view; [|exact HInv]. symmetry. apply edit_expense_view.
  - eapply Inv_view; [|exact HInv]. symmetry. apply delete_expense_view.
  - eapply Inv_view; [|exact HInv]. symmetry. unfold bind.
    rewrite <- (calculate_view st). destruct (calculate_totals st) as [[r|e] st']; reflexivity.
  - apply save_daily_data_Inv, HInv.
Qed.

Lemma reachable_Inv st : reachable st -> Inv st.
Proof.
  induction 1 as [today dlg Hq | st today dlg Hst IH Hq | st e Hst IH He].
  - apply startup_Inv; auto.
  - apply startup_Inv; [assumption|]. destruct IH as (df & Hf & Hok & _). eauto.
  - apply run_event_Inv; assumption.
Qed.

End Run.
End RunFacts.

Module ShapeFacts.
Import DateFacts TimestampFacts StringOrder SortFacts SaveFacts ChainFacts StepFacts.

Lemma fmap_add_totals_zero (l : DataFrame) : add_totals 0 0 <$> l = l.
Proof.
  induction l as [|r l IH]; [reflexivity|].
  cbn [fmap list_fmap]. rewrite add_totals_zero. f_equal. exact IH.
Qed.

Lemma fmap_add_totals_compose c1 k1 c2 k2 (l : DataFrame) :
  add_totals c1 k1 <$> (add_totals c2 k2 <$> l) = add_totals (c2 + c1) (k2 + k1) <$> l.
Proof.
  rewrite <- list_fmap_compose. apply list_fmap_ext.
  intros i r _. apply add_totals_add_totals.
Qed.

(** A record dated before every stored row: the rows are shifted first by
    the difference to the old first row, then by the record's own flows. *)
Lemma save_data_insert_first data row0 rest :
  date_ordered (row0 :: rest) -> wf_dates (row0 :: rest) ->
  wf_date (Date data) -> Forall (after (Date data)) (row0 :: rest) ->
  save_data data (Some (row0 :: rest))
  = Ok (data ::
        (add_totals (credit_flow data) (cash_flow data) <$>
           (add_totals (Total_Credit data - Total_Credit row0)
              (Total_Cash data - Total_Cash row0) <$> row0 :: rest))).
Proof.
  intros Hs Hwf Hwd Hafter. cbn [save_data read_excel from_option rbind].
  apply save_frame_new_first; [exact Hs | exact Hafter |].
  apply date_exists_false; [assumption | assumption |].
  eapply Forall_impl; [exact Hafter | apply after_neq].
Qed.

(** On an ordered sheet of dates [save_frame] returns, and the saved record
    is a row of the ordered result. *)
Lemma save_frame_shape data df :
  sortedb df = true -> wf_dates df -> wf_date (Date data) ->
  exists pre post,
    save_frame data df = Ok (pre ++ data :: post) /\
    sortedb (pre ++ data :: post) = true.
Proof.
  intros Hs Hwf Hwd.
  destruct df as [|row0 rest] eqn:Hdf.
  { exists [], []. split; reflexivity. }
  rewrite <- Hdf in *.
  destruct (split_at_date (Date data) df Hs) as (pre & post & Hsplit & Hpre & Hpost).
  assert (Hcase : (exists cur post', post = cur :: post' /\ Date cur = Date data)
                  \/ Forall (after (Date data)) post).
  { destruct post as [|cur post']; [right; constructor|].
    pose proof Hpost as Hpost'. apply Forall_cons in Hpost' as [Hc _].
    destruct (not_before_cases _ _ Hc) as [He | Ha]; [left; eauto|].
    right. rewrite Hsplit in Hs. apply sortedb_app in Hs as (_ & Hs2 & _).
    apply sorted_tail_after; assumption. }
  destruct Hcase as [(cur & post' & -> & Hcur) | Hafter].
  - rewrite Hsplit in *. eexists pre, _. split; [apply save_frame_existing; assumption|].
    rewrite sortedb_shift_post, <- (sortedb_replace data cur) by (symmetry; assumption).
    exact Hs.
  - assert (Hex : date_exists df (Date data) = false).
    { apply date_exists_false; [assumption | assumption |]. rewrite Hsplit.
      apply Forall_app. split.
      - eapply Forall_impl; [exact Hpre | apply before_neq].
      - eapply Forall_impl; [exact Hafter | apply after_neq]. }
    destruct pre as [|p pre0].
    + cbn [app] in Hsplit. subst post. rewrite Hdf in *.
      eexists [], _. split; [apply save_frame_new_first; assumption|].
      pose proof (fun c k post => sortedb_shift_post c k [] data post) as Hsh.
      cbn [app] in *. rewrite !Hsh.
      apply (sortedb_insert data [] (row0 :: rest)); auto.
    + rewrite Hsplit in *. eexists (p :: pre0), _. split.
      { apply save_frame_new_middle; try assumption. discriminate. }
      rewrite sortedb_shift_post. apply sortedb_insert; assumption.
Qed.

Lemma sorted_pre_neq data pre post :
  sortedb (pre ++ data :: post) = true ->
  Forall (fun r => Date r <> Date data) pre.
Proof.
  intros Hs. apply sortedb_app in Hs as (_ & _ & H12).
  eapply Forall_impl; [exact H12|]. intros r Hr. apply Forall_cons in Hr as [Hr _].
  apply ltb_neq, Hr.
Qed.

End ShapeFacts.

Module LoadFacts.
Import DateFacts TimestampFacts QtFacts StringOrder SortFacts SaveFacts
  ChainFacts StepFacts RunFacts.

Section Load.
Context `{Builtins}.

(** With a file, [load_data] clears the form and resolves the date on the
    frame of the file. *)
Lemma load_data_Some d dlg st df :
  excel_file st = Some df ->
  load_data d dlg st = load_frame d dlg false df (snd (clear_data st)).
Proof.
  intros Hf. unfold load_data, clear_data. run. rewrite Hf. reflexivity.
Qed.

(** Without a file, [load_data] shows the dialog on an empty sheet and then
    resolves the date on the sheet that the dialog saved. *)
Lemma load_data_None d dlg st st1 df1 :
  excel_file st = None ->
  show_first_day_dialog dlg (mkState (Some []) (ui (snd (clear_data st))))
  = (Ok tt, st1) ->
  excel_file st1 = Some df1 ->
  load_data d dlg st = load_frame d dlg true df1 st1.
Proof.
  intros Hf Hdlg Hf1.
  cbv beta iota delta [load_data clear_data bind ret lift get_file to_excel
                       modify_ui] in Hdlg |- *.
  cbn [excel_file ui fst snd] in Hdlg |- *.
  rewrite Hf. cbn [excel_file ui fst snd]. rewrite Hdlg.
  cbn [excel_file ui fst snd]. rewrite Hf1. reflexivity.
Qed.

Lemma clear_data_file st : excel_file (snd (clear_data st)) = excel_file st.
Proof. reflexivity. Qed.

Lemma clear_data_date st :
  date_picker (ui (snd (clear_data st))) = date_picker (ui st).
Proof. reflexivity. Qed.

(** In an ordered sheet the first row is not after any row. *)
Lemma head_before d pre prior post row0 rest :
  sortedb (pre ++ prior :: post) = true ->
  pre ++ prior :: post = row0 :: rest ->
  before d prior -> before d row0.
Proof.
  intros Hs Hdf Hb. destruct pre as [|p pre]; cbn [app] in Hdf; injection Hdf as -> _.
  - exact Hb.
  - cbn [app] in Hs. apply sortedb_cons in Hs as [Hall _].
    apply Forall_app in Hall as [_ Hall]. apply Forall_cons in Hall as [Hp _].
    unfold before, after in *. eapply ltb_trans; eassumption.
Qed.

End Load.
End LoadFacts.

Module ExpenseFacts.
Import RunFacts.

Section Loops.
Context `{Builtins}.

Lemma edit_loop_first sel new l1 e l2 :
  Forall (fun x => ~ matches sel x) l1 -> matches sel e ->
  edit_loop sel new (l1 ++ e :: l2) = Ok (l1 ++ new :: l2).
Proof.
  intros Hl1 [Hname Hamount]. induction Hl1 as [|[n a] l1 Hx Hl1 IH]; cbn [app edit_loop].
  - destruct e as [name amount]. cbn [fst snd] in *.
    rewrite Hname, String.eqb_refl, Hamount. cbn [from_option rbind].
    rewrite Z.eqb_refl. reflexivity.
  - destruct (String.eqb_spec n (fst sel)) as [Hn | Hn].
    + rewrite Hamount. cbn [from_option rbind].
      destruct (Z.eqb_spec a (snd e)) as [Ha | Ha].
      * destruct Hx. split; cbn [fst snd]; congruence.
      * rewrite IH. reflexivity.
    + rewrite IH. reflexivity.
Qed.

Lemma delete_loop_first sel l1 e l2 :
  Forall (fun x => ~ matches sel x) l1 -> matches sel e ->
  delete_loop sel (l1 ++ e :: l2) = Ok (l1 ++ l2).
Proof.
  intros Hl1 [Hname Hamount]. induction Hl1 as [|[n a] l1 Hx Hl1 IH]; cbn [app delete_loop].
  - destruct e as [name amount]. cbn [fst snd] in *.
    rewrite Hname, String.eqb_refl, Hamount. cbn [from_option rbind].
    rewrite Z.eqb_refl. reflexivity.
  - destruct (String.eqb_spec n (fst sel)) as [Hn | Hn].
    + rewrite Hamount. cbn [from_option rbind].
      destruct (Z.eqb_spec a (snd e)) as [Ha | Ha].
      * destruct Hx. split; cbn [fst snd]; congruence.
      * rewrite IH. reflexivity.
    + rewrite IH. reflexivity.
Qed.

Lemma edit_loop_no_match sel new l :
  Forall (fun x => ~ matches sel x) l ->
  edit_loop sel new l = Ok l \/ edit_loop sel new l = Raise ValueError.
Proof.
  induction 1 as [|[n a] l Hx Hl IH]; cbn [edit_loop]; [left; reflexivity|].
  destruct (String.eqb_spec n (fst sel)) as [Hn | Hn].
  - destruct (float (snd sel)) as [v|] eqn:Hv; cbn [from_option rbind];
      [|right; reflexivity].
    destruct (Z.eqb_spec a v) as [Ha | Ha].
    + destruct Hx. split; cbn [fst snd]; congruence.
    + destruct IH as [-> | ->]; [left | right]; reflexivity.
  - destruct IH as [-> | ->]; [left | right]; reflexivity.
Qed.

Lemma delete_loop_no_match sel l :
  Forall (fun x => ~ matches sel x) l ->
  delete_loop sel l = Ok l \/ delete_loop sel l = Raise ValueError.
Proof.
  induction 1 as [|[n a] l Hx Hl IH]; cbn [delete_loop]; [left; reflexivity|].
  destruct (String.eqb_spec n (fst sel)) as [Hn | Hn].
  - destruct (float (snd sel)) as [v|] eqn:Hv; cbn [from_option rbind];
      [|right; reflexivity].
    destruct (Z.eqb_spec a v) as [Ha | Ha].
    + destruct Hx. split; cbn [fst snd]; congruence.
    + destruct IH as [-> | ->]; [left | right]; reflexivity.
  - destruct IH as [-> | ->]; [left | right]; reflexivity.
Qed.

(** The expenses list after [edit_expense], by the result of the loop. *)
Lemma edit_expense_expenses sel st amount :
  float (expense_amount_entry (ui st)) = Some amount ->
  expenses (ui (snd (edit_expense (Some sel) st)))
  = match edit_loop sel (expense_name_entry (ui st), amount) (expenses (ui st)) with
    | Ok l => l
    | Raise _ => expenses (ui st)
    end.
Proof.
  intros Ha. unfold edit_expense, try_except_ValueError. run. rewrite Ha. proj.
  destruct (edit_loop sel (expense_name_entry (ui st), amount) (expenses (ui st)))
    as [l|[]]; proj; try reflexivity.
  match goal with |- context [calculate_totals ?s] =>
    destruct (calculate_totals_run s) as (r & s' & -> & _ & _ & _ & He & _) end.
  proj. exact He.
Qed.

Lemma edit_expense_invalid sel st :
  float (expense_amount_entry (ui st)) = None ->
  edit_expense (Some sel) st
  = (Ok tt, mkState (excel_file st) (notify critical_invalid_amount (ui st))).
Proof.
  intros Ha. unfold edit_expense, try_except_ValueError. run. rewrite Ha. proj.
  reflexivity.
Qed.

Lemma delete_expense_expenses sel st :
  expenses (ui (snd (delete_expense (Some sel) st)))
  = match delete_loop sel (expenses (ui st)) with
    | Ok l => l
    | Raise _ => expenses (ui st)
    end.
Proof.
  unfold delete_expense, try_except_ValueError. run.
  destruct (delete_loop sel (expenses (ui st))) as [l|[]]; proj; try reflexivity.
  match goal with |- context [calculate_totals ?s] =>
    destruct (calculate_totals_run s) as (r & s' & -> & _ & _ & _ & He & _) end.
  proj. exact He.
Qed.

Lemma add_expense_invalid st :
  float (expense_amount_entry (ui st)) = None ->
  add_expense st
  = (Ok tt, mkState (excel_file st) (notify critical_invalid_amount (ui st))).
Proof.
  intros Ha. unfold add_expense, try_except_ValueError. run. rewrite Ha. proj.
  reflexivity.
Qed.

Lemma calculate_totals_invalid st :
  float_or_zero (cash_entry (ui st)) = None \/
  float_or_zero (credit_entry (ui st)) = None \/
  float_or_zero (credit_withdraw_entry (ui st)) = None ->
  calculate_totals st
  = (Ok None, mkState (excel_file st) (notify critical_invalid_income (ui st))).
Proof.
  intros Hbad. unfold calculate_totals. run.
  destruct (float_or_zero (cash_entry (ui st))) as [cash|];
    [destruct (float_or_zero (credit_entry (ui st))) as [credit|];
     [destruct (float_or_zero (credit_withdraw_entry (ui st))) as [cw|]|]|];
    try reflexivity.
  destruct Hbad as [Hb | [Hb | Hb]]; discriminate.
Qed.

Lemma save_daily_data_invalid st :
  float_or_zero (cash_entry (ui st)) = None \/
  float_or_zero (credit_entry (ui st)) = None \/
  float_or_zero (credit_withdraw_entry (ui st)) = None ->
  snd (save_daily_data st)
  = mkState (excel_file st) (notify critical_invalid_income (ui st)) /\
  exists e, fst (save_daily_data st) = Raise e /\ e <> ValueError.
Proof.
  intros Hbad. unfold save_daily_data, try_except_ValueError. run.
  rewrite (calculate_totals_invalid st Hbad). proj.
  destruct (excel_file st); proj; (split; [reflexivity|]);
    eexists; (split; [reflexivity | discriminate]).
Qed.

Lemma get_data_invalid credit_text cash_text :
  float credit_text = None \/ float cash_text = None ->
  get_data credit_text cash_text = (0, 0).
Proof.
  unfold get_data. intros [Hb | Hb]; rewrite Hb; [reflexivity|].
  destruct (float credit_text); reflexivity.
Qed.

End Loops.
End ExpenseFacts.


Module CaseFacts.
Import DateFacts TimestampFacts QtFacts StringOrder SortFacts SaveFacts
  ChainFacts StepFacts RunFacts ShapeFacts.

(** The result of [save_frame] on an ordered sheet of dates, in all
    branches: the rows before the date are kept, the row of the date, if
    any, is replaced by the record, else the record is put in, and the rows
    after the date are shifted by some amounts. *)
Lemma save_frame_cases data df :
  sortedb df = true -> wf_dates df -> wf_date (Date data) ->
  exists df', save_frame data df = Ok df' /\ placed data df df'.
Proof.
  intros Hs Hwf Hwd.
  cut (exists pre mid post c k,
    df = pre ++ mid ++ post /\
    (mid = [] \/ exists cur, mid = [cur] /\ Date cur = Date data) /\
    Forall (before (Date data)) pre /\ Forall (after (Date data)) post /\
    save_frame data df = Ok (pre ++ data :: (add_totals c k <$> post))).
  { intros (pre & mid & post & c & k & H1 & H2 & H3 & H4 & H5).
    eexists. split; [exact H5|]. exists pre, mid, post, c, k. auto. }
  destruct (split_at_date (Date data) df Hs) as (pre & post & Hsplit & Hpre & Hpost).
  assert (Hcase : (exists cur post', post = cur :: post' /\ Date cur = Date data)
                  \/ Forall (after (Date data)) post).
  { destruct post as [|cur post']; [right; constructor|].
    pose proof Hpost as Hpost'. apply Forall_cons in Hpost' as [Hc _].
    destruct (not_before_cases _ _ Hc) as [He | Ha]; [left; eauto|].
    right. rewrite Hsplit in Hs. apply sortedb_app in Hs as (_ & Hs2 & _).
    apply sorted_tail_after; assumption. }
  destruct Hcase as [(cur & post' & -> & Hcur) | Hafter].
  - exists pre, [cur], post', (edit_credit_difference data cur),
      (edit_cash_difference data cur).
    split; [exact Hsplit|]. split; [right; eauto|]. split; [exact Hpre|].
    rewrite Hsplit in Hs. split.
    + pose proof Hs as Hs'. apply sortedb_app in Hs' as (_ & Hs2 & _).
      apply sortedb_cons in Hs2 as [Hall _]. rewrite <- Hcur. exact Hall.
    + rewrite Hsplit. apply save_frame_existing; assumption.
  - assert (Hex : date_exists df (Date data) = false).
    { apply date_exists_false; [assumption | assumption |]. rewrite Hsplit.
      apply Forall_app. split.
      - eapply Forall_impl; [exact Hpre | apply before_neq].
      - eapply Forall_impl; [exact Hafter | apply after_neq]. }
    destruct pre as [|p pre0].
    + cbn [app] in Hsplit. subst post. destruct df as [|row0 rest].
      * exists [], [], [], 0, 0. repeat split; auto.
      * exists [], [], (row0 :: rest),
          (Total_Credit data - Total_Credit row0 + credit_flow data),
          (Total_Cash data - Total_Cash row0 + cash_flow data).
        split; [reflexivity|]. split; [left; reflexivity|]. split; [constructor|].
        split; [exact Hafter|].
        rewrite <- fmap_add_totals_compose. apply save_frame_new_first; assumption.
    + exists (p :: pre0), [], post, (credit_flow data), (cash_flow data).
      split; [exact Hsplit|]. split; [left; reflexivity|]. split; [exact Hpre|].
      split; [exact Hafter|]. rewrite Hsplit in *.
      apply save_frame_new_middle; try assumption. discriminate.
Qed.

End CaseFacts.

Module FileFacts.
Import DateFacts TimestampFacts QtFacts StringOrder SortFacts SaveFacts
  ChainFacts StepFacts RunFacts ShapeFacts CaseFacts.

Lemma opening_initial_row b c k : opening_row (initial_row b c k).
Proof. repeat split. Qed.

Lemma opening_row_ok r : opening_row r -> row_ok r.
Proof.
  intros (Hc & Hk & _ & Hs & He & Hx). unfold row_ok.
  rewrite Hc, Hk, Hs, He, Hx. repeat split. discriminate.
Qed.

Lemma expenses_of_cell_of_expenses l : expenses_of_cell (cell_of_expenses l) = l.
Proof. destruct l; reflexivity. Qed.

Lemma cell_of_expenses_nonempty l : cell_of_expenses l <> ExpenseList [].
Proof. destruct l; discriminate. Qed.

Lemma row_ok_add_totals c k r : row_ok r -> row_ok (add_totals c k r).
Proof. intros H. exact H. Qed.

Lemma file_step_refl df : file_step df df.
Proof. left. reflexivity. Qed.

Section Steps.
Context `{Builtins}.

Lemma calculate_totals_row st data st' :
  calculate_totals st = (Ok (Some data), st') -> row_ok data.
Proof.
  unfold calculate_totals. run.
  destruct (float_or_zero (cash_entry (ui st))) as [cash|];
    [destruct (float_or_zero (credit_entry (ui st))) as [credit|];
     [destruct (float_or_zero (credit_withdraw_entry (ui st))) as [cw|]|]|];
    cbn; intros Hrun; try discriminate.
  injection Hrun as <- _. unfold row_ok. cbn [Total_Sellings Cash Credit Total_Expenses Expenses].
  rewrite expenses_of_cell_of_expenses. repeat split. apply cell_of_expenses_nonempty.
Qed.

Lemma dialog_file_step dlg st df :
  excel_file st = Some df -> sortedb df = true -> wf_dates df ->
  valid_qdate (date_picker (ui st)) = true ->
  exists s' df',
    show_first_day_dialog dlg st = (Ok tt, mkState (Some df') s') /\
    file_step df df'.
Proof.
  intros Hf Hs Hwf Hq.
  set (boot := initial_row (toString (addDays_minus1 (date_picker (ui st))))
                 (fst (dialog_balances dlg)) (snd (dialog_balances dlg))).
  assert (Hwd : wf_date (Date boot)) by (apply wf_date_first_date, Hq).
  destruct (save_frame_cases boot df Hs Hwf Hwd) as (df' & Hsave & _).
  destruct (show_first_day_dialog_run dlg st df _ Hf Hsave) as (s' & Hrun & _).
  eexists _, _. split; [exact Hrun|]. right. exists boot.
  split; [exact Hwd|]. split; [apply opening_row_ok, opening_initial_row|].
  split; [left; apply opening_initial_row | exact Hsave].
Qed.

Lemma load_frame_file_step dlg shown st df :
  excel_file st = Some df -> sortedb df = true -> wf_dates df ->
  valid_qdate (date_picker (ui st)) = true ->
  exists res st' df',
    load_frame (toString (date_picker (ui st))) dlg shown df st = (Ok res, st') /\
    excel_file st' = Some df' /\ file_step df df'.
Proof.
  intros Hf Hs Hwf Hq.
  destruct (load_frame_spec dlg shown st df Hf Hs Hwf Hq) as (res & st' & Hrun & Hout).
  exists res, st'.
  destruct Hout as [st' Hnb Hdlg | pre prior cur post Hdf Hb Hcur
                   | pre prior post Hdf Hb Hafter].
  - destruct (dialog_file_step dlg st df Hf Hs Hwf Hq) as (s' & df' & Hrun' & Hstep).
    rewrite Hrun' in Hdlg. injection Hdlg as <-. exists df'. auto.
  - exists df. split; [exact Hrun|]. split; [exact Hf | apply file_step_refl].
  - exists df. split; [exact Hrun|]. split; [exact Hf | apply file_step_refl].
Qed.

Lemma load_data_file_step dlg st df :
  excel_file st = Some df -> sortedb df = true -> wf_dates df ->
  valid_qdate (date_picker (ui st)) = true ->
  exists res st' df',
    load_data (toString (date_picker (ui st))) dlg st = (Ok res, st') /\
    excel_file st' = Some df' /\ file_step df df'.
Proof.
  intros Hf Hs Hwf Hq. unfold load_data, clear_data. run. rewrite Hf. proj.
  match goal with |- context [load_frame _ dlg false df ?s] =>
    destruct (load_frame_file_step dlg false s df eq_refl Hs Hwf Hq)
      as (res & st' & df' & Hrun & Hf' & Hstep)
  end.
  proj. rewrite Hrun. eauto 10.
Qed.

Lemma load_data_first_run dlg st :
  excel_file st = None -> valid_qdate (date_picker (ui st)) = true ->
  exists res st' df',
    load_data (toString (date_picker (ui st))) dlg st = (Ok res, st') /\
    excel_file st' = Some df' /\
    file_step
      [initial_row (toString (addDays_minus1 (date_picker (ui st))))
         (fst (dialog_balances dlg)) (snd (dialog_balances dlg))] df'.
Proof.
  intros Hf Hq. unfold load_data, clear_data. run. rewrite Hf.
  match goal with |- context [show_first_day_dialog dlg ?s] =>
    destruct (dialog_empty dlg s eq_refl Hq) as (s' & df1 & -> & -> & Hq' & HInv)
  end.
  proj.
  destruct HInv as (df & Hdf & [Hs Hwf _ _] & _). proj. injection Hdf as <-.
  match goal with |- context [load_frame _ dlg true ?l ?s] =>
    destruct (load_frame_file_step dlg true s l eq_refl Hs Hwf)
      as (res & st' & df' & Hrun & Hf' & Hstep)
  end.
  { proj. rewrite Hq'. exact Hq. }
  proj. rewrite Hq' in Hrun. proj. rewrite Hrun. eauto 10.
Qed.

Lemma save_daily_data_file_step st :
  Inv st ->
  exists df df',
    excel_file st = Some df /\ excel_file (snd (save_daily_data st)) = Some df' /\
    file_step df df'.
Proof.
  intros (df & Hf & [Hs Hwf _ _] & Hq & (pre & prior & post & Hdf & Hb & _)).
  exists df.
  unfold save_daily_data, try_except_ValueError, save_data_m, save_data. run.
  destruct (calculate_totals st) as [[[data|]|e] st1] eqn:Hcalc.
  - destruct (calculate_totals_run st) as (r & s' & Hrun & _ & _ & _ & _ & Hd).
    rewrite Hcalc in Hrun. injection Hrun as <- ->. proj. rewrite Hf. proj.
    destruct (Hd data eq_refl) as (Hdate & _).
    assert (Hwd : wf_date (Date data)) by (rewrite Hdate; apply wf_date_toString, Hq).
    destruct (save_frame_cases data df Hs Hwf Hwd) as (df' & Hsave & _).
    rewrite Hsave. proj. eexists. split; [reflexivity|]. split; [reflexivity|].
    right. exists data. split; [exact Hwd|].
    split; [eapply calculate_totals_row; exact Hcalc|]. split; [|exact Hsave].
    right. exists prior. split; [rewrite Hdf; apply elem_of_app; right; left|].
    rewrite Hdate. exact Hb.
  - destruct (calculate_totals_run st) as (r & s' & Hrun & _).
    rewrite Hcalc in Hrun. injection Hrun as <- ->. proj. rewrite Hf. proj.
    exists df. auto using file_step_refl.
  - destruct (calculate_totals_run st) as (r & s' & Hrun & _).
    rewrite Hcalc in Hrun. discriminate.
Qed.

Lemma view_file st st' : view st = view st' -> excel_file st' = excel_file st.
Proof. unfold view. intros Hv. injection Hv as -> _ _ _. reflexivity. Qed.

Lemma run_event_file_step e st :
  event_ok e = true -> Inv st ->
  exists df df',
    excel_file st = Some df /\ excel_file (run_event e st) = Some df' /\
    file_step df df'.
Proof.
  intros He HInv.
  assert (Hsame : excel_file (run_event e st) = excel_file st ->
    exists df df', excel_file st = Some df /\
      excel_file (run_event e st) = Some df' /\ file_step df df').
  { intros Heq. destruct HInv as (df & Hf & _). exists df, df.
    rewrite Heq. auto using file_step_refl. }
  unfold run_event in *. destruct e; cbn [handler event_ok] in *.
  - clear Hsame. destruct HInv as (df & Hf & [Hs Hwf _ _] & _).
    unfold on_date_changed. run.
    match goal with |- context [load_data _ dlg ?s] =>
      destruct (load_data_file_step dlg s df Hf Hs Hwf He)
        as (res & st' & df' & Hrun & Hf' & Hstep)
    end.
    proj. rewrite Hrun. proj. eauto 10.
  - apply Hsame. reflexivity.
  - apply Hsame. reflexivity.
  - apply Hsame, view_file. symmetry. apply add_expense_view.
  - apply Hsame, view_file. symmetry. apply edit_expense_view.
  - apply Hsame, view_file. symmetry. apply delete_expense_view.
  - apply Hsame, view_file. symmetry. unfold bind.
    rewrite <- (calculate_view st). destruct (calculate_totals st) as [[r|e] st']; reflexivity.
  - apply save_daily_data_file_step, HInv.
Qed.

Lemma startup_file_step today dlg df :
  valid_qdate today = true -> sortedb df = true -> wf_dates df ->
  exists df', excel_file (startup today dlg (Some df)) = Some df' /\ file_step df df'.
Proof.
  intros Hq Hs Hwf. unfold startup.
  destruct (load_data_file_step dlg (mkState (Some df) (initial_session today)) df
              eq_refl Hs Hwf Hq) as (res & st' & df' & Hrun & Hf' & Hstep).
  cbn [ui initial_session date_picker] in Hrun. rewrite Hrun. eauto.
Qed.

Lemma startup_first_run today dlg :
  valid_qdate today = true ->
  exists df',
    excel_file (startup today dlg None) = Some df' /\
    file_step
      [initial_row (toString (addDays_minus1 today))
         (fst (dialog_balances dlg)) (snd (dialog_balances dlg))] df'.
Proof.
  intros Hq. unfold startup.
  destruct (load_data_first_run dlg (mkState None (initial_session today))
              eq_refl Hq) as (res & st' & df' & Hrun & Hf' & Hstep).
  cbn [ui initial_session date_picker] in Hrun, Hstep. rewrite Hrun. eauto.
Qed.

End Steps.
End FileFacts.

Module PlacedFacts.
Import DateFacts TimestampFacts QtFacts StringOrder SortFacts SaveFacts
  ChainFacts StepFacts RunFacts ShapeFacts CaseFacts FileFacts.

Lemma save_frame_placed data df df' :
  sortedb df = true -> wf_dates df -> wf_date (Date data) ->
  save_frame data df = Ok df' -> placed data df df'.
Proof.
  intros Hs Hwf Hwd Hsave.
  destruct (save_frame_cases data df Hs Hwf Hwd) as (df'' & Hsave' & Hp).
  rewrite Hsave in Hsave'. injection Hsave' as <-. exact Hp.
Qed.

Lemma placed_dates data df df' d :
  placed data df df' ->
  d ∈ Date <$> df' <-> d = Date data \/ d ∈ Date <$> df.
Proof.
  intros (pre & mid & post & c & k & -> & Hmid & _ & _ & ->).
  rewrite !fmap_app, fmap_cons, Date_fmap_add_totals.
  destruct Hmid as [-> | (cur & -> & Hcur)]; cbn [fmap list_fmap app];
    repeat (rewrite elem_of_app || rewrite elem_of_cons); rewrite ?Hcur; tauto.
Qed.

Lemma placed_length data df df' :
  placed data df df' ->
  length df' = length df \/ length df' = S (length df).
Proof.
  intros (pre & mid & post & c & k & -> & Hmid & _ & _ & ->).
  destruct Hmid as [-> | (cur & -> & _)];
    rewrite ?length_app; cbn [length app]; rewrite ?length_app, length_fmap; lia.
Qed.

Lemma placed_sorted data df df' :
  sortedb df = true -> placed data df df' -> sortedb df' = true.
Proof.
  intros Hs (pre & mid & post & c & k & -> & Hmid & Hpre & Hpost & ->).
  rewrite sortedb_shift_post. apply sortedb_insert; [|assumption..].
  destruct Hmid as [-> | (cur & -> & _)]; [exact Hs|].
  apply sortedb_app in Hs as (H1 & H2 & H3).
  apply sortedb_app. split; [exact H1|]. cbn [app] in H2.
  apply sortedb_cons in H2 as [_ H2]. split; [exact H2|].
  eapply Forall_impl; [exact H3|]. intros x Hx. cbn [app] in Hx.
  apply Forall_cons in Hx as [_ Hx]. exact Hx.
Qed.

Lemma placed_wf data df df' :
  wf_dates df -> wf_date (Date data) -> placed data df df' -> wf_dates df'.
Proof.
  intros Hwf Hwd (pre & mid & post & c & k & -> & _ & _ & _ & ->).
  unfold wf_dates in *. apply Forall_app in Hwf as [H1 H23].
  apply Forall_app in H23 as [_ H3].
  apply Forall_app. split; [exact H1|]. constructor; [exact Hwd|].
  apply wf_dates_shift, H3.
Qed.

Lemma placed_rows_ok data df df' :
  row_ok data -> Forall row_ok df -> placed data df df' -> Forall row_ok df'.
Proof.
  intros Hd Hok (pre & mid & post & c & k & -> & _ & _ & _ & ->).
  apply Forall_app in Hok as [H1 H23]. apply Forall_app in H23 as [_ H3].
  apply Forall_app. split; [exact H1|]. constructor; [exact Hd|].
  apply Forall_fmap. eapply Forall_impl; [exact H3|].
  intros r Hr. apply row_ok_add_totals, Hr.
Qed.

(** A stored row dated before the record stands before its place. *)
Lemma placed_after_row data df df' :
  (exists r, r ∈ df /\ before (Date data) r) -> placed data df df' ->
  exists p pre' rest', df = p :: pre' /\ df' = p :: rest'.
Proof.
  intros (r & Hr & Hb) (pre & mid & post & c & k & -> & Hmid & Hpre & Hpost & ->).
  destruct pre as [|p pre0]; [exfalso|cbn [app]; eauto].
  cbn [app] in Hr. apply elem_of_app in Hr as [Hr | Hr].
  - destruct Hmid as [-> | (cur & -> & Hcur)]; [inversion Hr|].
    apply elem_of_cons in Hr as [-> | Hr]; [|inversion Hr].
    unfold before in Hb. rewrite Hcur, ltb_irrefl in Hb. discriminate.
  - rewrite Forall_forall in Hpost. specialize (Hpost r Hr).
    unfold before, after in *. rewrite (ltb_asym _ _ Hpost) in Hb. discriminate.
Qed.

Lemma placed_head data df df' :
  opening_row data \/ (exists r, r ∈ df /\ before (Date data) r) ->
  (forall row0 rest, df = row0 :: rest -> opening_row row0) ->
  placed data df df' ->
  exists row0 rest, df' = row0 :: rest /\ opening_row row0.
Proof.
  intros [Hd | Hr] Hhead Hp.
  - destruct Hp as (pre & mid & post & c & k & -> & _ & _ & _ & ->).
    destruct pre as [|p pre0]; cbn [app]; [eauto|].
    eexists _, _. split; [reflexivity|]. eapply Hhead. reflexivity.
  - destruct (placed_after_row data df df' Hr Hp) as (p & pre' & rest' & -> & ->).
    eexists _, _. split; [reflexivity|]. eapply Hhead. reflexivity.
Qed.

End PlacedFacts.

Module ReachFacts.
Import DateFacts TimestampFacts QtFacts StringOrder SortFacts SaveFacts
  ChainFacts StepFacts RunFacts ShapeFacts CaseFacts FileFacts PlacedFacts.

Lemma file_step_placed df df' :
  sortedb df = true -> wf_dates df -> file_step df df' ->
  df' = df \/
  exists data,
    wf_date (Date data) /\ row_ok data /\
    (opening_row data \/ exists r, r ∈ df /\ before (Date data) r) /\
    placed data df df'.
Proof.
  intros Hs Hwf [-> | (data & Hwd & Hok & Hwhy & Hsave)]; [left; reflexivity|].
  right. exists data. split; [exact Hwd|]. split; [exact Hok|].
  split; [exact Hwhy|]. apply save_frame_placed; assumption.
Qed.

Lemma file_step_ledger df df' :
  sortedb df = true -> wf_dates df -> file_step df df' ->
  (exists row0 rest, df = row0 :: rest /\ opening_row row0) /\ Forall row_ok df ->
  (exists row0 rest, df' = row0 :: rest /\ opening_row row0) /\ Forall row_ok df'.
Proof.
  intros Hs Hwf Hstep [Hhead Hrows].
  destruct (file_step_placed df df' Hs Hwf Hstep)
    as [-> | (data & Hwd & Hok & Hwhy & Hp)]; [auto|].
  split.
  - apply (placed_head data df df' Hwhy); [|exact Hp].
    intros row0 rest ->. destruct Hhead as (r & l & Heq & Hopen).
    injection Heq as <- <-. exact Hopen.
  - apply (placed_rows_ok data df df'); assumption.
Qed.

Section Reach.
Context `{Builtins}.

Lemma reachable_ledger st :
  reachable st ->
  exists df,
    excel_file st = Some df /\
    (exists row0 rest, df = row0 :: rest /\ opening_row row0) /\
    Forall row_ok df.
Proof.
  induction 1 as [today dlg Hq | st today dlg Hst IH Hq | st e Hst IH He].
  - destruct (startup_first_run today dlg Hq) as (df' & Hf & Hstep).
    exists df'. split; [exact Hf|].
    eapply file_step_ledger; [| |exact Hstep|].
    + reflexivity.
    + constructor; [apply wf_date_first_date, Hq | constructor].
    + split; [eexists _, _; split; [reflexivity | apply opening_initial_row]|].
      constructor; [apply opening_row_ok, opening_initial_row | constructor].
  - destruct IH as (df & Hf & Hled).
    destruct (reachable_Inv st Hst) as (df0 & Hf0 & [Hs Hwf _ _] & _).
    rewrite Hf in Hf0. injection Hf0 as <-. rewrite Hf.
    destruct (startup_file_step today dlg df Hq Hs Hwf) as (df' & Hf' & Hstep).
    exists df'. split; [exact Hf'|]. eapply file_step_ledger; eassumption.
  - destruct IH as (df & Hf & Hled).
    pose proof (reachable_Inv st Hst) as HInv.
    destruct (run_event_file_step e st He HInv) as (df0 & df' & Hf0 & Hf' & Hstep).
    destruct HInv as (df1 & Hf1 & [Hs Hwf _ _] & _).
    rewrite Hf in Hf0, Hf1. injection Hf0 as <-. injection Hf1 as <-.
    exists df'. split; [exact Hf'|]. eapply file_step_ledger; eassumption.
Qed.

End Reach.
End ReachFacts.

Module SumFacts.
Import DateFacts TimestampFacts QtFacts StringOrder SortFacts SaveFacts
  ChainFacts StepFacts RunFacts ShapeFacts CaseFacts FileFacts PlacedFacts.

Lemma sum_amounts_app l1 l2 :
  sum_amounts (l1 ++ l2) = sum_amounts l1 + sum_amounts l2.
Proof.
  unfold sum_amounts. induction l1 as [|e l1 IH]; cbn [app foldr]; lia.
Qed.

End SumFacts.

Module ExactFacts.
Import DateFacts TimestampFacts QtFacts StringOrder SortFacts SaveFacts
  ChainFacts StepFacts RunFacts ShapeFacts LoadFacts CaseFacts FileFacts PlacedFacts.

Section Exact.
Context `{Builtins}.

(** [load_frame] on the date of a stored row that has a row before it. *)
Lemma load_frame_exact dlg shown st pre prior cur post :
  sortedb (pre ++ prior :: cur :: post) = true ->
  load_frame (Date cur) dlg shown (pre ++ prior :: cur :: post) st
  = (Ok (mkResolution shown (Exact cur prior)),
     mkState (excel_file st) (show_exact cur prior (ui st))).
Proof.
  intros Hs. set (df := pre ++ prior :: cur :: post) in *.
  assert (Hdf : df = (pre ++ [prior]) ++ cur :: post)
    by (unfold df; rewrite <- app_assoc; reflexivity).
  assert (Hex : date_exists df (Date cur) = true).
  { apply date_exists_true. exists cur. split; [|reflexivity].
    rewrite Hdf. apply elem_of_app. right. left. }
  assert (Hidx : index_of (Date cur) df = Ok (length (pre ++ [prior]))).
  { rewrite Hdf. apply index_of_middle; [|reflexivity].
    rewrite Hdf in Hs. apply (sorted_pre_neq cur _ post Hs). }
  unfold load_frame. destruct df as [|row0 rest] eqn:Hdf0.
  { destruct pre; discriminate. }
  rewrite Hex. run. rewrite Hidx. proj.
  destruct (length (pre ++ [prior])) eqn:Hlen;
    [rewrite length_app in Hlen; cbn in Hlen; lia|].
  cbn [Nat.eqb]. rewrite <- Hlen.
  destruct (lookup_snoc_middle pre prior cur post) as [H1 H2].
  rewrite Hdf, H1, H2. proj. reflexivity.
Qed.

Lemma load_data_exact_run dlg st pre prior cur post :
  excel_file st = Some (pre ++ prior :: cur :: post) ->
  sortedb (pre ++ prior :: cur :: post) = true ->
  load_data (Date cur) dlg st
  = (Ok (mkResolution false (Exact cur prior)),
     mkState (Some (pre ++ prior :: cur :: post))
       (show_exact cur prior (ui (snd (clear_data st))))).
Proof.
  intros Hf Hs. rewrite (load_data_Some _ dlg st _ Hf).
  rewrite load_frame_exact by exact Hs. rewrite clear_data_file, Hf. reflexivity.
Qed.

End Exact.
End ExactFacts.

Module MoreFacts.
Import DateFacts TimestampFacts QtFacts StringOrder SortFacts SaveFacts
  ChainFacts StepFacts RunFacts ShapeFacts LoadFacts CaseFacts FileFacts
  PlacedFacts SumFacts.

Lemma placed_date_exists data df df' :
  wf_dates df -> wf_date (Date data) -> placed data df df' ->
  length df' = if date_exists df (Date data) then length df else S (length df).
Proof.
  intros Hwf Hwd (pre & mid & post & c & k & -> & Hmid & Hpre & Hpost & ->).
  destruct Hmid as [-> | (cur & -> & Hcur)]; cbn [app].
  - rewrite date_exists_false; [|assumption..|].
    + rewrite !length_app. cbn [length]. rewrite length_fmap. lia.
    + apply Forall_app. split.
      * eapply Forall_impl; [exact Hpre | apply before_neq].
      * eapply Forall_impl; [exact Hpost | apply after_neq].
  - rewrite date_exists_true.
    + rewrite !length_app. cbn [length]. rewrite length_fmap. lia.
    + exists cur. split; [|exact Hcur]. apply elem_of_app. right. left.
Qed.

Lemma placed_elem data df df' : placed data df df' -> data ∈ df'.
Proof.
  intros (pre & mid & post & c & k & _ & _ & _ & _ & ->).
  apply elem_of_app. right. left.
Qed.

Lemma index_of_mismatch date df :
  Forall (fun r => Date r <> date) df -> index_of date df = Raise IndexError.
Proof.
  intros Hne. unfold index_of.
  destruct (list_find (fun r => Date r = date) df) as [[i r]|] eqn:Hfind;
    [|reflexivity].
  apply list_find_Some in Hfind as (Hi & Hr & _).
  rewrite Forall_forall in Hne. destruct (Hne r); [|exact Hr].
  eapply list_elem_of_lookup_2. exact Hi.
Qed.

End MoreFacts.

Module TripFacts.
Import DateFacts TimestampFacts QtFacts StringOrder SortFacts SaveFacts
  ChainFacts StepFacts RunFacts ShapeFacts LoadFacts CaseFacts FileFacts
  PlacedFacts SumFacts ExactFacts MoreFacts.

(** A list splits in one way only into rows with [P] followed by rows
    with [Q], when no row has both. *)
Lemma partition_unique (P Q : Row -> Prop) (l1 l2 l1' l2' : DataFrame) :
  (forall r, P r -> Q r -> False) ->
  l1 ++ l2 = l1' ++ l2' ->
  Forall P l1 -> Forall Q l2 -> Forall P l1' -> Forall Q l2' ->
  l1 = l1' /\ l2 = l2'.
Proof.
  intros Hdis. revert l1'.
  induction l1 as [|x l1 IH]; intros [|y l1'] Heq H1 H2 H1' H2'; cbn [app] in Heq.
  - auto.
  - exfalso. subst l2. apply Forall_cons in H2 as [H2 _].
    apply Forall_cons in H1' as [H1' _]. eauto.
  - exfalso. subst l2'. apply Forall_cons in H2' as [H2' _].
    apply Forall_cons in H1 as [H1 _]. eauto.
  - injection Heq as <- Heq. apply Forall_cons in H1 as [_ H1].
    apply Forall_cons in H1' as [_ H1'].
    destruct (IH l1' Heq H1 H2 H1' H2') as [<- <-]. auto.
Qed.

Lemma before_not_before d r : before d r -> not_before d r -> False.
Proof. unfold before, not_before. congruence. Qed.

(** The rows before the saved date stand in front of the record, and the
    last of them is the row that the cached balances were taken from. *)
Lemma placed_after_prior data df df' pre prior post :
  sortedb df = true ->
  df = pre ++ prior :: post -> before (Date data) prior ->
  Forall (not_before (Date data)) post ->
  placed data df df' ->
  exists post', df' = pre ++ prior :: data :: post' /\ (length post' <= length post)%nat.
Proof.
  intros Hs Hdf Hb Hpost (pre2 & mid & post2 & c & k & Hdf2 & Hmid & Hpre2 & Hpost2 & ->).
  assert (Hpre : Forall (before (Date data)) (pre ++ [prior])).
  { apply Forall_app. split; [|constructor; [exact Hb | constructor]].
    rewrite Hdf in Hs. apply sortedb_app in Hs as (_ & _ & H12).
    eapply Forall_impl; [exact H12|]. intros x Hx.
    apply Forall_cons in Hx as [Hx _]. unfold before, after in *.
    eapply ltb_trans; eassumption. }
  assert (Hrest : Forall (not_before (Date data)) (mid ++ post2)).
  { apply Forall_app. split.
    - destruct Hmid as [-> | (cur & -> & Hcur)]; constructor; [|constructor].
      unfold not_before. rewrite Hcur. apply ltb_irrefl.
    - eapply Forall_impl; [exact Hpost2 | apply after_not_before]. }
  assert (Heq : (pre ++ [prior]) ++ post = pre2 ++ mid ++ post2)
    by (rewrite <- app_assoc; cbn [app]; congruence).
  destruct (partition_unique _ _ _ _ _ _ (before_not_before (Date data))
              Heq Hpre Hpost Hpre2 Hrest) as [<- ->].
  exists (add_totals c k <$> post2). split; [rewrite <- app_assoc; reflexivity|].
  rewrite length_fmap, length_app. lia.
Qed.

Lemma resave data pre post :
  sortedb (pre ++ data :: post) = true ->
  save_frame data (pre ++ data :: post) = Ok (pre ++ data :: post).
Proof.
  intros Hs. rewrite (save_frame_existing data pre data post Hs eq_refl).
  unfold edit_credit_difference, edit_cash_difference.
  rewrite !Z.sub_diag, fmap_add_totals_zero. reflexivity.
Qed.

Section Trip.
Context `{Builtins}.

Lemma calculate_totals_valid st cash credit credit_withdraw :
  float_or_zero (cash_entry (ui st)) = Some cash ->
  float_or_zero (credit_entry (ui st)) = Some credit ->
  float_or_zero (credit_withdraw_entry (ui st)) = Some credit_withdraw ->
  calculate_totals st
  = (Ok (Some (mkRow (toString (date_picker (ui st))) cash credit credit_withdraw
                 (cash + credit)
                 (last_day_credit (ui st) + credit - credit_withdraw)
                 (last_day_cash (ui st) + cash + credit_withdraw
                  - sum_amounts (expenses (ui st)))
                 (sum_amounts (expenses (ui st)))
                 (cell_of_expenses (expenses (ui st))))),
     mkState (excel_file st)
       (set_results (fmt (sum_amounts (expenses (ui st)))) (fmt (cash + credit))
          (fmt (last_day_credit (ui st) + credit - credit_withdraw))
          (fmt (last_day_cash (ui st) + cash + credit_withdraw
                - sum_amounts (expenses (ui st))))
          (ui st))).
Proof.
  intros Hc Hk Hw. unfold calculate_totals. run. rewrite Hc, Hk, Hw. reflexivity.
Qed.

Lemma save_daily_data_run st data s' df df' :
  calculate_totals st = (Ok (Some data), mkState (excel_file st) s') ->
  excel_file st = Some df -> save_frame data df = Ok df' ->
  save_daily_data st
  = (Ok tt, mkState (Some df') (notify information_saved s')).
Proof.
  intros Hcalc Hf Hsave.
  unfold save_daily_data, try_except_ValueError, save_data_m, save_data. run.
  rewrite Hcalc. proj. rewrite Hf. proj. rewrite Hsave. proj. reflexivity.
Qed.

End Trip.
End TripFacts.

Module SplitFacts.
Import DateFacts.

Lemma contains_cons pat c s :
  contains pat (String c s) = false ->
  String.prefix pat (String c s) = false /\ contains pat s = false.
Proof. cbn [contains]. intros Hc. apply orb_false_elim in Hc. exact Hc. Qed.

Lemma append_assoc (a b c : string) : (a +:+ b) +:+ c = a +:+ (b +:+ c).
Proof.
  induction a as [|x a IH]; [reflexivity|].
  change (String x ((a +:+ b) +:+ c) = String x (a +:+ (b +:+ c))).
  rewrite IH. reflexivity.
Qed.

Lemma prefix_cons c1 p c2 s :
  String.prefix (String c1 p) (String c2 s)
  = if ascii_dec c1 c2 then String.prefix p s else false.
Proof. reflexivity. Qed.

Lemma split_from_skip sep k c s :
  split_from sep (S k) (String c s) = split_from sep k s.
Proof. reflexivity. Qed.

Lemma split_from_match sep c s :
  String.prefix sep (String c s) = true ->
  split_from sep 0 (String c s)
  = EmptyString :: split_from sep (String.length sep - 1) s.
Proof. intros Hp. cbn [split_from]. rewrite Hp. reflexivity. Qed.

Lemma split_from_next sep c s :
  String.prefix sep (String c s) = false ->
  split_from sep 0 (String c s)
  = match split_from sep 0 s with
    | piece :: pieces => String c piece :: pieces
    | [] => [String c EmptyString]
    end.
Proof. intros Hp. cbn [split_from]. rewrite Hp. reflexivity. Qed.

(** A text without the separator is one piece. *)
Lemma split_from_no_sep s :
  contains ": " s = false -> split_from ": " 0 s = [s].
Proof.
  induction s as [|c s IH]; [reflexivity|].
  intros Hc. apply contains_cons in Hc as [Hp Hc].
  rewrite (split_from_next _ _ _ Hp), (IH Hc). reflexivity.
Qed.

(** The separator does not begin inside a text without it, whatever
    follows: its second character differs from its first. *)
Lemma prefix_sep_append c a rest :
  String.prefix ": " (String c a) = false ->
  String.prefix ": " (String c (a +:+ ": " +:+ rest)) = false.
Proof.
  rewrite !prefix_cons. destruct (ascii_dec ":" c); [|reflexivity].
  destruct a as [|c2 a].
  - intros _. change (EmptyString +:+ ": " +:+ rest) with (String ":" (String " " rest)).
    rewrite prefix_cons. destruct (ascii_dec " " ":") as [E|]; [discriminate E | reflexivity].
  - change (String c2 a +:+ ": " +:+ rest) with (String c2 (a +:+ ": " +:+ rest)).
    rewrite !prefix_cons. destruct (ascii_dec " " c2); [|reflexivity].
    intros Hp. destruct a; discriminate Hp.
Qed.

(** The first piece of a text that begins with a text without the
    separator, followed by the separator. *)
Lemma split_from_sep a rest :
  contains ": " a = false ->
  split_from ": " 0 (a +:+ ": " +:+ rest) = a :: split_from ": " 0 rest.
Proof.
  induction a as [|c a IH]; intros Hc.
  - change (EmptyString +:+ ": " +:+ rest) with (String ":" (String " " rest)).
    rewrite split_from_match
      by (rewrite !prefix_cons; destruct (ascii_dec ":" ":"); [|congruence];
          destruct (ascii_dec " " " "); [|congruence]; destruct rest; reflexivity).
    change (String.length ": " - 1)%nat with 1%nat.
    rewrite split_from_skip. reflexivity.
  - apply contains_cons in Hc as [Hp Hc].
    change (String c a +:+ ": " +:+ rest) with (String c (a +:+ ": " +:+ rest)).
    rewrite (split_from_next _ _ _ (prefix_sep_append c a rest Hp)), (IH Hc).
    reflexivity.
Qed.

Lemma split_item_text name amount_text :
  contains ": " name = false -> contains ": " amount_text = false ->
  split ": " (item_text name amount_text) = Ok [name; amount_text].
Proof.
  intros Hn Ha. unfold split, item_text.
  rewrite (split_from_sep name amount_text Hn), (split_from_no_sep _ Ha).
  reflexivity.
Qed.

Lemma split_item_text_sep a b amount_text :
  contains ": " a = false -> contains ": " b = false ->
  exists pieces,
    split ": " (item_text (a +:+ ": " +:+ b) amount_text) = Ok (a :: b :: pieces).
Proof.
  intros Ha Hb. unfold split, item_text. rewrite append_assoc.
  change ((": " +:+ b) +:+ ": " +:+ amount_text)
    with (": " +:+ (b +:+ ": " +:+ amount_text)).
  rewrite (split_from_sep a _ Ha), (split_from_sep b _ Hb). eauto.
Qed.

End SplitFacts.

Module FormFacts.
Import RunFacts ExpenseFacts SumFacts TripFacts.

Section Form.
Context `{Builtins}.

(** The form after [add_expense] took the amount: the new pair is in the
    list and the two entries are blank when [calculate_totals] runs. *)
Lemma add_expense_run st amount :
  float (expense_amount_entry (ui st)) = Some amount ->
  snd (add_expense st)
  = snd (calculate_totals
           (mkState (excel_file st)
              (set_expense_entries EmptyString EmptyString
                 (set_expenses
                    (expenses (ui st) ++ [(expense_name_entry (ui st), amount)])
                    (ui st))))).
Proof.
  intros Ha. unfold add_expense, try_except_ValueError. run. rewrite Ha. proj.
  match goal with |- context [calculate_totals ?s] =>
    destruct (calculate_totals_run s) as (r & s' & -> & _) end.
  reflexivity.
Qed.

Lemma edit_expense_run sel st amount l :
  float (expense_amount_entry (ui st)) = Some amount ->
  edit_loop sel (expense_name_entry (ui st), amount) (expenses (ui st)) = Ok l ->
  snd (edit_expense (Some sel) st)
  = snd (calculate_totals (mkState (excel_file st) (set_expenses l (ui st)))).
Proof.
  intros Ha Hl. unfold edit_expense, try_except_ValueError. run.
  rewrite Ha. proj. rewrite Hl. proj.
  match goal with |- context [calculate_totals ?s] =>
    destruct (calculate_totals_run s) as (r & s' & -> & _) end.
  reflexivity.
Qed.

Lemma edit_expense_raise sel st amount e :
  float (expense_amount_entry (ui st)) = Some amount ->
  edit_loop sel (expense_name_entry (ui st), amount) (expenses (ui st)) = Raise e ->
  snd (edit_expense (Some sel) st) = st \/
  snd (edit_expense (Some sel) st)
  = mkState (excel_file st) (notify critical_invalid_amount (ui st)).
Proof.
  intros Ha Hl. unfold edit_expense, try_except_ValueError. run.
  rewrite Ha. proj. rewrite Hl. proj.
  destruct e; proj; destruct st; auto.
Qed.

Lemma delete_expense_run sel st l :
  delete_loop sel (expenses (ui st)) = Ok l ->
  snd (delete_expense (Some sel) st)
  = snd (calculate_totals (mkState (excel_file st) (set_expenses l (ui st)))).
Proof.
  intros Hl. unfold delete_expense, try_except_ValueError. run.
  rewrite Hl. proj.
  match goal with |- context [calculate_totals ?s] =>
    destruct (calculate_totals_run s) as (r & s' & -> & _) end.
  reflexivity.
Qed.

Lemma delete_expense_raise sel st e :
  delete_loop sel (expenses (ui st)) = Raise e ->
  snd (delete_expense (Some sel) st) = st \/
  snd (delete_expense (Some sel) st)
  = mkState (excel_file st) (notify critical_invalid_expense (ui st)).
Proof.
  intros Hl. unfold delete_expense, try_except_ValueError. run.
  rewrite Hl. proj. destruct e; proj; destruct st; auto.
Qed.

Lemma no_item_selected_edit st :
  snd (edit_expense None st)
  = mkState (excel_file st) (notify critical_select_expense (ui st)).
Proof. reflexivity. Qed.

Lemma no_item_selected_delete st :
  snd (delete_expense None st)
  = mkState (excel_file st) (notify critical_select_expense (ui st)).
Proof. reflexivity. Qed.

(** After [calculate_totals] with numbers in the entries the label of the
    total expenses shows the sum of the list. *)
Lemma calculate_totals_label st cash credit credit_withdraw :
  float_or_zero (cash_entry (ui st)) = Some cash ->
  float_or_zero (credit_entry (ui st)) = Some credit ->
  float_or_zero (credit_withdraw_entry (ui st)) = Some credit_withdraw ->
  total_expenses_result (ui (snd (calculate_totals st)))
  = fmt (sum_amounts (expenses (ui (snd (calculate_totals st))))).
Proof.
  intros Hc Hk Hw. rewrite (calculate_totals_valid st _ _ _ Hc Hk Hw). reflexivity.
Qed.

End Form.
End FormFacts.

Module Binary64Facts.

(** On binary64 numbers the re-basing of the sheet by an opening row does
    not keep the difference of the running totals of two later rows: the
    rows with the credit totals 0.1 and 0.1 + 0.2 receive 0.2 - 0.1 each and
    become 0.2 and 0.4, a difference of 0.2 where it was the binary64 number
    above 0.2 before. *)
Lemma rebase_changes_differences :
  Binary64.save_data Binary64.record_10 (Some Binary64.sheet_1)
  = Ok Binary64.sheet_10 /\
  Binary64.save_data Binary64.earlier_opening (Some Binary64.sheet_10)
  = Ok Binary64.sheet_rebased /\
  exists a b a' b',
    Binary64.sheet_10 = [a; b] /\
    Binary64.sheet_rebased = [Binary64.earlier_opening; a'; b'] /\
    PrimFloat.eqb
      (PrimFloat.sub (Binary64.Total_Credit b') (Binary64.Total_Credit a'))
      (PrimFloat.sub (Binary64.Total_Credit b) (Binary64.Total_Credit a))
    = false.
Proof.
  split; [reflexivity|]. split; [reflexivity|].
  eexists _, _, _, _. split; [reflexivity|]. split; [reflexivity|]. reflexivity.
Qed.

End Binary64Facts.
(** * The claims *)

Import DateFacts TimestampFacts QtFacts StringOrder SortFacts SaveFacts
  ChainFacts StepFacts RunFacts ShapeFacts LoadFacts.
Import CaseFacts FileFacts PlacedFacts TripFacts.




(** C2. The lookup that [load_data] and [save_data] use to decide whether
    a record of the date exists agrees with equality of dates.  On texts of
    the ['yyyy-MM-dd'] form, the only date texts that the application
    writes, the date is found exactly when some record has that date text;
    and in every state that the application reaches, for every date of the
    picker, the date is found exactly when some stored record is dated that
    calendar day.  The code calls [str.contains], but on these texts, which
    all have the same length, a text contains another only if it equals
    it. *)
Theorem C2_lookup_exact_on_dates `{Builtins} :
  (forall (date : string) (df : DataFrame),
     wf_date date -> wf_dates df ->
     (date_exists df date = true <-> exists r, r ∈ df /\ Date r = date)) /\
  (forall (st : State) (df : DataFrame) (q : QDate),
     reachable st -> excel_file st = Some df -> valid_qdate q = true ->
     (date_exists df (toString q) = true <->
      exists r, r ∈ df /\ Timestamp (Date r) = Some q)).
Proof.
  split.
  - intros date df Hd Hdf. apply date_exists_wf; assumption.
  - intros st df q Hr Hf Hq.
    destruct (reachable_Inv st Hr) as (df' & Hf' & [_ Hwf _ _] & _).
    rewrite Hf in Hf'. injection Hf' as <-.
    pose proof (Timestamp_toString q (valid_printable q Hq)) as Hts.
    rewrite (date_exists_wf df (toString q) (wf_date_toString q Hq) Hwf).
    split; intros (r & Hin & Hr').
    + exists r. split; [exact Hin|]. rewrite Hr'. exact Hts.
    + exists r. split; [exact Hin|].
      apply ltb_total.
      * rewrite <- (Timestamp_ltb _ q _ q Hr' Hts).
        unfold ts_ltb. rewrite !Z.ltb_irrefl, !Z.eqb_refl. reflexivity.
      * rewrite <- (Timestamp_ltb _ q _ q Hts Hr').
        unfold ts_ltb. rewrite !Z.ltb_irrefl, !Z.eqb_refl. reflexivity.
Qed.

Lemma C2_lookup_exact_on_dates_witness :
  (date_exists first_day_df "2024-03-10" = true <->
   exists r, r ∈ first_day_df /\ Date r = "2024-03-10") /\
  (date_exists three_days_df (toString (march 11)) = true <->
   exists r, r ∈ three_days_df /\ Timestamp (Date r) = Some (march 11)).
Proof.
  split.
  - apply (proj1 (@C2_lookup_exact_on_dates example_builtins)).
    + eexists. vm_compute. reflexivity.
    + repeat constructor; eexists; vm_compute; reflexivity.
  - apply (proj2 (@C2_lookup_exact_on_dates example_builtins) three_days).
    + unfold three_days, two_days, first_day, first_run.
      repeat (apply reachable_event; [|reflexivity]).
      apply reachable_first_run. reflexivity.
    + vm_compute. reflexivity.
    + reflexivity.
Defined.

(** C5. A record whose date is not in the sheet and is not earlier than all
    stored dates is placed behind the rows with earlier dates, which keep all
    their fields.  Every row with a later date has
    [credit_income - credit_withdraw] of the record added to its running
    credit total and [cash_income + credit_withdraw - total_expenses] of the
    record added to its running cash total, and keeps its other fields. *)
Theorem C5_insert_propagates_flows (data : Row) (df : DataFrame) :
  date_ordered df -> wf_dates df -> wf_date (Date data) ->
  Forall (fun r => Date r <> Date data) df ->
  ~ Forall (after (Date data)) df ->
  exists pre post post',
    df = pre ++ post /\
    Forall (before (Date data)) pre /\ Forall (after (Date data)) post /\
    save_data data (Some df) = Ok (pre ++ data :: post') /\
    length post' = length post /\
    forall i r, post !! i = Some r ->
      exists r', post' !! i = Some r' /\
        Total_Credit r'
        = Total_Credit r + (Credit data - Credit_Withdraw data) /\
        Total_Cash r'
        = Total_Cash r
          + (Cash data + Credit_Withdraw data - Total_Expenses data) /\
        Date r' = Date r /\ Cash r' = Cash r /\ Credit r' = Credit r /\
        Credit_Withdraw r' = Credit_Withdraw r /\
        Total_Sellings r' = Total_Sellings r /\
        Total_Expenses r' = Total_Expenses r /\ Expenses r' = Expenses r.
Proof.
  intros Hs Hwf Hwd Hne Hnot.
  destruct (split_at_date (Date data) df Hs) as (pre & post & -> & Hpre & Hpost).
  assert (Hafter : Forall (after (Date data)) post).
  { apply Forall_app in Hne as [_ Hne]. rewrite Forall_forall in *.
    intros r Hr. destruct (not_before_cases _ _ (Hpost r Hr)) as [He | Ha];
      [destruct (Hne r Hr He) | exact Ha]. }
  exists pre, post,
    (add_totals (credit_flow data) (cash_flow data) <$> post).
  split; [reflexivity|]. split; [exact Hpre|]. split; [exact Hafter|].
  split.
  - cbn [save_data read_excel from_option rbind].
    apply save_frame_new_middle; try assumption.
    + intros ->. apply Hnot. exact Hafter.
    + apply date_exists_false; assumption.
  - split; [apply length_fmap|]. intros i r Hi.
    exists (add_totals (credit_flow data) (cash_flow data) r).
    split; [rewrite list_lookup_fmap, Hi; reflexivity|]. repeat split.
Qed.

Lemma C5_insert_propagates_flows_witness :
  exists pre post post',
    two_days_df = pre ++ post /\
    Forall (before (Date march_11)) pre /\ Forall (after (Date march_11)) post /\
    save_data march_11 (Some two_days_df) = Ok (pre ++ march_11 :: post') /\
    length post' = length post /\
    forall i r, post !! i = Some r ->
      exists r', post' !! i = Some r' /\
        Total_Credit r'
        = Total_Credit r + (Credit march_11 - Credit_Withdraw march_11) /\
        Total_Cash r'
        = Total_Cash r
          + (Cash march_11 + Credit_Withdraw march_11
             - Total_Expenses march_11) /\
        Date r' = Date r /\ Cash r' = Cash r /\ Credit r' = Credit r /\
        Credit_Withdraw r' = Credit_Withdraw r /\
        Total_Sellings r' = Total_Sellings r /\
        Total_Expenses r' = Total_Expenses r /\ Expenses r' = Expenses r.
Proof.
  apply C5_insert_propagates_flows.
  - reflexivity.
  - repeat constructor; eexists; vm_compute; reflexivity.
  - eexists. vm_compute. reflexivity.
  - repeat constructor; discriminate.
  - intros Hall. inversion Hall as [|r l Hr _]. discriminate Hr.
Defined.

(** C3. When a record is inserted at position 0, before every stored date,
    the differences are the record's stored running totals minus those of
    the row that was at position 0 before, and they are added to the running
    totals of every row from the new position 1 onward, the former first row
    included; the other fields of these rows stay as they are.  The records
    that the application inserts at position 0 are the opening rows of
    [show_first_day_dialog], which have no flows, so that the per-field flow
    differences, which the code adds as well, are zero. *)
Theorem C3_insert_first_back_computes (data row0 : Row) (rest : DataFrame) :
  date_ordered (row0 :: rest) -> wf_dates (row0 :: rest) ->
  wf_date (Date data) -> Forall (after (Date data)) (row0 :: rest) ->
  Credit data - Credit_Withdraw data = 0 ->
  Cash data + Credit_Withdraw data - Total_Expenses data = 0 ->
  let credit_difference := Total_Credit data - Total_Credit row0 in
  let cash_difference := Total_Cash data - Total_Cash row0 in
  exists df',
    save_data data (Some (row0 :: rest)) = Ok (data :: df') /\
    length df' = length (row0 :: rest) /\
    forall i r, (row0 :: rest) !! i = Some r ->
      exists r', df' !! i = Some r' /\
        Total_Credit r' = Total_Credit r + credit_difference /\
        Total_Cash r' = Total_Cash r + cash_difference /\
        Date r' = Date r /\ Cash r' = Cash r /\ Credit r' = Credit r /\
        Credit_Withdraw r' = Credit_Withdraw r /\
        Total_Sellings r' = Total_Sellings r /\
        Total_Expenses r' = Total_Expenses r /\ Expenses r' = Expenses r.
Proof.
  intros Hs Hwf Hwd Hafter Hc Hk cd kd.
  pose proof (save_data_insert_first data row0 rest Hs Hwf Hwd Hafter) as Hsave.
  unfold credit_flow, cash_flow in Hsave.
  rewrite Hc, Hk, fmap_add_totals_zero in Hsave.
  eexists. split; [exact Hsave|]. split; [apply length_fmap|].
  intros i r Hi. exists (add_totals cd kd r).
  split; [rewrite list_lookup_fmap, Hi; reflexivity|]. repeat split.
Qed.

Lemma C3_insert_first_back_computes_witness :
  exists df',
    save_data early_boot (Some first_day_df) = Ok (early_boot :: df') /\
    length df' = length first_day_df /\
    forall i r, first_day_df !! i = Some r ->
      exists r', df' !! i = Some r' /\
        Total_Credit r' = Total_Credit r + (5 - 100) /\
        Total_Cash r' = Total_Cash r + (6 - 50) /\
        Date r' = Date r /\ Cash r' = Cash r /\ Credit r' = Credit r /\
        Credit_Withdraw r' = Credit_Withdraw r /\
        Total_Sellings r' = Total_Sellings r /\
        Total_Expenses r' = Total_Expenses r /\ Expenses r' = Expenses r.
Proof.
  apply (C3_insert_first_back_computes early_boot
           (mkRow "2024-03-09" 0 0 0 0 100 50 0 NoExpenses)
           [mkRow "2024-03-10" 10 20 5 30 115 62 3 (ExpenseList [("ice", 3)])]).
  - reflexivity.
  - repeat constructor; eexists; vm_compute; reflexivity.
  - eexists. vm_compute. reflexivity.
  - repeat constructor.
  - reflexivity.
  - reflexivity.
Defined.

(** C4, as amended.  After a record is inserted with a date earlier than all
    stored dates, every later record has had the same two amounts added to
    each of its running totals, in this order: the inserted record's stored
    total less that of the former first record, and the inserted record's
    own flow difference ([credit_income - credit_withdraw], and
    [cash_income + credit_withdraw - total_expenses]). *)
Theorem C4_backfill_uniform_shift (data row0 : Row) (rest : DataFrame) :
  date_ordered (row0 :: rest) -> wf_dates (row0 :: rest) ->
  wf_date (Date data) -> Forall (after (Date data)) (row0 :: rest) ->
  exists df',
    save_data data (Some (row0 :: rest)) = Ok (data :: df') /\
    length df' = length (row0 :: rest) /\
    (forall i r r',
       (row0 :: rest) !! i = Some r -> df' !! i = Some r' ->
       Total_Credit r'
       = Total_Credit r + (Total_Credit data - Total_Credit row0)
         + (Credit data - Credit_Withdraw data) /\
       Total_Cash r'
       = Total_Cash r + (Total_Cash data - Total_Cash row0)
         + (Cash data + Credit_Withdraw data - Total_Expenses data)).
Proof.
  intros Hs Hwf Hwd Hafter.
  pose proof (save_data_insert_first data row0 rest Hs Hwf Hwd Hafter) as Hsave.
  eexists. split; [exact Hsave|].
  split; [rewrite !length_fmap; reflexivity|].
  intros i r r' Hr Hr'. rewrite !list_lookup_fmap, Hr in Hr'.
  injection Hr' as <-. split; reflexivity.
Qed.

Lemma C4_backfill_uniform_shift_witness :
  exists df',
    save_data early_day (Some first_day_df) = Ok (early_day :: df') /\
    length df' = length first_day_df /\
    (forall i r r',
       first_day_df !! i = Some r -> df' !! i = Some r' ->
       Total_Credit r' = Total_Credit r + (5 - 100) + (3 - 0) /\
       Total_Cash r' = Total_Cash r + (6 - 50) + (4 + 0 - 0)).
Proof.
  apply (C4_backfill_uniform_shift early_day
           (mkRow "2024-03-09" 0 0 0 0 100 50 0 NoExpenses)
           [mkRow "2024-03-10" 10 20 5 30 115 62 3 (ExpenseList [("ice", 3)])]).
  - reflexivity.
  - repeat constructor; eexists; vm_compute; reflexivity.
  - eexists. vm_compute. reflexivity.
  - repeat constructor.
Defined.

(** C4 fails as stated: an opening row without flows shifts the later
    records by the difference of the opening balances, not by its own flow
    differences, which are zero. *)
Lemma C4_counterexample :
  exists df' r r',
    save_data early_boot (Some first_day_df) = Ok (early_boot :: df') /\
    first_day_df !! 0%nat = Some r /\ df' !! 0%nat = Some r' /\
    Total_Credit r'
    <> Total_Credit r + (Credit early_boot - Credit_Withdraw early_boot) /\
    Total_Cash r'
    <> Total_Cash r + (Cash early_boot + Credit_Withdraw early_boot
                       - Total_Expenses early_boot).
Proof.
  eexists _, _, _. split; [vm_compute; reflexivity|].
  split; [reflexivity|]. split; [reflexivity|]. split; vm_compute; discriminate.
Qed.

(** C6. Saving a record a second time with unchanged values changes
    nothing: the second save finds the stored copy of the record, computes
    zero for both differences and leaves the sheet as it is.  Likewise an
    edit of the last record leaves every other record as it is, and an edit
    whose differences are zero leaves every other record as it is. *)
Theorem C6_resave_idempotent :
  (forall data df,
     date_ordered df -> wf_dates df -> wf_date (Date data) ->
     exists df' idx current,
       save_data data (Some df) = Ok df' /\
       index_of (Date data) df' = Ok idx /\ df' !! idx = Some current /\
       edit_credit_difference data current = 0 /\
       edit_cash_difference data current = 0 /\
       save_data data (Some df') = Ok df') /\
  (forall data pre cur,
     date_ordered (pre ++ [cur]) -> Date cur = Date data ->
     save_data data (Some (pre ++ [cur])) = Ok (pre ++ [data])) /\
  (forall data pre cur post,
     date_ordered (pre ++ cur :: post) -> Date cur = Date data ->
     edit_credit_difference data cur = 0 ->
     edit_cash_difference data cur = 0 ->
     save_data data (Some (pre ++ cur :: post)) = Ok (pre ++ data :: post)).
Proof.
  split; [|split].
  - intros data df Hs Hwf Hwd.
    destruct (save_frame_shape data df Hs Hwf Hwd) as (pre & post & Hsave & Hs').
    exists (pre ++ data :: post), (length pre), data.
    split; [exact Hsave|]. split.
    { apply index_of_middle; [apply (sorted_pre_neq data pre post Hs') | reflexivity]. }
    split; [rewrite lookup_app_r, Nat.sub_diag by lia; reflexivity|].
    split; [unfold edit_credit_difference; lia|].
    split; [unfold edit_cash_difference; lia|].
    cbn [save_data read_excel from_option rbind].
    rewrite (save_frame_existing data pre data post Hs' eq_refl).
    unfold edit_credit_difference, edit_cash_difference.
    rewrite !Z.sub_diag, fmap_add_totals_zero. reflexivity.
  - intros data pre cur Hs Hd. cbn [save_data read_excel from_option rbind].
    rewrite (save_frame_existing data pre cur [] Hs Hd). reflexivity.
  - intros data pre cur post Hs Hd Hc Hk.
    cbn [save_data read_excel from_option rbind].
    rewrite (save_frame_existing data pre cur post Hs Hd), Hc, Hk.
    rewrite fmap_add_totals_zero. reflexivity.
Qed.

Lemma C6_resave_idempotent_witness :
  (exists df' idx current,
     save_data march_11 (Some two_days_df) = Ok df' /\
     index_of (Date march_11) df' = Ok idx /\ df' !! idx = Some current /\
     edit_credit_difference march_11 current = 0 /\
     edit_cash_difference march_11 current = 0 /\
     save_data march_11 (Some df') = Ok df') /\
  save_data (mkRow "2024-03-10" 1 1 1 2 100 52 0 NoExpenses) (Some first_day_df)
  = Ok [mkRow "2024-03-09" 0 0 0 0 100 50 0 NoExpenses;
        mkRow "2024-03-10" 1 1 1 2 100 52 0 NoExpenses] /\
  save_data (mkRow "2024-03-10" 10 20 5 30 115 62 3 (ExpenseList [("tea", 3)]))
    (Some two_days_df)
  = Ok [mkRow "2024-03-09" 0 0 0 0 100 50 0 NoExpenses;
        mkRow "2024-03-10" 10 20 5 30 115 62 3 (ExpenseList [("tea", 3)]);
        mkRow "2024-03-12" 1 2 0 3 117 63 0 NoExpenses].
Proof.
  destruct C6_resave_idempotent as (Hresave & Hlast & Hzero).
  split; [|split].
  - apply Hresave.
    + reflexivity.
    + repeat constructor; eexists; vm_compute; reflexivity.
    + eexists. vm_compute. reflexivity.
  - apply (Hlast _ [mkRow "2024-03-09" 0 0 0 0 100 50 0 NoExpenses]
             (mkRow "2024-03-10" 10 20 5 30 115 62 3 (ExpenseList [("ice", 3)])));
      reflexivity.
  - apply (Hzero _ [mkRow "2024-03-09" 0 0 0 0 100 50 0 NoExpenses]
             (mkRow "2024-03-10" 10 20 5 30 115 62 3 (ExpenseList [("ice", 3)]))
             [mkRow "2024-03-12" 1 2 0 3 117 63 0 NoExpenses]);
      reflexivity.
Defined.

Section Resolver.

Context `{Builtins}.

(** C7. On a non-empty ordered sheet, for a date that has no row and is not
    earlier than the earliest stored date, [load_data] shows no dialog and
    resolves to [Interpolated prior], where [prior] is the stored row with
    the latest date strictly earlier than the query date: every row behind
    it in the sheet is dated after the query date.  The file is left as it
    is and the opening balances on the form are [prior]'s running totals. *)
Theorem C7_resolver_nearest_prior (dlg : DialogAnswer) (st : State)
    (row0 : Row) (rest : DataFrame) :
  let d := toString (date_picker (ui st)) in
  let df := row0 :: rest in
  excel_file st = Some df ->
  date_ordered df -> wf_dates df ->
  valid_qdate (date_picker (ui st)) = true ->
  Forall (fun r => Date r <> d) df ->
  String.ltb d (Date row0) = false ->
  exists prior st' pre post,
    load_data d dlg st = (Ok (mkResolution false (Interpolated prior)), st') /\
    df = pre ++ prior :: post /\ Forall (after d) post /\
    before d prior /\
    (forall r, r ∈ df -> before d r ->
       r = prior \/ String.ltb (Date r) (Date prior) = true) /\
    excel_file st' = Some df /\
    last_day_credit (ui st') = Total_Credit prior /\
    last_day_cash (ui st') = Total_Cash prior /\
    total_credit_result (ui st') = fmt (Total_Credit prior) /\
    total_cash_result (ui st') = fmt (Total_Cash prior).
Proof.
  intros d df Hf Hs Hwf Hq Hne Hge.
  rewrite (load_data_Some d dlg st df Hf).
  destruct (load_frame_spec dlg false (snd (clear_data st)) df Hf Hs Hwf Hq)
    as (res & st' & Hrun & Hout).
  rewrite clear_data_date in Hrun, Hout. fold d in Hrun, Hout.
  destruct Hout as [st' Hnb Hdlg | pre prior cur post Hdf Hb Hcur
                   | pre prior post Hdf Hb Hafter].
  - exfalso. apply Forall_cons in Hnb as [Hnb _]. apply Forall_cons in Hne as [Hne _].
    destruct (not_before_cases _ _ Hnb) as [He | Ha]; [exact (Hne He)|].
    unfold after in Ha. congruence.
  - exfalso. rewrite Forall_forall in Hne. apply (Hne cur); [|exact Hcur].
    rewrite Hdf. apply elem_of_app. right. right. left.
  - eexists prior, _, pre, post. split; [exact Hrun|].
    split; [exact Hdf|]. split; [exact Hafter|]. split; [exact Hb|].
    split; [|split; [exact Hf | repeat split]].
    intros r Hr Hbr. rewrite Hdf in Hr, Hs.
    apply elem_of_app in Hr as [Hr | Hr].
    + right. apply sortedb_app in Hs as (_ & _ & H12).
      rewrite Forall_forall in H12. specialize (H12 r Hr).
      apply Forall_cons in H12 as [Hrp _]. exact Hrp.
    + apply elem_of_cons in Hr as [-> | Hr]; [left; reflexivity|].
      exfalso. rewrite Forall_forall in Hafter. specialize (Hafter r Hr).
      unfold before, after in *. rewrite (ltb_asym _ _ Hafter) in Hbr. discriminate.
Qed.

(** C8. On an ordered sheet of dates (or without a file) [load_data]
    returns, and it takes the first day dialog path exactly when the file
    does not exist, or the sheet is empty, or the row at position 0 has the
    query date, or the query date is strictly earlier than the date of the
    row at position 0.  For a query date earlier than the earliest stored
    date the result is [NeedsBootstrap], never [Interpolated]. *)
Theorem C8_needs_bootstrap_iff (dlg : DialogAnswer) (st : State) :
  let d := toString (date_picker (ui st)) in
  valid_qdate (date_picker (ui st)) = true ->
  (forall df, excel_file st = Some df -> date_ordered df /\ wf_dates df) ->
  exists res st',
    load_data d dlg st = (Ok res, st') /\
    (dialog_shown res = true <->
     excel_file st = None \/ excel_file st = Some [] \/
     exists row0 rest,
       excel_file st = Some (row0 :: rest) /\
       (Date row0 = d \/ String.ltb d (Date row0) = true)) /\
    (forall row0 rest,
       excel_file st = Some (row0 :: rest) ->
       String.ltb d (Date row0) = true ->
       context res = NeedsBootstrap).
Proof.
  intros d Hq Hfile. destruct (excel_file st) as [df|] eqn:Hf.
  - destruct (Hfile df eq_refl) as [Hs Hwf].
    rewrite (load_data_Some d dlg st df Hf).
    destruct (load_frame_spec dlg false (snd (clear_data st)) df Hf Hs Hwf Hq)
      as (res & st' & Hrun & Hout).
    rewrite clear_data_date in Hrun, Hout. fold d in Hrun, Hout.
    exists res, st'. split; [exact Hrun|].
    destruct Hout as [st' Hnb Hdlg | pre prior cur post Hdf Hb Hcur
                     | pre prior post Hdf Hb Hafter]; cbn [dialog_shown context].
    + split; [|reflexivity]. split; [|reflexivity]. intros _. right.
      destruct df as [|row0 rest]; [left; reflexivity|]. right.
      exists row0, rest. split; [reflexivity|].
      apply Forall_cons in Hnb as [Hnb _]. apply not_before_cases, Hnb.
    + assert (Hb0 : forall row0 rest, df = row0 :: rest -> before d row0).
      { intros row0 rest E. rewrite Hdf in Hs, E.
        apply (head_before d pre prior (cur :: post) row0 rest Hs E Hb). }
      split; [split; [discriminate|]|].
      * intros [E | [E | (row0 & rest & E & Hc)]]; [discriminate | |].
        { injection E as E. rewrite E in Hdf. destruct pre; discriminate. }
        injection E as E. specialize (Hb0 row0 rest E). unfold before in Hb0.
        destruct Hc as [Hc | Hc].
        -- rewrite Hc, ltb_irrefl in Hb0. discriminate.
        -- rewrite (ltb_asym _ _ Hc) in Hb0. discriminate.
      * intros row0 rest E Hc. injection E as E. specialize (Hb0 row0 rest E).
        unfold before in Hb0. rewrite (ltb_asym _ _ Hc) in Hb0. discriminate.
    + assert (Hb0 : forall row0 rest, df = row0 :: rest -> before d row0).
      { intros row0 rest E. rewrite Hdf in Hs, E.
        apply (head_before d pre prior post row0 rest Hs E Hb). }
      split; [split; [discriminate|]|].
      * intros [E | [E | (row0 & rest & E & Hc)]]; [discriminate | |].
        { injection E as E. rewrite E in Hdf. destruct pre; discriminate. }
        injection E as E. specialize (Hb0 row0 rest E). unfold before in Hb0.
        destruct Hc as [Hc | Hc].
        -- rewrite Hc, ltb_irrefl in Hb0. discriminate.
        -- rewrite (ltb_asym _ _ Hc) in Hb0. discriminate.
      * intros row0 rest E Hc. injection E as E. specialize (Hb0 row0 rest E).
        unfold before in Hb0. rewrite (ltb_asym _ _ Hc) in Hb0. discriminate.
  - destruct (dialog_empty dlg (mkState (Some []) (ui (snd (clear_data st))))
                eq_refl Hq) as (s1 & df1 & Hdlg & _ & Hq1 & HInv).
    rewrite (load_data_None d dlg st _ df1 Hf Hdlg eq_refl).
    destruct HInv as (df1' & Hf1 & Hok & Hq1' & _).
    cbn [excel_file ui] in Hf1, Hq1'. injection Hf1 as <-.
    destruct (load_frame_spec dlg true (mkState (Some df1) s1) df1 eq_refl
                (store_sorted _ Hok) (store_wf _ Hok) Hq1')
      as (res & st' & Hrun & Hout).
    cbn [excel_file ui] in Hrun, Hout, Hq1. rewrite Hq1 in Hrun.
    change (date_picker (ui (snd (clear_data st)))) with (date_picker (ui st)) in Hrun.
    fold d in Hrun. exists res, st'. split; [exact Hrun|].
    split; [|intros ? ? E; discriminate E].
    split; [auto|]. intros _.
    destruct Hout; reflexivity.
Qed.

End Resolver.

Lemma C7_resolver_nearest_prior_witness :
  exists prior st' pre post,
    @load_data example_builtins "2024-03-11" Rejected gap_selected
    = (Ok (mkResolution false (Interpolated prior)), st') /\
    two_days_df = pre ++ prior :: post /\ Forall (after "2024-03-11") post /\
    before "2024-03-11" prior /\
    (forall r, r ∈ two_days_df -> before "2024-03-11" r ->
       r = prior \/ String.ltb (Date r) (Date prior) = true) /\
    excel_file st' = Some two_days_df /\
    last_day_credit (ui st') = Total_Credit prior /\
    last_day_cash (ui st') = Total_Cash prior /\
    total_credit_result (ui st') = example_fmt (Total_Credit prior) /\
    total_cash_result (ui st') = example_fmt (Total_Cash prior).
Proof.
  apply (@C7_resolver_nearest_prior example_builtins Rejected gap_selected
           (mkRow "2024-03-09" 0 0 0 0 100 50 0 NoExpenses)
           [mkRow "2024-03-10" 10 20 5 30 115 62 3 (ExpenseList [("ice", 3)]);
            mkRow "2024-03-12" 1 2 0 3 117 63 0 NoExpenses]).
  - reflexivity.
  - reflexivity.
  - repeat constructor; eexists; vm_compute; reflexivity.
  - reflexivity.
  - repeat constructor; discriminate.
  - reflexivity.
Defined.

Lemma C8_needs_bootstrap_iff_witness :
  exists res st',
    @load_data example_builtins "2024-03-10" (Accepted "100" "50") no_file
    = (Ok res, st') /\
    (dialog_shown res = true <->
     excel_file no_file = None \/ excel_file no_file = Some [] \/
     exists row0 rest,
       excel_file no_file = Some (row0 :: rest) /\
       (Date row0 = "2024-03-10" \/ String.ltb "2024-03-10" (Date row0) = true)) /\
    (forall row0 rest,
       excel_file no_file = Some (row0 :: rest) ->
       String.ltb "2024-03-10" (Date row0) = true ->
       context res = NeedsBootstrap).
Proof.
  apply (@C8_needs_bootstrap_iff example_builtins (Accepted "100" "50") no_file).
  - reflexivity.
  - intros df Hdf. discriminate Hdf.
Defined.

Section Validation.

Context `{Builtins}.

(** C9, as amended.  With a text in the expense amount entry that is no
    number, [add_expense] and [edit_expense] show an error message and leave
    the expenses list, the file and the displayed totals as they are.  With a
    non-empty text that is no number in an income or withdrawal entry,
    [calculate_totals] shows an error message and changes nothing else, and
    [save_daily_data] writes nothing to the file.  An opening balance that
    is no number is not rejected: [get_data] replaces both balances by 0 and
    the opening row with zero balances is saved. *)
Theorem C9_invalid_amounts :
  (forall st,
     float (expense_amount_entry (ui st)) = None ->
     add_expense st
     = (Ok tt, mkState (excel_file st) (notify critical_invalid_amount (ui st))) /\
     forall selected_expense,
       edit_expense (Some selected_expense) st
       = (Ok tt,
          mkState (excel_file st) (notify critical_invalid_amount (ui st)))) /\
  (forall st,
     float_or_zero (cash_entry (ui st)) = None \/
     float_or_zero (credit_entry (ui st)) = None \/
     float_or_zero (credit_withdraw_entry (ui st)) = None ->
     calculate_totals st
     = (Ok None,
        mkState (excel_file st) (notify critical_invalid_income (ui st))) /\
     snd (save_daily_data st)
     = mkState (excel_file st) (notify critical_invalid_income (ui st))) /\
  (forall credit_text cash_text st df df',
     float credit_text = None \/ float cash_text = None ->
     excel_file st = Some df ->
     save_frame
       (initial_row (toString (addDays_minus1 (date_picker (ui st)))) 0 0) df
     = Ok df' ->
     get_data credit_text cash_text = (0, 0) /\
     exists s',
       show_first_day_dialog (Accepted credit_text cash_text) st
       = (Ok tt, mkState (Some df') s') /\
       last_day_credit s' = 0 /\ last_day_cash s' = 0).
Proof.
  split; [|split].
  - intros st Ha. split.
    + apply ExpenseFacts.add_expense_invalid, Ha.
    + intros sel. apply ExpenseFacts.edit_expense_invalid, Ha.
  - intros st Hbad. split.
    + apply ExpenseFacts.calculate_totals_invalid, Hbad.
    + apply ExpenseFacts.save_daily_data_invalid, Hbad.
  - intros credit_text cash_text st df df' Hbad Hf Hsave.
    pose proof (ExpenseFacts.get_data_invalid credit_text cash_text Hbad) as Hget.
    split; [exact Hget|].
    destruct (show_first_day_dialog_run (Accepted credit_text cash_text) st df df' Hf)
      as (s' & Hrun & _ & Hc & Hk).
    { cbn [dialog_balances]. rewrite Hget. exact Hsave. }
    cbn [dialog_balances] in Hc, Hk. rewrite Hget in Hc, Hk. eauto.
Qed.

(** C10. When the expenses list holds several pairs that match the
    selected item, [edit_expense] replaces and [delete_expense] removes the
    first of them and leaves the pairs before and behind it as they are;
    when no pair matches, both leave the expenses list as it is. *)
Theorem C10_first_match_only :
  (forall selected_expense st l1 e l2 amount,
     expenses (ui st) = l1 ++ e :: l2 ->
     Forall (fun x => ~ matches selected_expense x) l1 ->
     matches selected_expense e ->
     float (expense_amount_entry (ui st)) = Some amount ->
     expenses (ui (snd (edit_expense (Some selected_expense) st)))
     = l1 ++ (expense_name_entry (ui st), amount) :: l2) /\
  (forall selected_expense st l1 e l2,
     expenses (ui st) = l1 ++ e :: l2 ->
     Forall (fun x => ~ matches selected_expense x) l1 ->
     matches selected_expense e ->
     expenses (ui (snd (delete_expense (Some selected_expense) st)))
     = l1 ++ l2) /\
  (forall selected_expense st,
     Forall (fun x => ~ matches selected_expense x) (expenses (ui st)) ->
     expenses (ui (snd (edit_expense (Some selected_expense) st)))
     = expenses (ui st) /\
     expenses (ui (snd (delete_expense (Some selected_expense) st)))
     = expenses (ui st)).
Proof.
  split; [|split].
  - intros sel st l1 e l2 amount Hl Hl1 He Ha.
    rewrite (ExpenseFacts.edit_expense_expenses sel st amount Ha), Hl.
    rewrite (ExpenseFacts.edit_loop_first sel _ l1 e l2 Hl1 He). reflexivity.
  - intros sel st l1 e l2 Hl Hl1 He.
    rewrite (ExpenseFacts.delete_expense_expenses sel st), Hl.
    rewrite (ExpenseFacts.delete_loop_first sel l1 e l2 Hl1 He). reflexivity.
  - intros sel st Hno. split.
    + destruct (float (expense_amount_entry (ui st))) as [amount|] eqn:Ha.
      * rewrite (ExpenseFacts.edit_expense_expenses sel st amount Ha).
        destruct (ExpenseFacts.edit_loop_no_match sel
                    (expense_name_entry (ui st), amount) _ Hno) as [-> | ->];
          reflexivity.
      * rewrite (ExpenseFacts.edit_expense_invalid sel st Ha). reflexivity.
    + rewrite (ExpenseFacts.delete_expense_expenses sel st).
      destruct (ExpenseFacts.delete_loop_no_match sel _ Hno) as [-> | ->];
        reflexivity.
Qed.

End Validation.

Lemma C9_invalid_amounts_witness :
  @add_expense example_builtins bad_amount
  = (Ok tt,
     mkState (excel_file bad_amount)
       (notify critical_invalid_amount (ui bad_amount))) /\
  @calculate_totals example_builtins bad_income
  = (Ok None,
     mkState (excel_file bad_income)
       (notify critical_invalid_income (ui bad_income))) /\
  snd (@save_daily_data example_builtins bad_income)
  = mkState (excel_file bad_income)
      (notify critical_invalid_income (ui bad_income)) /\
  @get_data example_builtins "abc" "50" = (0, 0) /\
  exists s',
    @show_first_day_dialog example_builtins (Accepted "abc" "50") empty_sheet
    = (Ok tt, mkState (Some [initial_row "2024-03-09" 0 0]) s') /\
    last_day_credit s' = 0 /\ last_day_cash s' = 0.
Proof.
  destruct (@C9_invalid_amounts example_builtins) as (Hexp & Hinc & Hopen).
  split; [apply (Hexp bad_amount); reflexivity|].
  split; [apply (Hinc bad_income); left; reflexivity|].
  split; [apply (Hinc bad_income); left; reflexivity|].
  apply (Hopen "abc" "50" empty_sheet []
           [initial_row "2024-03-09" 0 0]).
  - left. reflexivity.
  - reflexivity.
  - reflexivity.
Defined.

(** C9 fails as stated for the opening balances: the text of the credit
    entry is no number, yet the dialog is accepted, the opening row is
    written to the file with zero balances, and no message is shown. *)
Lemma C9_counterexample :
  example_float "abc" = None /\
  excel_file
    (snd (@show_first_day_dialog example_builtins (Accepted "abc" "50")
            empty_sheet))
  = Some [initial_row "2024-03-09" 0 0] /\
  excel_file
    (snd (@show_first_day_dialog example_builtins (Accepted "abc" "50")
            empty_sheet))
  <> excel_file empty_sheet /\
  messages
    (ui (snd (@show_first_day_dialog example_builtins (Accepted "abc" "50")
                empty_sheet)))
  = messages (ui empty_sheet).
Proof.
  split; [reflexivity|]. split; [reflexivity|]. split; [|reflexivity].
  vm_compute. discriminate.
Qed.

Lemma C10_first_match_only_witness :
  expenses (ui (snd (@edit_expense example_builtins (Some ("tea", "3.00"))
                       duplicates)))
  = [("ice", 3); ("milk", 4); ("ice", 3); ("tea", 3)] /\
  expenses (ui (snd (@delete_expense example_builtins (Some ("tea", "3.00"))
                       duplicates)))
  = [("ice", 3); ("ice", 3); ("tea", 3)] /\
  expenses (ui (snd (@edit_expense example_builtins (Some ("rice", "3.00"))
                       duplicates)))
  = expenses (ui duplicates) /\
  expenses (ui (snd (@delete_expense example_builtins (Some ("rice", "3.00"))
                       duplicates)))
  = expenses (ui duplicates).
Proof.
  destruct (@C10_first_match_only example_builtins) as (Hedit & Hdelete & Hnone).
  split; [|split].
  - apply (Hedit ("tea", "3.00") duplicates [("ice", 3)] ("tea", 3)
             [("ice", 3); ("tea", 3)] 4).
    + reflexivity.
    + repeat constructor. intros [Hn _]. discriminate Hn.
    + split; reflexivity.
    + reflexivity.
  - apply (Hdelete ("tea", "3.00") duplicates [("ice", 3)] ("tea", 3)
             [("ice", 3); ("tea", 3)]).
    + reflexivity.
    + repeat constructor. intros [Hn _]. discriminate Hn.
    + split; reflexivity.
  - apply (Hnone ("rice", "3.00") duplicates).
    repeat constructor; intros [Hn _]; discriminate Hn.
Defined.

(** * Further properties of the ledger and of the form *)

Import DateFacts TimestampFacts QtFacts StringOrder SortFacts SaveFacts
  ChainFacts StepFacts RunFacts ShapeFacts LoadFacts ExpenseFacts.
Import CaseFacts FileFacts PlacedFacts ReachFacts SumFacts ExactFacts MoreFacts
  TripFacts SplitFacts FormFacts.

(** X1. On an ordered sheet of ['yyyy-MM-dd'] dates [save_data] always
    returns.  The new sheet is ordered again, it holds the saved record, its
    dates are the dates of the old sheet and the date of the record, and it
    has as many rows as before when the date was stored already, one more
    otherwise: no day is lost and none is stored twice. *)
Theorem X1_save_data_keeps_days (data : Row) (df : DataFrame) :
  date_ordered df -> wf_dates df -> wf_date (Date data) ->
  exists df',
    save_data data (Some df) = Ok df' /\
    date_ordered df' /\ wf_dates df' /\ data ∈ df' /\
    (forall d, d ∈ Date <$> df' <-> d = Date data \/ d ∈ Date <$> df) /\
    length df'
    = if date_exists df (Date data) then length df else S (length df).
Proof.
  intros Hs Hwf Hwd.
  destruct (save_frame_cases data df Hs Hwf Hwd) as (df' & Hsave & Hp).
  exists df'. split; [exact Hsave|].
  split; [exact (placed_sorted data df df' Hs Hp)|].
  split; [exact (placed_wf data df df' Hwf Hwd Hp)|].
  split; [exact (placed_elem data df df' Hp)|].
  split; [intros d; apply placed_dates, Hp|].
  apply placed_date_exists; assumption.
Qed.

Lemma X1_save_data_keeps_days_witness :
  exists df',
    save_data march_11 (Some two_days_df) = Ok df' /\
    date_ordered df' /\ wf_dates df' /\ march_11 ∈ df' /\
    (forall d, d ∈ Date <$> df' <->
       d = Date march_11 \/ d ∈ Date <$> two_days_df) /\
    length df'
    = if date_exists two_days_df (Date march_11) then length two_days_df
      else S (length two_days_df).
Proof.
  apply X1_save_data_keeps_days.
  - reflexivity.
  - repeat constructor; eexists; vm_compute; reflexivity.
  - eexists. vm_compute. reflexivity.
Defined.

(** X2. Saving a record for a date that is stored already replaces the row
    of that date by the record, keeps the rows before it as they are, and
    adds to the running totals of every later row the difference between the
    record's running totals and those of the row it replaces; the other
    columns of the later rows stay as they are. *)
Theorem X2_save_data_edit_shifts_later_rows (data cur : Row)
    (pre post : DataFrame) :
  date_ordered (pre ++ cur :: post) -> Date cur = Date data ->
  exists post',
    save_data data (Some (pre ++ cur :: post)) = Ok (pre ++ data :: post') /\
    length post' = length post /\
    forall i r, post !! i = Some r ->
      exists r', post' !! i = Some r' /\
        Total_Credit r' = Total_Credit r + (Total_Credit data - Total_Credit cur) /\
        Total_Cash r' = Total_Cash r + (Total_Cash data - Total_Cash cur) /\
        Date r' = Date r /\ Cash r' = Cash r /\ Credit r' = Credit r /\
        Credit_Withdraw r' = Credit_Withdraw r /\
        Total_Sellings r' = Total_Sellings r /\
        Total_Expenses r' = Total_Expenses r /\ Expenses r' = Expenses r.
Proof.
  intros Hs Hd. eexists. split.
  - cbn [save_data read_excel from_option rbind].
    apply save_frame_existing; assumption.
  - split; [apply length_fmap|]. intros i r Hi.
    exists (add_totals (edit_credit_difference data cur)
              (edit_cash_difference data cur) r).
    split; [rewrite list_lookup_fmap, Hi; reflexivity|].
    repeat split.
Qed.

Lemma X2_save_data_edit_shifts_later_rows_witness :
  exists post',
    save_data (mkRow "2024-03-10" 20 20 5 40 115 72 3 (ExpenseList [("ice", 3)]))
      (Some ([mkRow "2024-03-09" 0 0 0 0 100 50 0 NoExpenses] ++
             mkRow "2024-03-10" 10 20 5 30 115 62 3 (ExpenseList [("ice", 3)]) ::
             [mkRow "2024-03-12" 1 2 0 3 117 63 0 NoExpenses]))
    = Ok ([mkRow "2024-03-09" 0 0 0 0 100 50 0 NoExpenses] ++
          mkRow "2024-03-10" 20 20 5 40 115 72 3 (ExpenseList [("ice", 3)]) ::
          post') /\
    length post' = 1%nat /\
    forall i r, [mkRow "2024-03-12" 1 2 0 3 117 63 0 NoExpenses] !! i = Some r ->
      exists r', post' !! i = Some r' /\
        Total_Credit r' = Total_Credit r + (115 - 115) /\
        Total_Cash r' = Total_Cash r + (72 - 62) /\
        Date r' = Date r /\ Cash r' = Cash r /\ Credit r' = Credit r /\
        Credit_Withdraw r' = Credit_Withdraw r /\
        Total_Sellings r' = Total_Sellings r /\
        Total_Expenses r' = Total_Expenses r /\ Expenses r' = Expenses r.
Proof.
  apply (X2_save_data_edit_shifts_later_rows
           (mkRow "2024-03-10" 20 20 5 40 115 72 3 (ExpenseList [("ice", 3)]))
           (mkRow "2024-03-10" 10 20 5 30 115 62 3 (ExpenseList [("ice", 3)]))
           [mkRow "2024-03-09" 0 0 0 0 100 50 0 NoExpenses]
           [mkRow "2024-03-12" 1 2 0 3 117 63 0 NoExpenses]).
  - reflexivity.
  - reflexivity.
Defined.

(** X3. When the substring lookup finds the date in the sheet but no row has
    exactly that date text, [save_data] and [load_data] both end with an
    [IndexError] from the lookup by equality, and [load_data] leaves the file
    as it is. *)
Theorem X3_lookup_mismatch_raises `{Builtins} (data : Row) (dlg : DialogAnswer)
    (st : State) (df : DataFrame) :
  excel_file st = Some df ->
  date_exists df (Date data) = true ->
  Forall (fun r => Date r <> Date data) df ->
  save_data data (Some df) = Raise IndexError /\
  exists st',
    load_data (Date data) dlg st = (Raise IndexError, st') /\
    excel_file st' = Some df.
Proof.
  intros Hf Hex Hne. pose proof (index_of_mismatch _ _ Hne) as Hidx.
  destruct df as [|row0 rest]; [discriminate Hex|]. split.
  - cbn [save_data read_excel from_option rbind]. unfold save_frame.
    rewrite Hex. cbn [negb]. unfold save_existing. rewrite Hidx. reflexivity.
  - rewrite (load_data_Some _ dlg st _ Hf). unfold load_frame.
    rewrite Hex. run. rewrite Hidx. proj. eexists. split; [reflexivity|].
    cbn [excel_file]. rewrite clear_data_file. exact Hf.
Qed.

Lemma X3_lookup_mismatch_raises_witness :
  save_data (initial_row "2024-01-15" 1 2) (Some [timed_row]) = Raise IndexError /\
  exists st',
    @load_data example_builtins "2024-01-15" Rejected
      (mkState (Some [timed_row]) (initial_session (mkTs 2024 1 15)))
    = (Raise IndexError, st') /\
    excel_file st' = Some [timed_row].
Proof.
  apply (@X3_lookup_mismatch_raises example_builtins
           (initial_row "2024-01-15" 1 2) Rejected
           (mkState (Some [timed_row]) (initial_session (mkTs 2024 1 15)))
           [timed_row]).
  - reflexivity.
  - reflexivity.
  - repeat constructor. discriminate.
Defined.

(** X4. In every state that the application reaches the file exists, is not
    empty, and its first row is an opening row as [show_first_day_dialog]
    writes it: no income, no withdrawal, no sellings and no expenses.  The
    earliest stored day never carries figures of a trading day. *)
Theorem X4_reachable_opening_row `{Builtins} (st : State) :
  reachable st ->
  exists row0 rest,
    excel_file st = Some (row0 :: rest) /\
    Cash row0 = 0 /\ Credit row0 = 0 /\ Credit_Withdraw row0 = 0 /\
    Total_Sellings row0 = 0 /\ Total_Expenses row0 = 0 /\
    Expenses row0 = NoExpenses.
Proof.
  intros Hr.
  destruct (reachable_ledger st Hr) as (df & Hf & (row0 & rest & -> & Hopen) & _).
  exists row0, rest. split; [exact Hf | exact Hopen].
Qed.

Lemma X4_reachable_opening_row_witness :
  exists row0 rest,
    excel_file three_days = Some (row0 :: rest) /\
    Cash row0 = 0 /\ Credit row0 = 0 /\ Credit_Withdraw row0 = 0 /\
    Total_Sellings row0 = 0 /\ Total_Expenses row0 = 0 /\
    Expenses row0 = NoExpenses.
Proof.
  apply (@X4_reachable_opening_row example_builtins three_days).
  unfold three_days, two_days, first_day, first_run.
  repeat (apply reachable_event; [|reflexivity]).
  apply reachable_first_run. reflexivity.
Defined.

(** X5. In every state that the application reaches, every stored row has
    its derived columns in agreement with its own entries: the total
    sellings are the cash income plus the credit income, the total expenses
    are the sum of the amounts listed in the expenses cell, and the cell
    holds the marker rather than an empty list when there are no expenses. *)
Theorem X5_reachable_rows_derived `{Builtins} (st : State) (df : DataFrame)
    (r : Row) :
  reachable st -> excel_file st = Some df -> r ∈ df ->
  Total_Sellings r = Cash r + Credit r /\
  Total_Expenses r = sum_amounts (expenses_of_cell (Expenses r)) /\
  Expenses r <> ExpenseList [].
Proof.
  intros Hr Hf Hin.
  destruct (reachable_ledger st Hr) as (df' & Hf' & _ & Hrows).
  rewrite Hf in Hf'. injection Hf' as <-.
  rewrite Forall_forall in Hrows. exact (Hrows r Hin).
Qed.

Lemma X5_reachable_rows_derived_witness :
  let r := mkRow "2024-03-10" 10 20 5 30 115 62 3 (ExpenseList [("ice", 3)]) in
  Total_Sellings r = Cash r + Credit r /\
  Total_Expenses r = sum_amounts (expenses_of_cell (Expenses r)) /\
  Expenses r <> ExpenseList [].
Proof.
  apply (@X5_reachable_rows_derived example_builtins three_days three_days_df).
  - unfold three_days, two_days, first_day, first_run.
    repeat (apply reachable_event; [|reflexivity]).
    apply reachable_first_run. reflexivity.
  - vm_compute. reflexivity.
  - right. left.
Defined.

(** X6. In every state that the application reaches, the selected date is a
    date of the picker's range, every stored date is a ['yyyy-MM-dd'] text of
    a calendar day, some stored row is dated before the selected date, and
    the two balances that [calculate_totals] starts from are the running
    totals of the last such row: every row behind it is dated on or after
    the selected date. *)
Theorem X6_reachable_cached_balances `{Builtins} (st : State) :
  reachable st ->
  exists pre prior post,
    excel_file st = Some (pre ++ prior :: post) /\
    wf_dates (pre ++ prior :: post) /\
    valid_qdate (date_picker (ui st)) = true /\
    Forall (before (toString (date_picker (ui st)))) (pre ++ [prior]) /\
    Forall (not_before (toString (date_picker (ui st)))) post /\
    last_day_credit (ui st) = Total_Credit prior /\
    last_day_cash (ui st) = Total_Cash prior.
Proof.
  intros Hr.
  destruct (reachable_Inv st Hr)
    as (df & Hf & [Hs Hwf _ _] & Hq & (pre & prior & post & -> & Hb & Hpost & Hc & Hk)).
  exists pre, prior, post. split; [exact Hf|]. split; [exact Hwf|].
  split; [exact Hq|]. split; [|auto].
  apply Forall_app. split; [|constructor; [exact Hb | constructor]].
  apply sortedb_app in Hs as (_ & _ & H12).
  eapply Forall_impl; [exact H12|]. intros x Hx.
  apply Forall_cons in Hx as [Hx _]. unfold before, after in *.
  eapply ltb_trans; eassumption.
Qed.

Lemma X6_reachable_cached_balances_witness :
  exists pre prior post,
    excel_file three_days = Some (pre ++ prior :: post) /\
    wf_dates (pre ++ prior :: post) /\
    valid_qdate (date_picker (ui three_days)) = true /\
    Forall (before (toString (date_picker (ui three_days)))) (pre ++ [prior]) /\
    Forall (not_before (toString (date_picker (ui three_days)))) post /\
    last_day_credit (ui three_days) = Total_Credit prior /\
    last_day_cash (ui three_days) = Total_Cash prior.
Proof.
  apply (@X6_reachable_cached_balances example_builtins three_days).
  unfold three_days, two_days, first_day, first_run.
  repeat (apply reachable_event; [|reflexivity]).
  apply reachable_first_run. reflexivity.
Defined.

(** X8. An event of the running application never removes a stored day: in
    a state that the application reaches, after any event the file holds
    every date that it held before, and it has the same number of rows or
    one more. *)
Theorem X8_event_never_removes_days `{Builtins} (st : State) (e : Event)
    (df : DataFrame) :
  reachable st -> event_ok e = true -> excel_file st = Some df ->
  exists df',
    excel_file (run_event e st) = Some df' /\
    (forall d, d ∈ Date <$> df -> d ∈ Date <$> df') /\
    (length df' = length df \/ length df' = S (length df)).
Proof.
  intros Hr He Hf. pose proof (reachable_Inv st Hr) as HInv.
  destruct (run_event_file_step e st He HInv) as (df0 & df' & Hf0 & Hf' & Hstep).
  destruct HInv as (df1 & Hf1 & [Hs Hwf _ _] & _).
  rewrite Hf in Hf0, Hf1. injection Hf0 as <-. injection Hf1 as <-.
  exists df'. split; [exact Hf'|].
  destruct (file_step_placed df df' Hs Hwf Hstep) as [-> | (data & _ & _ & _ & Hp)];
    [auto|].
  split; [|exact (placed_length data df df' Hp)].
  intros d Hd. apply (placed_dates data df df' d Hp). right. exact Hd.
Qed.

Lemma X8_event_never_removes_days_witness :
  exists df',
    excel_file (@run_event example_builtins SaveDailyData three_days) = Some df' /\
    (forall d, d ∈ Date <$> three_days_df -> d ∈ Date <$> df') /\
    (length df' = length three_days_df \/ length df' = S (length three_days_df)).
Proof.
  apply (@X8_event_never_removes_days example_builtins three_days SaveDailyData).
  - unfold three_days, two_days, first_day, first_run.
    repeat (apply reachable_event; [|reflexivity]).
    apply reachable_first_run. reflexivity.
  - reflexivity.
  - vm_compute. reflexivity.
Defined.

(** X9. Only a change of the date and the save button touch the ledger:
    typing into the entries, the calculate button and the three expense
    buttons leave the file, the selected date and the two balances that the
    calculation starts from as they are, whatever the texts on the form. *)
Theorem X9_form_events_keep_ledger `{Builtins} (e : Event) (st : State) :
  e <> SaveDailyData -> (forall q dlg, e <> DateChanged q dlg) ->
  excel_file (run_event e st) = excel_file st /\
  date_picker (ui (run_event e st)) = date_picker (ui st) /\
  last_day_credit (ui (run_event e st)) = last_day_credit (ui st) /\
  last_day_cash (ui (run_event e st)) = last_day_cash (ui st).
Proof.
  intros Hsave Hdate.
  assert (Hv : view (run_event e st) = view st).
  { unfold run_event. destruct e; cbn [handler].
    - destruct (Hdate q dlg). reflexivity.
    - destruct st. reflexivity.
    - destruct st. reflexivity.
    - apply add_expense_view.
    - apply edit_expense_view.
    - apply delete_expense_view.
    - unfold bind. rewrite <- (calculate_view st).
      destruct (calculate_totals st) as [[r|x] st']; reflexivity.
    - destruct Hsave. reflexivity. }
  unfold view in Hv. injection Hv as -> -> -> ->. auto.
Qed.

Lemma X9_form_events_keep_ledger_witness :
  excel_file (@run_event example_builtins AddExpense bad_amount)
  = excel_file bad_amount /\
  date_picker (ui (@run_event example_builtins AddExpense bad_amount))
  = date_picker (ui bad_amount) /\
  last_day_credit (ui (@run_event example_builtins AddExpense bad_amount))
  = last_day_credit (ui bad_amount) /\
  last_day_cash (ui (@run_event example_builtins AddExpense bad_amount))
  = last_day_cash (ui bad_amount).
Proof.
  apply (@X9_form_events_keep_ledger example_builtins AddExpense bad_amount).
  - discriminate.
  - intros q dlg. discriminate.
Defined.

(** X10. For the date of a stored row that has a row before it, on an
    ordered sheet, [load_data] shows no dialog, leaves the file as it is and
    fills the form from the sheet: the three entries and the labels of the
    sellings and of the two running totals show the stored figures, the
    expenses list is the stored one, and the balances for the calculation
    are the running totals of the row before.  The label of the total
    expenses is not set from the row: it shows the ['0.00'] of [clear_data]
    also when the row has expenses. *)
Theorem X10_load_data_stored_day `{Builtins} (dlg : DialogAnswer) (st : State)
    (pre post : DataFrame) (prior cur : Row) :
  excel_file st = Some (pre ++ prior :: cur :: post) ->
  date_ordered (pre ++ prior :: cur :: post) ->
  exists st',
    load_data (Date cur) dlg st
    = (Ok (mkResolution false (Exact cur prior)), st') /\
    excel_file st' = excel_file st /\
    messages (ui st') = messages (ui st) /\
    date_picker (ui st') = date_picker (ui st) /\
    last_day_credit (ui st') = Total_Credit prior /\
    last_day_cash (ui st') = Total_Cash prior /\
    cash_entry (ui st') = fmt (Cash cur) /\
    credit_entry (ui st') = fmt (Credit cur) /\
    credit_withdraw_entry (ui st') = fmt (Credit_Withdraw cur) /\
    total_sellings_result (ui st') = fmt (Total_Sellings cur) /\
    total_credit_result (ui st') = fmt (Total_Credit cur) /\
    total_cash_result (ui st') = fmt (Total_Cash cur) /\
    total_expenses_result (ui st') = "0.00" /\
    expenses (ui st') = expenses_of_cell (Expenses cur).
Proof.
  intros Hf Hs. eexists. split; [apply load_data_exact_run; [exact Hf | exact Hs]|].
  cbn [excel_file ui]. rewrite Hf. repeat split.
Qed.

Lemma X10_load_data_stored_day_witness :
  let prior := mkRow "2024-03-09" 0 0 0 0 100 50 0 NoExpenses in
  let cur := mkRow "2024-03-10" 10 20 5 30 115 62 3 (ExpenseList [("ice", 3)]) in
  exists st',
    @load_data example_builtins (Date cur) Rejected three_days
    = (Ok (mkResolution false (Exact cur prior)), st') /\
    excel_file st' = excel_file three_days /\
    messages (ui st') = messages (ui three_days) /\
    date_picker (ui st') = date_picker (ui three_days) /\
    last_day_credit (ui st') = Total_Credit prior /\
    last_day_cash (ui st') = Total_Cash prior /\
    cash_entry (ui st') = example_fmt (Cash cur) /\
    credit_entry (ui st') = example_fmt (Credit cur) /\
    credit_withdraw_entry (ui st') = example_fmt (Credit_Withdraw cur) /\
    total_sellings_result (ui st') = example_fmt (Total_Sellings cur) /\
    total_credit_result (ui st') = example_fmt (Total_Credit cur) /\
    total_cash_result (ui st') = example_fmt (Total_Cash cur) /\
    total_expenses_result (ui st') = "0.00" /\
    expenses (ui st') = expenses_of_cell (Expenses cur).
Proof.
  apply (@X10_load_data_stored_day example_builtins Rejected three_days []
           [mkRow "2024-03-11" 7 0 0 7 115 69 0 NoExpenses;
            mkRow "2024-03-12" 1 2 0 3 117 70 0 NoExpenses]).
  - vm_compute. reflexivity.
  - reflexivity.
Defined.

(** X11. A first run, without a file, on a date of the picker's range:
    [load_data] creates the file, shows the first day dialog once, and the
    file then holds exactly one row, the opening row dated the day before
    the selected date with the two balances taken from the dialog (zeros
    when the dialog was closed or a text was no number).  The load resolves
    against that row, so the calculation starts from the same balances. *)
Theorem X11_first_run_opening_row `{Builtins} (dlg : DialogAnswer) (st : State) :
  excel_file st = None ->
  valid_qdate (date_picker (ui st)) = true ->
  let boot :=
    initial_row (toString (addDays_minus1 (date_picker (ui st))))
      (fst (dialog_balances dlg)) (snd (dialog_balances dlg)) in
  exists st',
    load_data (toString (date_picker (ui st))) dlg st
    = (Ok (mkResolution true (Interpolated boot)), st') /\
    excel_file st' = Some [boot] /\
    date_picker (ui st') = date_picker (ui st) /\
    last_day_credit (ui st') = fst (dialog_balances dlg) /\
    last_day_cash (ui st') = snd (dialog_balances dlg).
Proof.
  intros Hf Hq boot.
  pose proof (wf_date_first_date _ Hq) as Hwb.
  destruct (bootstrap_empty (toString (addDays_minus1 (date_picker (ui st))))
              (fst (dialog_balances dlg)) (snd (dialog_balances dlg)) Hwb)
    as [Hsave [Hs Hwf _ _]].
  fold boot in Hsave, Hs, Hwf.
  set (st0 := mkState (Some []) (ui (snd (clear_data st)))).
  assert (Hd0 : date_picker (ui st0) = date_picker (ui st))
    by apply clear_data_date.
  destruct (show_first_day_dialog_run dlg st0 [] [boot] eq_refl) as (s1 & Hrun & Hq1 & Hc1 & Hk1).
  { rewrite Hd0. exact Hsave. }
  rewrite Hd0 in Hq1.
  rewrite (load_data_None _ dlg st _ [boot] Hf Hrun eq_refl).
  destruct (load_frame_spec dlg true (mkState (Some [boot]) s1) [boot] eq_refl Hs Hwf)
    as (res & st' & Hload & Hout).
  { cbn [ui]. rewrite Hq1. exact Hq. }
  cbn [ui] in Hload, Hout. rewrite Hq1 in Hload, Hout. rewrite Hload.
  destruct Hout as [st' Hnb Hdlg | pre prior cur post Hdf Hb Hcur
                   | pre prior post Hdf Hb Hafter].
  - exfalso. apply Forall_cons in Hnb as [Hnb _]. unfold not_before in Hnb.
    cbn [boot initial_row Date] in Hnb. rewrite (first_date_ltb _ Hq) in Hnb.
    discriminate.
  - exfalso. apply (f_equal length) in Hdf. rewrite length_app in Hdf.
    cbn [length] in Hdf. lia.
  - destruct pre as [|p pre]; cbn [app] in Hdf.
    + injection Hdf as <- <-. eexists. split; [reflexivity|].
      cbn [excel_file ui]. unfold show_interpolated. proj. auto.
    + exfalso. injection Hdf as _ Hdf. destruct pre; discriminate.
Qed.

Lemma X11_first_run_opening_row_witness :
  exists st',
    @load_data example_builtins "2024-03-10" (Accepted "100" "50") no_file
    = (Ok (mkResolution true (Interpolated (initial_row "2024-03-09" 100 50))), st') /\
    excel_file st' = Some [initial_row "2024-03-09" 100 50] /\
    date_picker (ui st') = march 10 /\
    last_day_credit (ui st') = 100 /\
    last_day_cash (ui st') = 50.
Proof.
  apply (@X11_first_run_opening_row example_builtins (Accepted "100" "50") no_file).
  - reflexivity.
  - reflexivity.
Defined.

(** X12. Saving a day and selecting its date again gives back what was
    saved.  In a state that the application reaches, with numbers (or
    nothing) in the three entries: after [save_daily_data] the file holds the
    record of the selected date, and a following [load_data] of the same date
    shows no dialog, leaves the file as it is, and puts on the form the
    saved incomes and withdrawal, the computed sellings and running totals,
    the same expenses list and the same opening balances as before. *)
Theorem X12_save_then_reload `{Builtins} (st : State) (dlg : DialogAnswer)
    (cash credit credit_withdraw : Z) :
  reachable st ->
  float_or_zero (cash_entry (ui st)) = Some cash ->
  float_or_zero (credit_entry (ui st)) = Some credit ->
  float_or_zero (credit_withdraw_entry (ui st)) = Some credit_withdraw ->
  let saved := run_event SaveDailyData st in
  let reloaded := run_event (DateChanged (date_picker (ui st)) dlg) saved in
  let total_credit := last_day_credit (ui st) + credit - credit_withdraw in
  let total_cash :=
    last_day_cash (ui st) + cash + credit_withdraw
    - sum_amounts (expenses (ui st)) in
  (exists df' r,
     excel_file saved = Some df' /\ r ∈ df' /\
     Date r = toString (date_picker (ui st)) /\
     Cash r = cash /\ Credit r = credit /\ Credit_Withdraw r = credit_withdraw /\
     Total_Credit r = total_credit /\ Total_Cash r = total_cash /\
     expenses_of_cell (Expenses r) = expenses (ui st)) /\
  excel_file reloaded = excel_file saved /\
  date_picker (ui reloaded) = date_picker (ui st) /\
  expenses (ui reloaded) = expenses (ui st) /\
  last_day_credit (ui reloaded) = last_day_credit (ui st) /\
  last_day_cash (ui reloaded) = last_day_cash (ui st) /\
  cash_entry (ui reloaded) = fmt cash /\
  credit_entry (ui reloaded) = fmt credit /\
  credit_withdraw_entry (ui reloaded) = fmt credit_withdraw /\
  total_sellings_result (ui reloaded) = fmt (cash + credit) /\
  total_credit_result (ui reloaded) = fmt total_credit /\
  total_cash_result (ui reloaded) = fmt total_cash.
Proof.
  intros Hr Hc Hk Hw saved reloaded total_credit total_cash.
  destruct (reachable_Inv st Hr)
    as (df & Hf & [Hs Hwf _ _] & Hq &
        (pre & prior & post & Hdf & Hb & Hpost & Hlc & Hlk)).
  pose proof (calculate_totals_valid st _ _ _ Hc Hk Hw) as Hcalc.
  fold total_credit total_cash in Hcalc.
  match type of Hcalc with _ = (Ok (Some ?r), mkState _ ?s) =>
    set (data := r) in *; set (s' := s) in * end.
  assert (Hwd : wf_date (Date data)) by (apply wf_date_toString, Hq).
  destruct (save_frame_cases data df Hs Hwf Hwd) as (df' & Hsave & Hp).
  pose proof (save_daily_data_run st data s' df df' Hcalc Hf Hsave) as Hrun.
  destruct (placed_after_prior data df df' pre prior post Hs Hdf Hb Hpost Hp)
    as (post' & Hdf' & _).
  pose proof (placed_sorted data df df' Hs Hp) as Hs'.
  assert (Hsaved : saved = mkState (Some df') (notify information_saved s')).
  { unfold saved, run_event. cbn [handler]. rewrite Hrun. reflexivity. }
  assert (Hreloaded : reloaded
    = mkState (Some df')
        (show_exact data prior
           (ui (snd (clear_data
              (mkState (Some df')
                 (set_date_picker (date_picker (ui st))
                    (notify information_saved s')))))))).
  { unfold reloaded, run_event. cbn [handler]. rewrite Hsaved.
    unfold on_date_changed. run.
    change (toString (date_picker (ui st))) with (Date data).
    rewrite Hdf'. rewrite (load_data_exact_run dlg _ pre prior data post');
      [reflexivity | reflexivity | rewrite <- Hdf'; exact Hs']. }
  split.
  { exists df', data. rewrite Hsaved. split; [reflexivity|].
    split; [exact (placed_elem data df df' Hp)|]. cbn [data Date Cash Credit
      Credit_Withdraw Total_Credit Total_Cash Expenses].
    rewrite expenses_of_cell_of_expenses. repeat split. }
  rewrite Hreloaded, Hsaved. cbn [excel_file ui].
  unfold show_exact, clear_data. run.
  cbn [data Date Cash Credit Credit_Withdraw Total_Sellings Total_Credit
       Total_Cash Total_Expenses Expenses].
  rewrite expenses_of_cell_of_expenses, Hlc, Hlk. repeat split.
Qed.

Lemma X12_save_then_reload_witness :
  let st := @run_event example_builtins (TypeEntries "7" "0" "0")
              (@run_event example_builtins (DateChanged (march 11) Rejected)
                 two_days) in
  let saved := @run_event example_builtins SaveDailyData st in
  let reloaded :=
    @run_event example_builtins (DateChanged (march 11) Rejected) saved in
  (exists df' r,
     excel_file saved = Some df' /\ r ∈ df' /\
     Date r = "2024-03-11" /\
     Cash r = 7 /\ Credit r = 0 /\ Credit_Withdraw r = 0 /\
     Total_Credit r = 115 /\ Total_Cash r = 69 /\
     expenses_of_cell (Expenses r) = []) /\
  excel_file reloaded = excel_file saved /\
  date_picker (ui reloaded) = march 11 /\
  expenses (ui reloaded) = [] /\
  last_day_credit (ui reloaded) = 115 /\
  last_day_cash (ui reloaded) = 62 /\
  cash_entry (ui reloaded) = "7" /\
  credit_entry (ui reloaded) = "0" /\
  credit_withdraw_entry (ui reloaded) = "0" /\
  total_sellings_result (ui reloaded) = "7" /\
  total_credit_result (ui reloaded) = "115" /\
  total_cash_result (ui reloaded) = "69".
Proof.
  apply (@X12_save_then_reload example_builtins
           (@run_event example_builtins (TypeEntries "7" "0" "0")
              (@run_event example_builtins (DateChanged (march 11) Rejected)
                 two_days))
           Rejected 7 0 0).
  - unfold two_days, first_day, first_run.
    repeat (apply reachable_event; [|reflexivity]).
    apply reachable_first_run. reflexivity.
  - reflexivity.
  - reflexivity.
  - reflexivity.
Defined.

(** X13. Pressing the save button twice is the same as pressing it once: in
    a state that the application reaches, a second [save_daily_data] right
    after the first leaves the file as the first one left it, whether the
    entries hold numbers or not. *)
Theorem X13_save_twice `{Builtins} (st : State) :
  reachable st ->
  excel_file (run_event SaveDailyData (run_event SaveDailyData st))
  = excel_file (run_event SaveDailyData st).
Proof.
  intros Hr. unfold run_event. cbn [handler].
  destruct (float_or_zero (cash_entry (ui st))) as [cash|] eqn:Hc;
    [destruct (float_or_zero (credit_entry (ui st))) as [credit|] eqn:Hk;
     [destruct (float_or_zero (credit_withdraw_entry (ui st))) as [cw|] eqn:Hw|]|].
  - destruct (reachable_Inv st Hr) as (df & Hf & [Hs Hwf _ _] & Hq & _).
    pose proof (calculate_totals_valid st _ _ _ Hc Hk Hw) as Hcalc.
    match type of Hcalc with _ = (Ok (Some ?r), mkState _ ?s) =>
      set (data := r) in *; set (s' := s) in * end.
    assert (Hwd : wf_date (Date data)) by (apply wf_date_toString, Hq).
    destruct (save_frame_cases data df Hs Hwf Hwd) as (df' & Hsave & Hp).
    rewrite (save_daily_data_run st data s' df df' Hcalc Hf Hsave).
    cbn [snd].
    pose proof (placed_sorted data df df' Hs Hp) as Hs'.
    destruct Hp as (pre & mid & post & c & k & _ & _ & _ & _ & ->).
    pose proof (calculate_totals_valid
                  (mkState (Some (pre ++ data :: (add_totals c k <$> post)))
                     (notify information_saved s')) _ _ _ Hc Hk Hw) as Hcalc'.
    erewrite (save_daily_data_run _ _ _ _ _ Hcalc' eq_refl (resave data _ _ Hs')).
    reflexivity.
  - assert (Hbad : float_or_zero (cash_entry (ui st)) = None \/
                   float_or_zero (credit_entry (ui st)) = None \/
                   float_or_zero (credit_withdraw_entry (ui st)) = None) by auto.
    rewrite (proj1 (save_daily_data_invalid st Hbad)).
    rewrite (proj1 (save_daily_data_invalid
                      (mkState (excel_file st)
                         (notify critical_invalid_income (ui st))) Hbad)).
    reflexivity.
  - assert (Hbad : float_or_zero (cash_entry (ui st)) = None \/
                   float_or_zero (credit_entry (ui st)) = None \/
                   float_or_zero (credit_withdraw_entry (ui st)) = None) by auto.
    rewrite (proj1 (save_daily_data_invalid st Hbad)).
    rewrite (proj1 (save_daily_data_invalid
                      (mkState (excel_file st)
                         (notify critical_invalid_income (ui st))) Hbad)).
    reflexivity.
  - assert (Hbad : float_or_zero (cash_entry (ui st)) = None \/
                   float_or_zero (credit_entry (ui st)) = None \/
                   float_or_zero (credit_withdraw_entry (ui st)) = None) by auto.
    rewrite (proj1 (save_daily_data_invalid st Hbad)).
    rewrite (proj1 (save_daily_data_invalid
                      (mkState (excel_file st)
                         (notify critical_invalid_income (ui st))) Hbad)).
    reflexivity.
Qed.

Lemma X13_save_twice_witness :
  excel_file (@run_event example_builtins SaveDailyData
                (@run_event example_builtins SaveDailyData three_days))
  = excel_file (@run_event example_builtins SaveDailyData three_days).
Proof.
  apply (@X13_save_twice example_builtins three_days).
  unfold three_days, two_days, first_day, first_run.
  repeat (apply reachable_event; [|reflexivity]).
  apply reachable_first_run. reflexivity.
Defined.

(** X14. With a number in the amount entry, [add_expense] appends the pair
    of the typed name and amount at the end of the expenses list, blanks the
    two expense entries and leaves the file as it is.  It does so also when
    an income entry holds a text that is no number: then the totals on the
    form are not updated and the message about the income entries is shown,
    but the expense stays in the list. *)
Theorem X14_add_expense_appends `{Builtins} (st : State) (amount : Z) :
  float (expense_amount_entry (ui st)) = Some amount ->
  let st' := run_event AddExpense st in
  expenses (ui st')
  = expenses (ui st) ++ [(expense_name_entry (ui st), amount)] /\
  expense_name_entry (ui st') = EmptyString /\
  expense_amount_entry (ui st') = EmptyString /\
  excel_file st' = excel_file st /\
  (forall cash credit credit_withdraw,
     float_or_zero (cash_entry (ui st)) = Some cash ->
     float_or_zero (credit_entry (ui st)) = Some credit ->
     float_or_zero (credit_withdraw_entry (ui st)) = Some credit_withdraw ->
     messages (ui st') = messages (ui st) /\
     total_expenses_result (ui st')
     = fmt (sum_amounts (expenses (ui st)) + amount) /\
     total_cash_result (ui st')
     = fmt (last_day_cash (ui st) + cash + credit_withdraw
            - (sum_amounts (expenses (ui st)) + amount))) /\
  (float_or_zero (cash_entry (ui st)) = None \/
   float_or_zero (credit_entry (ui st)) = None \/
   float_or_zero (credit_withdraw_entry (ui st)) = None ->
   messages (ui st') = critical_invalid_income :: messages (ui st) /\
   total_expenses_result (ui st') = total_expenses_result (ui st)).
Proof.
  intros Ha st'. unfold st', run_event. cbn [handler].
  rewrite (add_expense_run st amount Ha).
  set (st1 := mkState (excel_file st)
                (set_expense_entries EmptyString EmptyString
                   (set_expenses
                      (expenses (ui st) ++ [(expense_name_entry (ui st), amount)])
                      (ui st)))).
  assert (Hsum : sum_amounts (expenses (ui st1))
                 = sum_amounts (expenses (ui st)) + amount).
  { cbn [st1 ui set_expense_entries set_expenses expenses].
    rewrite sum_amounts_app. cbn [sum_amounts foldr snd]. lia. }
  destruct (float_or_zero (cash_entry (ui st))) as [cash|] eqn:Hc;
    [destruct (float_or_zero (credit_entry (ui st))) as [credit|] eqn:Hk;
     [destruct (float_or_zero (credit_withdraw_entry (ui st))) as [cw|] eqn:Hw|]|].
  - rewrite (calculate_totals_valid st1 cash credit cw Hc Hk Hw). rewrite Hsum.
    cbn [snd ui excel_file set_results expenses expense_name_entry
         expense_amount_entry messages total_expenses_result total_cash_result
         st1 set_expense_entries set_expenses last_day_cash].
    do 4 (split; [reflexivity|]). split.
    + intros c1 c2 c3 E1 E2 E3. injection E1 as <-. injection E3 as <-. auto.
    + intros [Hb | [Hb | Hb]]; discriminate Hb.
  - rewrite (calculate_totals_invalid st1); [|right; right; exact Hw].
    cbn [snd ui excel_file notify expenses expense_name_entry
         expense_amount_entry messages total_expenses_result
         st1 set_expense_entries set_expenses].
    do 4 (split; [reflexivity|]). split; [intros; discriminate | auto].
  - rewrite (calculate_totals_invalid st1); [|right; left; exact Hk].
    cbn [snd ui excel_file notify expenses expense_name_entry
         expense_amount_entry messages total_expenses_result
         st1 set_expense_entries set_expenses].
    do 4 (split; [reflexivity|]). split; [intros; discriminate | auto].
  - rewrite (calculate_totals_invalid st1); [|left; exact Hc].
    cbn [snd ui excel_file notify expenses expense_name_entry
         expense_amount_entry messages total_expenses_result
         st1 set_expense_entries set_expenses].
    do 4 (split; [reflexivity|]). split; [intros; discriminate | auto].
Qed.

Lemma X14_add_expense_appends_witness :
  let st := duplicates in
  let st' := @run_event example_builtins AddExpense st in
  expenses (ui st')
  = expenses (ui st) ++ [(expense_name_entry (ui st), 4)] /\
  expense_name_entry (ui st') = EmptyString /\
  expense_amount_entry (ui st') = EmptyString /\
  excel_file st' = excel_file st /\
  (forall cash credit credit_withdraw,
     @float_or_zero example_builtins (cash_entry (ui st)) = Some cash ->
     @float_or_zero example_builtins (credit_entry (ui st)) = Some credit ->
     @float_or_zero example_builtins (credit_withdraw_entry (ui st))
     = Some credit_withdraw ->
     messages (ui st') = messages (ui st) /\
     total_expenses_result (ui st')
     = @fmt example_builtins (sum_amounts (expenses (ui st)) + 4) /\
     total_cash_result (ui st')
     = @fmt example_builtins
         (last_day_cash (ui st) + cash + credit_withdraw
          - (sum_amounts (expenses (ui st)) + 4))) /\
  (@float_or_zero example_builtins (cash_entry (ui st)) = None \/
   @float_or_zero example_builtins (credit_entry (ui st)) = None \/
   @float_or_zero example_builtins (credit_withdraw_entry (ui st)) = None ->
   messages (ui st') = critical_invalid_income :: messages (ui st) /\
   total_expenses_result (ui st') = total_expenses_result (ui st)).
Proof.
  apply (@X14_add_expense_appends example_builtins duplicates 4).
  vm_compute. reflexivity.
Defined.

(** X15. With numbers (or nothing) in the three income entries, the label of
    the total expenses follows the expenses list through every event but a
    change of the date: when the label shows the sum of the list before the
    event, it shows the sum of the list after it, and after the calculate and
    save buttons it shows that sum whatever it showed before. *)
Theorem X15_total_expenses_label `{Builtins} (e : Event) (st : State)
    (cash credit credit_withdraw : Z) :
  float_or_zero (cash_entry (ui st)) = Some cash ->
  float_or_zero (credit_entry (ui st)) = Some credit ->
  float_or_zero (credit_withdraw_entry (ui st)) = Some credit_withdraw ->
  (forall q dlg, e <> DateChanged q dlg) ->
  total_expenses_result (ui st) = fmt (sum_amounts (expenses (ui st))) \/
  e = Calculate \/ e = SaveDailyData ->
  total_expenses_result (ui (run_event e st))
  = fmt (sum_amounts (expenses (ui (run_event e st)))).
Proof.
  intros Hc Hk Hw Hdate Hpre. unfold run_event.
  destruct e; cbn [handler].
  - destruct (Hdate q dlg). reflexivity.
  - destruct Hpre as [Hl | [E | E]]; [exact Hl | discriminate E..].
  - destruct Hpre as [Hl | [E | E]]; [exact Hl | discriminate E..].
  - destruct Hpre as [Hl | [E | E]]; [|discriminate E..].
    destruct (float (expense_amount_entry (ui st))) as [amount|] eqn:Ha.
    + rewrite (add_expense_run st amount Ha).
      apply (calculate_totals_label _ cash credit credit_withdraw); assumption.
    + rewrite (add_expense_invalid st Ha). exact Hl.
  - destruct Hpre as [Hl | [E | E]]; [|discriminate E..].
    destruct current_item as [sel|]; [|rewrite no_item_selected_edit; exact Hl].
    destruct (float (expense_amount_entry (ui st))) as [amount|] eqn:Ha;
      [|rewrite (edit_expense_invalid sel st Ha); exact Hl].
    destruct (edit_loop sel (expense_name_entry (ui st), amount) (expenses (ui st)))
      as [l|x] eqn:Hloop.
    + rewrite (edit_expense_run sel st amount l Ha Hloop).
      apply (calculate_totals_label _ cash credit credit_withdraw); assumption.
    + destruct (edit_expense_raise sel st amount x Ha Hloop) as [-> | ->]; exact Hl.
  - destruct Hpre as [Hl | [E | E]]; [|discriminate E..].
    destruct current_item as [sel|]; [|rewrite no_item_selected_delete; exact Hl].
    destruct (delete_loop sel (expenses (ui st))) as [l|x] eqn:Hloop.
    + rewrite (delete_expense_run sel st l Hloop).
      apply (calculate_totals_label _ cash credit credit_withdraw); assumption.
    + destruct (delete_expense_raise sel st x Hloop) as [-> | ->]; exact Hl.
  - unfold bind. rewrite (calculate_totals_valid st _ _ _ Hc Hk Hw). reflexivity.
  - unfold save_daily_data, try_except_ValueError, save_data_m, save_data. run.
    rewrite (calculate_totals_valid st _ _ _ Hc Hk Hw). proj.
    destruct (excel_file st) as [df|]; proj; [|reflexivity].
    match goal with |- context [save_frame ?d df] =>
      destruct (save_frame d df) as [df'|[]] end; proj; reflexivity.
Qed.

Lemma X15_total_expenses_label_witness :
  total_expenses_result
    (ui (@run_event example_builtins (DeleteExpense (Some ("ice", "3")))
           first_day))
  = example_fmt
      (sum_amounts
         (expenses
            (ui (@run_event example_builtins (DeleteExpense (Some ("ice", "3")))
                   first_day)))).
Proof.
  apply (@X15_total_expenses_label example_builtins
           (DeleteExpense (Some ("ice", "3"))) first_day 10 20 5).
  - vm_compute. reflexivity.
  - vm_compute. reflexivity.
  - vm_compute. reflexivity.
  - intros q dlg. discriminate.
  - left. vm_compute. reflexivity.
Defined.

(** X16. Clicking a list item whose name and amount text do not contain the
    separator [': '] puts exactly the name into the name entry and the amount
    text into the amount entry, and changes nothing else; the two pieces that
    [edit_expense] and [delete_expense] read from the item are the same
    two texts. *)
Theorem X16_on_expense_selected_fills_entries (name amount_text : string)
    (st : State) :
  contains ": " name = false -> contains ": " amount_text = false ->
  on_expense_selected (item_text name amount_text) st
  = (Ok tt,
     mkState (excel_file st) (set_expense_entries name amount_text (ui st))) /\
  selected_pieces (item_text name amount_text) = Ok (name, amount_text).
Proof.
  intros Hn Ha. unfold on_expense_selected, selected_pieces. run.
  rewrite (split_item_text name amount_text Hn Ha). split; reflexivity.
Qed.

Lemma X16_on_expense_selected_fills_entries_witness :
  on_expense_selected (item_text "ice" "3.00") first_day
  = (Ok tt,
     mkState (excel_file first_day)
       (set_expense_entries "ice" "3.00" (ui first_day))) /\
  selected_pieces (item_text "ice" "3.00") = Ok ("ice", "3.00").
Proof.
  apply X16_on_expense_selected_fills_entries; reflexivity.
Defined.

(** X17. For an expense whose name contains the separator, as in
    [a ++ ': ' ++ b], the item text is cut at the first separator: a click
    puts [a] into the name entry and [b], not the amount, into the amount
    entry, and [edit_expense] and [delete_expense] search the list for the
    name [a].  When no expense of the list has that name, [delete_expense]
    on this item removes nothing from the list. *)
Theorem X17_separator_in_name `{Builtins} (a b amount_text : string)
    (st : State) :
  contains ": " a = false -> contains ": " b = false ->
  on_expense_selected (item_text (a +:+ ": " +:+ b) amount_text) st
  = (Ok tt, mkState (excel_file st) (set_expense_entries a b (ui st))) /\
  selected_pieces (item_text (a +:+ ": " +:+ b) amount_text) = Ok (a, b) /\
  (Forall (fun x => fst x <> a) (expenses (ui st)) ->
   expenses (ui (run_event (DeleteExpense (Some (a, b))) st))
   = expenses (ui st)).
Proof.
  intros Ha Hb.
  destruct (split_item_text_sep a b amount_text Ha Hb) as (pieces & Hsplit).
  unfold on_expense_selected, selected_pieces. run. rewrite Hsplit.
  split; [reflexivity|]. split; [reflexivity|].
  intros Hne. unfold run_event. cbn [handler].
  rewrite delete_expense_expenses.
  destruct (delete_loop_no_match (a, b) (expenses (ui st))) as [-> | ->];
    [|reflexivity..].
  eapply Forall_impl; [exact Hne|]. intros x Hx [Hm _]. exact (Hx Hm).
Qed.

Lemma X17_separator_in_name_witness :
  on_expense_selected (item_text ("rent" +:+ ": " +:+ "shop") "9.00") first_day
  = (Ok tt,
     mkState (excel_file first_day)
       (set_expense_entries "rent" "shop" (ui first_day))) /\
  selected_pieces (item_text ("rent" +:+ ": " +:+ "shop") "9.00")
  = Ok ("rent", "shop") /\
  (Forall (fun x => fst x <> "rent") (expenses (ui first_day)) ->
   expenses
     (ui (@run_event example_builtins (DeleteExpense (Some ("rent", "shop")))
            first_day))
   = expenses (ui first_day)).
Proof.
  apply (@X17_separator_in_name example_builtins "rent" "shop" "9.00" first_day);
    reflexivity.
Defined.

(** X18. Selecting the earliest stored date, or a date before it, re-bases
    the ledger on the balances of the first day dialog.  On an ordered sheet
    whose first row is not dated before the selected date, [load_data] shows
    the dialog and saves an opening row dated the day before the selected
    date, in front of all rows.  Every row that was stored has the same
    amounts added to its running totals, namely the balance of the dialog
    less the running total of the former first row, and keeps its other
    fields; the opening row has no flows, so that the flow differences, which
    [save_data] adds as well, are zero. *)
Theorem X18_dialog_rebases_ledger `{Builtins} (dlg : DialogAnswer) (st : State)
    (row0 : Row) (rest : DataFrame) :
  let d := toString (date_picker (ui st)) in
  let credit := fst (dialog_balances dlg) in
  let cash := snd (dialog_balances dlg) in
  excel_file st = Some (row0 :: rest) ->
  date_ordered (row0 :: rest) -> wf_dates (row0 :: rest) ->
  valid_qdate (date_picker (ui st)) = true ->
  String.ltb (Date row0) d = false ->
  exists st' boot df',
    load_data d dlg st = (Ok (mkResolution true NeedsBootstrap), st') /\
    excel_file st' = Some (boot :: df') /\
    Date boot = toString (addDays_minus1 (date_picker (ui st))) /\
    Cash boot = 0 /\ Credit boot = 0 /\ Credit_Withdraw boot = 0 /\
    Total_Sellings boot = 0 /\ Total_Expenses boot = 0 /\
    Expenses boot = NoExpenses /\
    Total_Credit boot = credit /\ Total_Cash boot = cash /\
    last_day_credit (ui st') = credit /\ last_day_cash (ui st') = cash /\
    length df' = length (row0 :: rest) /\
    forall i r, (row0 :: rest) !! i = Some r ->
      exists r', df' !! i = Some r' /\
        Total_Credit r' = Total_Credit r + (credit - Total_Credit row0) /\
        Total_Cash r' = Total_Cash r + (cash - Total_Cash row0) /\
        Date r' = Date r /\ Cash r' = Cash r /\ Credit r' = Credit r /\
        Credit_Withdraw r' = Credit_Withdraw r /\
        Total_Sellings r' = Total_Sellings r /\
        Total_Expenses r' = Total_Expenses r /\ Expenses r' = Expenses r.
Proof.
  intros d credit cash Hf Hs Hwf Hq Hge.
  set (boot := initial_row (toString (addDays_minus1 (date_picker (ui st))))
                 credit cash).
  assert (Hnb : Forall (not_before d) (row0 :: rest)).
  { constructor; [exact Hge|]. apply sortedb_cons in Hs as [Hall _].
    eapply Forall_impl; [exact Hall|]. intros r Hr. unfold not_before, after in *.
    destruct (String.ltb (Date r) d) eqn:E; [|reflexivity].
    rewrite (ltb_trans _ _ _ Hr E) in Hge. discriminate. }
  assert (Hafter : Forall (after (Date boot)) (row0 :: rest)).
  { eapply Forall_impl; [exact Hnb|]. intros r Hr. unfold after.
    destruct (not_before_cases _ _ Hr) as [-> | Ha].
    - apply first_date_ltb, Hq.
    - eapply ltb_trans; [apply first_date_ltb, Hq | exact Ha]. }
  assert (Hwb : wf_date (Date boot)) by apply wf_date_first_date, Hq.
  assert (Hsave : save_frame boot (row0 :: rest)
                  = Ok (boot :: (add_totals (credit - Total_Credit row0)
                                   (cash - Total_Cash row0) <$> row0 :: rest))).
  { rewrite (save_frame_new_first boot row0 rest Hs Hafter).
    - change (credit_flow boot) with 0. change (cash_flow boot) with 0.
      rewrite fmap_add_totals_zero. reflexivity.
    - apply date_exists_false; [exact Hwb | exact Hwf |].
      eapply Forall_impl; [exact Hafter | apply after_neq]. }
  set (st0 := snd (clear_data st)).
  assert (Hf0 : excel_file st0 = Some (row0 :: rest))
    by (unfold st0; rewrite clear_data_file; exact Hf).
  assert (Hd0 : date_picker (ui st0) = date_picker (ui st))
    by apply clear_data_date.
  destruct (show_first_day_dialog_run dlg st0 (row0 :: rest)
              (boot :: (add_totals (credit - Total_Credit row0)
                          (cash - Total_Cash row0) <$> row0 :: rest)) Hf0)
    as (s' & Hrun & _ & Hc & Hk).
  { rewrite Hd0. exact Hsave. }
  rewrite (load_data_Some d dlg st _ Hf). fold st0.
  destruct (load_frame_spec dlg false st0 _ Hf0 Hs Hwf) as (res & st' & Hload & Hout).
  { rewrite Hd0. exact Hq. }
  rewrite Hd0 in Hload, Hout. fold d in Hload, Hout. rewrite Hload.
  destruct Hout as [st' _ Hdlg | pre prior cur post Hdf Hb Hcur
                   | pre prior post Hdf Hb Hafter'].
  - rewrite Hrun in Hdlg. injection Hdlg as <-.
    eexists _, boot,
      (add_totals (credit - Total_Credit row0) (cash - Total_Cash row0)
         <$> row0 :: rest).
    split; [reflexivity|].
    split; [reflexivity|]. do 9 (split; [reflexivity|]).
    cbn [ui]. split; [exact Hc|]. split; [exact Hk|].
    split; [apply length_fmap|]. intros i r Hi.
    exists (add_totals (credit - Total_Credit row0) (cash - Total_Cash row0) r).
    split; [rewrite list_lookup_fmap, Hi; reflexivity|]. repeat split.
  - exfalso. rewrite Hdf in Hnb. apply Forall_app in Hnb as [_ Hnb].
    apply Forall_cons in Hnb as [Hnb _]. exact (before_not_before d prior Hb Hnb).
  - exfalso. rewrite Hdf in Hnb. apply Forall_app in Hnb as [_ Hnb].
    apply Forall_cons in Hnb as [Hnb _]. exact (before_not_before d prior Hb Hnb).
Qed.

Lemma X18_dialog_rebases_ledger_witness :
  let st := mkState (Some two_days_df) (initial_session (march 9)) in
  let row0 := mkRow "2024-03-09" 0 0 0 0 100 50 0 NoExpenses in
  let rest :=
    [mkRow "2024-03-10" 10 20 5 30 115 62 3 (ExpenseList [("ice", 3)]);
     mkRow "2024-03-12" 1 2 0 3 117 63 0 NoExpenses] in
  let d := toString (date_picker (ui st)) in
  let credit := fst (@dialog_balances example_builtins (Accepted "200" "80")) in
  let cash := snd (@dialog_balances example_builtins (Accepted "200" "80")) in
  exists st' boot df',
    @load_data example_builtins d (Accepted "200" "80") st
    = (Ok (mkResolution true NeedsBootstrap), st') /\
    excel_file st' = Some (boot :: df') /\
    Date boot = toString (addDays_minus1 (date_picker (ui st))) /\
    Cash boot = 0 /\ Credit boot = 0 /\ Credit_Withdraw boot = 0 /\
    Total_Sellings boot = 0 /\ Total_Expenses boot = 0 /\
    Expenses boot = NoExpenses /\
    Total_Credit boot = credit /\ Total_Cash boot = cash /\
    last_day_credit (ui st') = credit /\ last_day_cash (ui st') = cash /\
    length df' = length (row0 :: rest) /\
    forall i r, (row0 :: rest) !! i = Some r ->
      exists r', df' !! i = Some r' /\
        Total_Credit r' = Total_Credit r + (credit - Total_Credit row0) /\
        Total_Cash r' = Total_Cash r + (cash - Total_Cash row0) /\
        Date r' = Date r /\ Cash r' = Cash r /\ Credit r' = Credit r /\
        Credit_Withdraw r' = Credit_Withdraw r /\
        Total_Sellings r' = Total_Sellings r /\
        Total_Expenses r' = Total_Expenses r /\ Expenses r' = Expenses r.
Proof.
  apply (@X18_dialog_rebases_ledger example_builtins (Accepted "200" "80")
           (mkState (Some two_days_df) (initial_session (march 9)))
           (mkRow "2024-03-09" 0 0 0 0 100 50 0 NoExpenses)
           [mkRow "2024-03-10" 10 20 5 30 115 62 3 (ExpenseList [("ice", 3)]);
            mkRow "2024-03-12" 1 2 0 3 117 63 0 NoExpenses]).
  - reflexivity.
  - reflexivity.
  - repeat constructor; eexists; vm_compute; reflexivity.
  - reflexivity.
  - reflexivity.
Defined.

(** X19. The two orders on dates that the code uses agree, and the texts it
    builds are dates: on texts that [pd.Timestamp] reads, the comparison of
    timestamps in [load_data] is the comparison of the texts by which
    [save_data] sorts; the text of a date of the picker reads back as that
    date; and the date of the opening row, the day before the selected one,
    is such a text again and comes strictly before the selected date. *)
Theorem X19_date_orders_agree :
  (forall a b ta tb,
     Timestamp a = Some ta -> Timestamp b = Some tb ->
     ts_ltb ta tb = String.ltb a b) /\
  (forall q,
     valid_qdate q = true ->
     Timestamp (toString q) = Some q /\
     wf_date (toString (addDays_minus1 q)) /\
     String.ltb (toString (addDays_minus1 q)) (toString q) = true).
Proof.
  split.
  - intros a b ta tb Ha Hb. exact (Timestamp_ltb a ta b tb Ha Hb).
  - intros q Hq. split; [apply Timestamp_toString, valid_printable, Hq|].
    split; [apply wf_date_first_date, Hq | apply first_date_ltb, Hq].
Qed.

Lemma X19_date_orders_agree_witness :
  ts_ltb (mkTs 2024 2 29) (mkTs 2024 3 1) = String.ltb "2024-02-29" "2024-03-01" /\
  Timestamp (toString (mkTs 2024 3 1)) = Some (mkTs 2024 3 1) /\
  wf_date (toString (addDays_minus1 (mkTs 2024 3 1))) /\
  String.ltb (toString (addDays_minus1 (mkTs 2024 3 1))) (toString (mkTs 2024 3 1))
  = true.
Proof.
  split.
  - apply (proj1 X19_date_orders_agree "2024-02-29" "2024-03-01"); reflexivity.
  - apply (proj2 X19_date_orders_agree (mkTs 2024 3 1)). reflexivity.
Defined.
